(** * Booking calendar: timeline layout, date normalisation, source labels

    A shallow embedding of the booking application's JavaScript:

    - [BookingCalendar] : the browser front end (lane layout of
      [renderRoomRow], [normalizeDate], [parseIsoDate], the selection
      handling of [renderCalendar]);
    - [Beds24API]       : the Beds24 client ([determineSource], [parseDate]);
      [Beds24Json] has [determineSource] on records of any JSON values;
    - [IcsParser]       : the iCalendar module ([parseICSDate],
      [determineSource]).

    Dates are ECMAScript time values (milliseconds since the epoch, [Z]).
    [Math.floor], [Math.ceil] and [Math.round] of a quotient of time
    values are written as the exact integer operations. The execution
    environment's time zone is a parameter ([JsDate.Zone]): the lane
    theorems hold for any zone, the dated examples for local midnights at
    one offset from UTC. Text is ASCII. *)

From Stdlib Require Import ZArith Lia Bool Ascii String List.
From Stdlib Require Import Sorting.Sorted Sorting.Permutation.
From stdpp Require Import base list sorting strings.

Open Scope Z_scope.

(** ** The JavaScript environment: time values and time zones *)

Module JsDate.

(** [getMsPerDay()]: 24 * 60 * 60 * 1000. *)
Definition msPerDay : Z := 24 * 60 * 60 * 1000.

(** [Math.floor (a / b)], [Math.ceil (a / b)] and [Math.round (a / b)]
    for a positive divisor; [Math.round] rounds halves upwards. *)
Definition floorDiv (a b : Z) : Z := a / b.
Definition ceilDiv (a b : Z) : Z := - ((- a) / b).
Definition roundDiv (a b : Z) : Z := (2 * a + b) / (2 * b).

(** What the execution environment's time zone does to a time value:
    [setHours0] is [Date.prototype.setHours(0, 0, 0, 0)] (the local
    midnight at or before the instant) and [addDay] is
    [d.setDate(d.getDate() + 1)] (the same local time on the next local
    day). *)
Record Zone := {
  setHours0 : Z -> Z;
  addDay : Z -> Z
}.

(** A zone whose local time is UTC plus a constant [tz] milliseconds. *)
Definition fixedOffset (tz : Z) : Zone := {|
  setHours0 := fun t => (t + tz) / msPerDay * msPerDay - tz;
  addDay := fun t => t + msPerDay
|}.

(** A zone that moves its clocks once: local time is UTC plus [o1] before
    the instant [change] and UTC plus [o2] from it on. [localToUTC] is
    ECMAScript's UTC(t) for such a zone: a local time is read at the
    offset in force when it occurs, and one that occurs twice (clocks put
    back) or never (skipped when clocks are put forward) at the offset
    before the change. *)
Definition localToUTC (change o1 o2 local : Z) : Z :=
  if local - o1 <? change then local - o1
  else if change <=? local - o2 then local - o2
  else local - o1.

Definition offsetChange (change o1 o2 : Z) : Zone := {|
  setHours0 := fun t =>
    let off := if t <? change then o1 else o2 in
    localToUTC change o1 o2 ((t + off) / msPerDay * msPerDay);
  addDay := fun t =>
    let off := if t <? change then o1 else o2 in
    localToUTC change o1 o2 (t + off + msPerDay)
|}.

(** The local day number (days since 1970-01-01) of an instant. *)
Definition localDay (tz t : Z) : Z := (t + tz) / msPerDay.

(** ECMAScript's calendar arithmetic (Day Number and Time Within Day,
    Year Number, Month Number, MakeDay, MakeTime, MakeDate, TimeClip). *)
Definition DayFromYear (y : Z) : Z :=
  365 * (y - 1970) + (y - 1969) / 4 - (y - 1901) / 100 + (y - 1601) / 400.

Definition InLeapYear (y : Z) : bool :=
  ((y mod 4 =? 0) && negb (y mod 100 =? 0)) || (y mod 400 =? 0).

Definition monthStart (leap : bool) (mn : Z) : Z :=
  let l := if leap then 1 else 0 in
  if mn =? 0 then 0 else if mn =? 1 then 31 else
  if mn =? 2 then 59 + l else if mn =? 3 then 90 + l else
  if mn =? 4 then 120 + l else if mn =? 5 then 151 + l else
  if mn =? 6 then 181 + l else if mn =? 7 then 212 + l else
  if mn =? 8 then 243 + l else if mn =? 9 then 273 + l else
  if mn =? 10 then 304 + l else 334 + l.

(** [MakeDay (year, month, date)], [month] counted from 0; months outside
    0..11 and dates outside the month carry over. *)
Definition MakeDay (year month date : Z) : Z :=
  let ym := year + month / 12 in
  let mn := month mod 12 in
  DayFromYear ym + monthStart (InLeapYear ym) mn + date - 1.

Definition MakeTime (hour min sec ms : Z) : Z :=
  hour * 3600000 + min * 60000 + sec * 1000 + ms.

Definition MakeDate (day time : Z) : Z := day * msPerDay + time.

(** A [Date] object: a time value, or the invalid date (time value NaN). *)
Inductive DateValue :=
| ValidDate (t : Z)
| InvalidDate.

Definition TimeClip (t : Z) : DateValue :=
  if Z.abs t <=? 8640000000000000 then ValidDate t else InvalidDate.

(** Years 0..99 given to [Date.UTC] or to the [Date] constructor mean
    1900..1999. *)
Definition fullYear (y : Z) : Z :=
  if (0 <=? y) && (y <=? 99) then 1900 + y else y.

(** [new Date(Date.UTC(year, month, day, hour, minute, second))]. *)
Definition DateUTC (year month day hour minute second : Z) : DateValue :=
  TimeClip (MakeDate (MakeDay (fullYear year) month day)
                     (MakeTime hour minute second 0)).

(** [new Date(year, month, day)]: local midnight of that day, here in a
    zone at a constant offset [tz] from UTC. *)
Definition DateLocal (tz year month day : Z) : DateValue :=
  TimeClip (MakeDate (MakeDay (fullYear year) month day) 0 - tz).

End JsDate.

(** ** Strings *)

Module JsString.

(** [String.prototype.toLowerCase] on ASCII text. *)
Definition lowerAscii (c : ascii) : ascii :=
  let n := nat_of_ascii c in
  if ((65 <=? n) && (n <=? 90))%nat then ascii_of_nat (n + 32) else c.

Fixpoint toLowerCase (s : string) : string :=
  match s with
  | EmptyString => EmptyString
  | String c r => String (lowerAscii c) (toLowerCase r)
  end.

(** [s.includes(sub)]. *)
Fixpoint includes (s sub : string) : bool :=
  String.prefix sub s
  || match s with
     | EmptyString => false
     | String _ r => includes r sub
     end.

(** [a || b] on strings where [undefined], [null] and the empty string are
    falsy; [None] stands for [undefined] or [null]. *)
Definition truthy (v : option string) : bool :=
  match v with
  | Some s => negb (String.eqb s EmptyString)
  | None => false
  end.

Definition orElse (a b : option string) : option string :=
  if truthy a then a else b.

(** [(v || '')] for a final empty-string default. *)
Definition orEmpty (v : option string) : string :=
  match v with
  | Some s => s
  | None => EmptyString
  end.

Definition isDigit (c : ascii) : bool :=
  let n := nat_of_ascii c in ((48 <=? n) && (n <=? 57))%nat.

Definition digitValue (c : ascii) : Z := Z.of_nat (nat_of_ascii c) - 48.

(** [Number(s)] for a string of decimal digits. *)
Definition numberOfDigits (s : string) : Z :=
  fold_left (fun acc c => 10 * acc + digitValue c) (list_ascii_of_string s) 0.

Definition allDigits (s : string) : bool :=
  forallb isDigit (list_ascii_of_string s).

End JsString.

(** ** The front end: [class BookingCalendar] *)

Module BookingCalendar.
Import JsDate JsString.

(** A booking as the front end holds it after [loadBookings]: [startDate]
    and [endDate] are [Date] objects, or [None] for [null] and for an
    invalid date (both are refused by [normalizeDate]). *)
Record Booking := {
  id : string;
  guestName : string;
  room : string;
  source : string;
  startDate : option Z;
  endDate : option Z
}.

(** [normalizeDate(value)]. *)
Definition normalizeDate (z : Zone) (value : option Z) : option Z :=
  match value with
  | None => None
  | Some t => Some (setHours0 z t)
  end.

(** [{...booking, checkIn, checkOut}] for a booking whose two normalised
    dates are both non-null. *)
Record RoomBooking := {
  original : Booking;
  checkIn : Z;
  checkOut : Z
}.

(** The [.map(...)] and the [.filter(booking => booking.checkIn &&
    booking.checkOut)] that follows it. *)
Definition withCheckDates (z : Zone) (b : Booking) : option RoomBooking :=
  match normalizeDate z (startDate b), normalizeDate z (endDate b) with
  | Some ci, Some co => Some {| original := b; checkIn := ci; checkOut := co |}
  | _, _ => None
  end.

(** [.sort((a, b) => a.checkIn - b.checkIn)]: [Array.prototype.sort] is
    stable, so it is an insertion that keeps equal keys in input order. *)
Fixpoint insertByCheckIn (x : RoomBooking) (l : list RoomBooking)
  : list RoomBooking :=
  match l with
  | [] => [x]
  | y :: l' =>
      if checkIn x <=? checkIn y then x :: y :: l'
      else y :: insertByCheckIn x l'
  end.

Definition sortByCheckIn (l : list RoomBooking) : list RoomBooking :=
  fold_right insertByCheckIn [] l.

Definition sameRoom (roomName : string) (b : Booking) : bool :=
  String.eqb (toLowerCase (room b)) (toLowerCase roomName).

(** The room's bookings before the sort, and after it. *)
Definition roomCandidates (z : Zone) (roomName : string)
    (bookings : list Booking) : list RoomBooking :=
  omap (withCheckDates z) (List.filter (sameRoom roomName) bookings).

Definition roomBookings (z : Zone) (roomName : string)
    (bookings : list Booking) : list RoomBooking :=
  sortByCheckIn (roomCandidates z roomName bookings).

(** An element pushed on [layoutBookings]. *)
Record LayoutBooking := {
  booking : RoomBooking;
  startOffset : Z;
  duration : Z;
  laneIndex : nat
}.

(** A JavaScript array of numbers; [None] is a hole, read as [undefined]. *)
Definition arrayGet (a : list (option Z)) (i : nat) : option Z :=
  mjoin (a !! i).

(** [a[i] = v]: overwrite inside the array, extend it (leaving holes)
    at or beyond its length. *)
Definition arraySet (a : list (option Z)) (i : nat) (v : Z)
  : list (option Z) :=
  if (i <? length a)%nat then <[i := Some v]> a
  else a ++ replicate (i - length a) None ++ [Some v].

(** [while (laneEndOffsets[laneIndex] !== undefined &&
            laneEndOffsets[laneIndex] > startOffset) laneIndex += 1]. *)
Fixpoint scanLanes (fuel : nat) (laneEndOffsets : list (option Z))
    (startOffset : Z) (laneIndex : nat) : nat :=
  match fuel with
  | O => laneIndex
  | S fuel' =>
      match arrayGet laneEndOffsets laneIndex with
      | Some e =>
          if e >? startOffset
          then scanLanes fuel' laneEndOffsets startOffset (S laneIndex)
          else laneIndex
      | None => laneIndex
      end
  end.

(** The loop leaves the array after at most [length] steps. *)
Definition firstFreeLane (laneEndOffsets : list (option Z))
    (startOffset : Z) : nat :=
  scanLanes (S (length laneEndOffsets)) laneEndOffsets startOffset 0.

Record LayoutState := {
  laneEndOffsets : list (option Z);
  layoutBookings : list LayoutBooking
}.

Definition emptyLayout : LayoutState :=
  {| laneEndOffsets := []; layoutBookings := [] |}.

(** The body of [roomBookings.forEach(booking => ...)]. *)
Definition layoutStep (gridStart gridEndExclusive totalDays : Z)
    (st : LayoutState) (b : RoomBooking) : LayoutState :=
  let barStartTime := Z.max (checkIn b) gridStart in
  let barEndTime := Z.min (checkOut b) gridEndExclusive in
  if barEndTime <=? barStartTime then st else
  let startOffset := Z.max 0 (floorDiv (barStartTime - gridStart) msPerDay) in
  if startOffset >=? totalDays then st else
  let rawEndOffset := ceilDiv (barEndTime - gridStart) msPerDay in
  let endOffset := Z.max startOffset (Z.min totalDays rawEndOffset) in
  let duration := endOffset - startOffset in
  if duration <=? 0 then st else
  let laneIndex := firstFreeLane (laneEndOffsets st) startOffset in
  {| laneEndOffsets := arraySet (laneEndOffsets st) laneIndex endOffset;
     layoutBookings := layoutBookings st ++
       [ {| booking := b; startOffset := startOffset;
            duration := duration; laneIndex := laneIndex |} ] |}.

Definition gridStartOf (z : Zone) (startDate : Z) : Z := setHours0 z startDate.

Definition gridEndExclusiveOf (z : Zone) (endDate : Z) : Z :=
  addDay z (setHours0 z endDate).

Definition totalDaysOf (z : Zone) (startDate endDate : Z) : Z :=
  Z.max 0 (roundDiv (gridEndExclusiveOf z endDate - gridStartOf z startDate)
                    msPerDay).

(** [roomBookings.forEach(...)] over an already sorted array. *)
Definition layoutPass (z : Zone) (startDate endDate : Z)
    (sorted : list RoomBooking) : LayoutState :=
  fold_left
    (layoutStep (gridStartOf z startDate) (gridEndExclusiveOf z endDate)
                (totalDaysOf z startDate endDate))
    sorted emptyLayout.

(** The layout pass of [renderRoomRow(roomName, bookings, startDate,
    endDate)]: everything up to the HTML that is built from
    [layoutBookings] and [laneEndOffsets]. *)
Definition renderRoomRow (z : Zone) (roomName : string)
    (bookings : list Booking) (startDate endDate : Z) : LayoutState :=
  layoutPass z startDate endDate (roomBookings z roomName bookings).

(** [laneCount] and [calendarHeight], the row's vertical extent. *)
Definition laneCount (st : LayoutState) : Z :=
  Z.max 1 (Z.of_nat (length (laneEndOffsets st))).

Definition calendarHeight (st : LayoutState) : Z :=
  Z.max 60 (15 * 2 + 30 + (laneCount st - 1) * 38).

(** *** Selection *)

(** The part of the calendar object that selection handling reads and
    writes; [hasCalendarEl] says whether the page has the [#calendar]
    element ([renderCalendar] returns at once without it). *)
Record Calendar := {
  bookings : list Booking;
  filter : string;
  selectedBookingId : option string;
  hasCalendarEl : bool
}.

(** [getFilteredBookings()]. *)
Definition getFilteredBookings (c : Calendar) : list Booking :=
  List.filter
    (fun b => String.eqb (filter c) "all" || String.eqb (source b) (filter c))
    (bookings c).

(** [String(v)] of an id that is a string, or of [null]. *)
Definition stringOf (v : option string) : string :=
  match v with
  | Some s => s
  | None => "null"
  end.

(** [String(b.id) === String(this.selectedBookingId)]. *)
Definition sameId (c : Calendar) (b : Booking) : bool :=
  String.eqb (id b) (stringOf (selectedBookingId c)).

(** [this.selectedBookingId && String(booking.id) ===
    String(this.selectedBookingId)], the test that marks a bar as selected. *)
Definition isSelected (c : Calendar) (b : Booking) : bool :=
  truthy (selectedBookingId c) && sameId c b.

Definition setSelected (c : Calendar) (sel : option string) : Calendar :=
  {| bookings := bookings c; filter := filter c;
     selectedBookingId := sel; hasCalendarEl := hasCalendarEl c |}.

(** The selection check at the head of [renderCalendar()]. *)
Definition renderCalendar (c : Calendar) : Calendar :=
  if negb (hasCalendarEl c) then c
  else if truthy (selectedBookingId c)
          && negb (existsb (sameId c) (getFilteredBookings c))
       then setSelected c None
       else c.

(** [findBookingById(bookingId)] and [selectBookingById(bookingId)]. *)
Definition findBookingById (c : Calendar) (bookingId : option string)
  : option Booking :=
  match bookingId with
  | Some s =>
      if truthy bookingId
      then List.find (fun b => String.eqb (id b) s) (bookings c)
      else None
  | None => None
  end.

Definition selectBookingById (c : Calendar) (bookingId : option string)
  : Calendar :=
  if negb (truthy bookingId) then c
  else match findBookingById c bookingId with
       | Some b => setSelected c (Some (id b))
       | None => c
       end.

(** *** [parseIsoDate] *)

(** The values [parseIsoDate] tells apart. *)
Inductive IsoInput :=
| InNull
| InDate (d : DateValue)
| InNumber (n : Z)
| InString (s : string)
| InOther.

(** [value.match(/^(\d{4})-(\d{2})-(\d{2})/)]: the three captured groups. *)
Definition matchIsoPrefix (s : string) : option (string * string * string) :=
  let y := substring 0 4 s in
  let m := substring 5 2 s in
  let d := substring 8 2 s in
  if (String.length (substring 0 10 s) =? 10)%nat
     && allDigits y && String.eqb (substring 4 1 s) "-"
     && allDigits m && String.eqb (substring 7 1 s) "-"
     && allDigits d
  then Some (y, m, d) else None.

Definition notInvalid (d : DateValue) : option DateValue :=
  match d with
  | ValidDate t => Some d
  | InvalidDate => None
  end.

(** [parseIsoDate(value)]; [dateParse] is the environment's
    [new Date(string)]. [Number] of a run of digits is never NaN, so the
    inner guard always passes. *)
Definition parseIsoDate (dateParse : string -> DateValue) (value : IsoInput)
  : option DateValue :=
  match value with
  | InNull => None
  | InDate d => Some d
  | InNumber n => if n =? 0 then None else notInvalid (TimeClip n)
  | InString s =>
      if String.eqb s EmptyString then None else
      match matchIsoPrefix s with
      | Some (yearStr, monthStr, dayStr) =>
          let year := numberOfDigits yearStr in
          let month := numberOfDigits monthStr - 1 in
          let day := numberOfDigits dayStr in
          Some (DateUTC year month day 12 0 0)
      | None => notInvalid (dateParse s)
      end
  | InOther => None
  end.

End BookingCalendar.

(** ** The Beds24 client: [class Beds24API] *)

Module Beds24API.
Import JsDate JsString.

(** The fields of a raw Beds24 record that [determineSource] reads, for
    the records in which they are text, [None] when absent; a record
    whose fields hold other JSON values is a [Beds24Json.RawRecord]. *)
Record RawBooking := {
  referer : option string;
  channel : option string;
  source : option string;
  bookingSource : option string
}.

(** The three local constants of [determineSource]. *)
Definition refererText (b : RawBooking) : string :=
  toLowerCase (orEmpty (orElse (referer b) (channel b))).

Definition sourceText (b : RawBooking) : string :=
  toLowerCase (orEmpty (orElse (source b) (bookingSource b))).

Definition channelText (b : RawBooking) : string :=
  toLowerCase (orEmpty (channel b)).

(** [determineSource(booking)]. *)
Definition determineSource (b : RawBooking) : string :=
  let referer := refererText b in
  let source := sourceText b in
  let channel := channelText b in
  if includes referer "airbnb" || includes source "airbnb" then "airbnb"
  else if includes referer "booking" || includes source "booking" then "booking"
  else if includes referer "expedia" || includes source "expedia" then "expedia"
  else if String.eqb channel "direct"
          || includes referer "direct"
          || includes source "direct"
          || includes referer "pavlosol"
          || includes referer "app"
          || includes channel "website"
  then "direct"
  else if negb (String.eqb source EmptyString) then source
  else if negb (String.eqb referer EmptyString) then referer
  else "direct".

(** [/^\d{4}-\d{2}-\d{2}$/.test(dateString)]. *)
Definition isDateOnly (s : string) : bool :=
  (String.length s =? 10)%nat
  && allDigits (substring 0 4 s) && String.eqb (substring 4 1 s) "-"
  && allDigits (substring 5 2 s) && String.eqb (substring 7 1 s) "-"
  && allDigits (substring 8 2 s).

(** [parseDate(dateString)] on a text field; [dateParse] is the
    environment's [new Date(string)]. *)
Definition parseDate (dateParse : string -> DateValue)
    (dateString : option string) : option DateValue :=
  match dateString with
  | None => None
  | Some s =>
      if String.eqb s EmptyString then None
      else if isDateOnly s then
        let year := numberOfDigits (substring 0 4 s) in
        let month := numberOfDigits (substring 5 2 s) in
        let day := numberOfDigits (substring 8 2 s) in
        Some (DateUTC year (month - 1) day 12 0 0)
      else match dateParse s with
           | ValidDate t => Some (ValidDate t)
           | InvalidDate => None
           end
  end.

End Beds24API.

(** ** The iCalendar module *)

Module IcsParser.
Import JsDate JsString.

Record IcsEvent := {
  summary : option string;
  description : option string;
  uid : option string
}.

(** [determineSource(event)]. *)
Definition determineSource (event : IcsEvent) : string :=
  let summary := toLowerCase (orEmpty (summary event)) in
  let description := toLowerCase (orEmpty (description event)) in
  let uid := toLowerCase (orEmpty (uid event)) in
  if includes summary "airbnb" || includes description "airbnb"
     || includes uid "airbnb"
  then "airbnb"
  else if includes summary "booking" || includes description "booking"
          || includes uid "booking"
  then "booking"
  else "airbnb".

(** [parseInt(s, 10)]: leading white space, an optional sign, then the
    longest run of digits; [None] is NaN. *)
Definition isSpace (c : ascii) : bool :=
  let n := nat_of_ascii c in
  ((9 <=? n) && (n <=? 13) || (n =? 32))%nat.

Fixpoint skipSpaces (s : string) : string :=
  match s with
  | String c r => if isSpace c then skipSpaces r else s
  | EmptyString => s
  end.

Fixpoint leadingDigits (s : string) : string :=
  match s with
  | String c r => if isDigit c then String c (leadingDigits r) else EmptyString
  | EmptyString => EmptyString
  end.

Definition parseInt10 (s : string) : option Z :=
  let s1 := skipSpaces s in
  let '(sign, s2) :=
    match s1 with
    | String "-"%char r => (-1, r)
    | String "+"%char r => (1, r)
    | _ => (1, s1)
    end in
  let ds := leadingDigits s2 in
  if String.eqb ds EmptyString then None else Some (sign * numberOfDigits ds).

(** [dateString.replace(/^VALUE=DATE:/, '')]. *)
Definition stripValueDate (s : string) : string :=
  if String.prefix "VALUE=DATE:" s
  then substring 11 (String.length s - 11) s else s.

(** [parseICSDate(dateString)] in a zone at the constant offset [tz]. *)
Definition parseICSDate (tz : Z) (dateString : option string)
  : option DateValue :=
  if negb (truthy dateString) then None else
  let dateString := stripValueDate (orEmpty dateString) in
  let year := parseInt10 (substring 0 4 dateString) in
  let month := option_map (fun m => m - 1) (parseInt10 (substring 4 2 dateString)) in
  let day := parseInt10 (substring 6 2 dateString) in
  if (8 <? String.length dateString)%nat then
    let hour := parseInt10 (substring 9 2 dateString) in
    let minute := parseInt10 (substring 11 2 dateString) in
    let second := parseInt10 (substring 13 2 dateString) in
    match year, month, day, hour, minute, second with
    | Some y, Some m, Some d, Some h, Some mi, Some sc =>
        Some (DateUTC y m d h mi sc)
    | _, _, _, _, _, _ => Some InvalidDate
    end
  else
    match year, month, day with
    | Some y, Some m, Some d => Some (DateLocal tz y m d)
    | _, _, _ => Some InvalidDate
    end.

End IcsParser.

(** ** Vocabulary of the properties *)

Module LayoutSpec.
Import JsDate JsString BookingCalendar.

(** The half-open interval [startOffsetDays, startOffsetDays + durationDays)
    of an emitted bar. *)
Definition endOffset (e : LayoutBooking) : Z := startOffset e + duration e.

Definition covers (e : LayoutBooking) (d : Z) : bool :=
  (startOffset e <=? d) && (d <? endOffset e).

(** How many emitted bars cover day offset [d]. *)
Definition overlapCount (out : list LayoutBooking) (d : Z) : nat :=
  length (List.filter (fun e => covers e d) out).

(** The largest number of bars over one day offset of the window. *)
Definition maxOverlap (totalDays : Z) (out : list LayoutBooking) : nat :=
  list_max
    (map (fun d => overlapCount out (Z.of_nat d)) (seq 0 (Z.to_nat totalDays))).

(** The largest assigned [laneIndex] plus one (0 when nothing is emitted). *)
Definition lanesUsed (out : list LayoutBooking) : nat :=
  list_max (map (fun e => S (laneIndex e)) out).

(** What one booking contributes: its clipped day interval, or nothing
    when one of the three guards of the loop body drops it. *)
Definition clip (gridStart gridEndExclusive totalDays : Z) (b : RoomBooking)
  : option (Z * Z) :=
  let barStartTime := Z.max (checkIn b) gridStart in
  let barEndTime := Z.min (checkOut b) gridEndExclusive in
  if barEndTime <=? barStartTime then None else
  let startOffset := Z.max 0 (floorDiv (barStartTime - gridStart) msPerDay) in
  if startOffset >=? totalDays then None else
  let rawEndOffset := ceilDiv (barEndTime - gridStart) msPerDay in
  let endOffset := Z.max startOffset (Z.min totalDays rawEndOffset) in
  if endOffset - startOffset <=? 0 then None else Some (startOffset, endOffset).

(** [clip] in whole days, for a grid that starts on local day [Ds] and
    ends before local day [De] and a stay from local day [Di] to local
    day [Do]. *)
Definition clipDays (Ds De totalDays Di Do : Z) : option (Z * Z) :=
  if Z.min Do De <=? Z.max Di Ds then None else
  let s := Z.max 0 (Z.max Di Ds - Ds) in
  if s >=? totalDays then None else
  let e := Z.max s (Z.min totalDays (Z.min Do De - Ds)) in
  if e - s <=? 0 then None else Some (s, e).

(** In zone [z] the instant [t] falls on local day number [D], whose
    midnight lies [tz] milliseconds before midnight UTC of that day. *)
Definition midnightOn (z : Zone) (tz t D : Z) : Prop :=
  setHours0 z t = D * msPerDay - tz.

(** What the examples read off an emitted bar. *)
Definition geometry (e : LayoutBooking) : string * Z * Z * nat :=
  (id (original (booking e)), startOffset e, duration e, laneIndex e).

(** The lane assignment for a bar over [s, e). *)
Definition place (st : LayoutState) (b : RoomBooking) (s e : Z) : LayoutState :=
  let k := firstFreeLane (laneEndOffsets st) s in
  {| laneEndOffsets := arraySet (laneEndOffsets st) k e;
     layoutBookings := layoutBookings st ++
       [ {| booking := b; startOffset := s; duration := e - s; laneIndex := k |} ] |}.

(** Two bars whose intervals do not intersect. *)
Definition Disjoint (e1 e2 : LayoutBooking) : Prop :=
  endOffset e1 <= startOffset e2 \/ endOffset e2 <= startOffset e1.

(** The invariant of the loop that keeps bars of one lane apart: a lane's
    recorded end is at or after the end of every bar placed in it. *)
Definition LaneInv (st : LayoutState) : Prop :=
  (forall e, In e (layoutBookings st) ->
     0 < duration e /\
     exists x, arrayGet (laneEndOffsets st) (laneIndex e) = Some x /\ endOffset e <= x) /\
  (forall i j e1 e2, i <> j ->
     layoutBookings st !! i = Some e1 -> layoutBookings st !! j = Some e2 ->
     laneIndex e1 = laneIndex e2 -> Disjoint e1 e2) /\
  (forall d, NoDup (map laneIndex (List.filter (fun e => covers e d) (layoutBookings st)))).

(** The invariant behind minimality, for bars placed in ascending start
    order up to [cur]: every lane holds a bar that ends where the lane
    ends, and some day offset is covered by as many bars as there are
    lanes. *)
Definition MinInv (totalDays cur : Z) (st : LayoutState) : Prop :=
  (forall k, (k < length (laneEndOffsets st))%nat ->
     exists e, In e (layoutBookings st) /\ laneIndex e = k /\
               arrayGet (laneEndOffsets st) k = Some (endOffset e)) /\
  (forall e, In e (layoutBookings st) ->
     0 <= startOffset e <= cur /\ endOffset e <= totalDays) /\
  (length (laneEndOffsets st) = 0%nat \/
   exists d, 0 <= d < totalDays /\
             (length (laneEndOffsets st) <= overlapCount (layoutBookings st) d)%nat).

(** Ascending check-in order. *)
Definition byCheckIn (a b : RoomBooking) : Prop := checkIn a <= checkIn b.

(** [l'] is [l] sorted by check-in with equal keys left in the order of
    [l]: what any stable sort returns. *)
Definition sameKey (k : Z) (b : RoomBooking) : bool := checkIn b =? k.

Definition StableSortOf (l l' : list RoomBooking) : Prop :=
  StronglySorted byCheckIn l' /\
  forall k, List.filter (sameKey k) l' = List.filter (sameKey k) l.

(** A booking of the room that the pass has to drop: its dates do not
    normalise, or its interval clipped to the grid is empty or inverted. *)
Definition clippedEmpty (z : Zone) (startDate endDate : Z) (b : Booking) : bool :=
  match withCheckDates z b with
  | None => true
  | Some rb =>
      Z.min (checkOut rb) (gridEndExclusiveOf z endDate)
      <=? Z.max (checkIn rb) (gridStartOf z startDate)
  end.

End LayoutSpec.

(** Why a booking's clipped interval is empty or inverted: the cases of
    the loop's first guard, on the normalised dates. *)
Module DropCases.
Import JsDate BookingCalendar LayoutSpec.

Inductive OutsideWindow (z : Zone) (startDate endDate : Z) (b : Booking) : Prop :=
| EntirelyBefore rb :
    withCheckDates z b = Some rb ->
    checkOut rb <= gridStartOf z startDate ->
    OutsideWindow z startDate endDate b
| EntirelyAfter rb :
    withCheckDates z b = Some rb ->
    gridEndExclusiveOf z endDate <= checkIn rb ->
    OutsideWindow z startDate endDate b
| Inverted rb :
    withCheckDates z b = Some rb ->
    checkOut rb <= checkIn rb ->
    OutsideWindow z startDate endDate b
| InvertedDates s e :
    BookingCalendar.startDate b = Some s ->
    BookingCalendar.endDate b = Some e -> e <= s ->
    (forall x y, x <= y -> setHours0 z x <= setHours0 z y) ->
    OutsideWindow z startDate endDate b
| ClippedEmpty :
    clippedEmpty z startDate endDate b = true ->
    OutsideWindow z startDate endDate b.

End DropCases.

(** ** Sample data *)

Module Samples.
Import JsDate JsString BookingCalendar.

(** Noon UTC, and local midnight at offset [tz], of a calendar date
    (months counted from 1). *)
Definition noonUTC (y m d : Z) : Z :=
  MakeDate (MakeDay y (m - 1) d) (MakeTime 12 0 0 0).

Definition midnightAt (tz y m d : Z) : Z :=
  MakeDate (MakeDay y (m - 1) d) 0 - tz.

Definition hours (h : Z) : Z := h * 3600000.

Definition stay (i r : string) (s e : Z) : Booking :=
  {| id := i; guestName := "Guest"; room := r; source := "airbnb";
     startDate := Some s; endDate := Some e |}.

Definition bookingA : Booking :=
  stay "A" "jason" (noonUTC 2024 1 1) (noonUTC 2024 1 10).
Definition bookingB : Booking :=
  stay "B" "jason" (noonUTC 2024 1 10) (noonUTC 2024 1 15).
Definition bookingC : Booking :=
  stay "C" "Jason" (noonUTC 2024 1 5) (noonUTC 2024 1 12).
Definition bookingD : Booking :=
  stay "D" "jason" (noonUTC 2024 1 5) (noonUTC 2024 1 7).
Definition bookingPast : Booking :=
  stay "P" "jason" (noonUTC 2023 12 20) (noonUTC 2023 12 28).

(** Clocks three hours ahead of UTC until 2024-10-27 01:00 UTC and two
    hours ahead from then on, and two stays after that change. *)
Definition autumnChange : Zone :=
  offsetChange (MakeDate (MakeDay 2024 9 27) (MakeTime 1 0 0 0)) (hours 3) (hours 2).

Definition bookingNov1 : Booking :=
  stay "N1" "jason" (noonUTC 2024 11 1) (noonUTC 2024 11 5).
Definition bookingNov5 : Booking :=
  stay "N5" "jason" (noonUTC 2024 11 5) (noonUTC 2024 11 8).

(** Clocks two hours ahead of UTC until 2024-03-31 01:00 UTC and three
    hours ahead from then on (Europe/Athens in spring), and two stays
    after that change. *)
Definition springChange : Zone :=
  offsetChange (MakeDate (MakeDay 2024 2 31) (MakeTime 1 0 0 0)) (hours 2) (hours 3).

Definition bookingApr1 : Booking :=
  stay "S1" "jason" (noonUTC 2024 4 1) (noonUTC 2024 4 5).
Definition bookingApr5 : Booking :=
  stay "S2" "jason" (noonUTC 2024 4 5) (noonUTC 2024 4 8).

Definition utc : Zone := fixedOffset 0.

End Samples.

(** ** Vocabulary of the source-label and date properties *)

Module LabelSpec.
Import JsDate JsString.

(** The keyword occurs in the summary, description or uid of an ICS
    event, compared in lower case. *)
Definition mentions (kw : string) (e : IcsParser.IcsEvent) : bool :=
  includes (toLowerCase (orEmpty (IcsParser.summary e))) kw
  || includes (toLowerCase (orEmpty (IcsParser.description e))) kw
  || includes (toLowerCase (orEmpty (IcsParser.uid e))) kw.

(** A parsed date that, read in a zone at offset [tz], falls on the
    calendar day [y]-[m]-[d] (months counted from 1). *)
Definition denotes (tz : Z) (r : option DateValue) (y m d : Z) : Prop :=
  exists t, r = Some (ValidDate t) /\ localDay tz t = MakeDay y (m - 1) d.

(** The text [YYYY-MM-DD] made of eight digits, and the numbers it
    spells. *)
Definition dateOnly (y1 y2 y3 y4 m1 m2 d1 d2 : ascii) : string :=
  String y1 (String y2 (String y3 (String y4 (String "-"
  (String m1 (String m2 (String "-" (String d1 (String d2 EmptyString))))))))).

Definition number4 (a b c d : ascii) : Z :=
  1000 * digitValue a + 100 * digitValue b + 10 * digitValue c + digitValue d.

Definition number2 (a b : ascii) : Z := 10 * digitValue a + digitValue b.

(** Noon UTC of the day that [Date.UTC] makes of year, month (from 1)
    and day. *)
Definition noonOf (y m d : Z) : Z :=
  MakeDate (MakeDay (fullYear y) (m - 1) d) (MakeTime 12 0 0 0).

(** A [new Date(string)] that parses nothing, for inputs that never
    reach it. *)
Definition noDateParse (s : string) : DateValue := InvalidDate.

End LabelSpec.

(** ** The geometry of a room row and the visible window *)

Module RowGeometry.
Import JsDate BookingCalendar.

(** The constants of [renderRoomRow]. *)
Definition laneSpacing : Z := 38.
Definition barHeight : Z := 30.
Definition baseTop : Z := 15.

(** [top], [left] and [width] of a bar, for a whole number of pixels per
    day ([getDayWidth()]). *)
Definition barTop (e : LayoutBooking) : Z :=
  baseTop + Z.of_nat (laneIndex e) * laneSpacing.

Definition barLeft (dayWidth : Z) (e : LayoutBooking) : Z :=
  startOffset e * dayWidth.

Definition barWidth (dayWidth : Z) (e : LayoutBooking) : Z :=
  Z.max 0 (duration e * dayWidth - 4).

(** [trackWidth = totalDays * dayWidth]. *)
Definition trackWidth (z : Zone) (dayWidth startDate endDate : Z) : Z :=
  totalDaysOf z startDate endDate * dayWidth.

(** [getTotalDays(startDate, endDate)], the number of date cells of the
    header. *)
Definition getTotalDays (z : Zone) (startDate endDate : Z) : Z :=
  floorDiv (setHours0 z endDate - setHours0 z startDate) msPerDay + 1.

(** The loop of [renderDateHeader]: one cell per pass of
    [while (currentDate <= endDate)], each pass moving [currentDate] one
    day on; the dates of the cells. *)
Fixpoint dateCells (z : Zone) (fuel : nat) (currentDate endDate : Z) : list Z :=
  match fuel with
  | O => []
  | S fuel' =>
      if currentDate <=? endDate
      then currentDate :: dateCells z fuel' (addDay z currentDate) endDate
      else []
  end.

(** [this.timelineDays]. *)
Definition timelineDays : nat := 365.

(** [d.setDate(d.getDate() + n)]: [n] local days later. *)
Definition addDays (z : Zone) (n : nat) (t : Z) : Z := Nat.iter n (addDay z) t.

(** The window of [renderCalendar()]: from the normalised
    [this.currentDate] to [timelineDays - 1] days later. *)
Definition windowStart (z : Zone) (currentDate : Z) : Z := setHours0 z currentDate.

Definition windowEnd (z : Zone) (currentDate : Z) : Z :=
  addDays z (timelineDays - 1) (windowStart z currentDate).

(** A booking that survives the three guards of the loop body. *)
Definition survives (z : Zone) (startDate endDate : Z) (b : RoomBooking) : bool :=
  match LayoutSpec.clip (gridStartOf z startDate) (gridEndExclusiveOf z endDate)
          (totalDaysOf z startDate endDate) b with
  | Some _ => true
  | None => false
  end.

End RowGeometry.

(** ** Presentation helpers of the front end *)

Module Presentation.
Import JsString.

(** [s.replace(/c/g, rep)] for a single character [c]. *)
Fixpoint replaceAll (c : ascii) (rep : string) (s : string) : string :=
  match s with
  | EmptyString => EmptyString
  | String x r =>
      if Ascii.eqb x c then String.append rep (replaceAll c rep r)
      else String x (replaceAll c rep r)
  end.

Definition dquote : ascii := ascii_of_nat 34.
Definition squote : ascii := ascii_of_nat 39.

(** [escapeHtml(unsafe)] on text; the empty text is falsy and gives the
    empty text. *)
Definition escapeHtml (unsafe : string) : string :=
  if String.eqb unsafe EmptyString then EmptyString else
  replaceAll squote "&#039;"
    (replaceAll dquote "&quot;"
       (replaceAll ">" "&gt;"
          (replaceAll "<" "&lt;"
             (replaceAll "&" "&amp;" unsafe)))).

(** [s.replace(/[^...]/g, '')]: keep the characters of a class. *)
Fixpoint keepChars (keep : ascii -> bool) (s : string) : string :=
  match s with
  | EmptyString => EmptyString
  | String x r =>
      if keep x then String x (keepChars keep r) else keepChars keep r
  end.

(** The class [a-z0-9_-]. *)
Definition isClassChar (c : ascii) : bool :=
  let n := nat_of_ascii c in
  ((97 <=? n) && (n <=? 122) || (48 <=? n) && (n <=? 57)
   || (n =? 95) || (n =? 45))%nat.

(** [sanitizeClassName(value)]; [None] is [undefined] or [null]. *)
Definition sanitizeClassName (value : option string) : string :=
  match value with
  | None => EmptyString
  | Some s => keepChars isClassChar (toLowerCase s)
  end.

(** [this.sanitizeClassName(booking.source) || 'direct'], the class of a
    bar. *)
Definition sourceClass (source : option string) : string :=
  let sanitized := sanitizeClassName source in
  if String.eqb sanitized EmptyString then "direct" else sanitized.

(** The class [0-9+]. *)
Definition isPhoneChar (c : ascii) : bool :=
  isDigit c || Ascii.eqb c "+".

(** [getTelephoneHref(phone)]. *)
Definition getTelephoneHref (phone : option string) : option string :=
  if negb (truthy phone) then None else
  let normalized := keepChars isPhoneChar (orEmpty phone) in
  if String.eqb normalized EmptyString then None
  else Some (String.append "tel:" normalized).

(** [String.prototype.trim] on ASCII text: white space is tab, line
    feed, vertical tab, form feed, carriage return and space. *)
Definition trimStart (s : string) : string := IcsParser.skipSpaces s.

Fixpoint trimEnd (s : string) : string :=
  match s with
  | EmptyString => EmptyString
  | String c r =>
      match trimEnd r with
      | EmptyString =>
          if IcsParser.isSpace c then EmptyString else String c EmptyString
      | String c' r' => String c (String c' r')
      end
  end.

Definition trim (s : string) : string := trimEnd (trimStart s).

(** The loop of [getPreferredPhone] over the candidates, each already
    turned into text by [String(candidate)]; [None] is [undefined] or
    [null]. *)
Fixpoint firstPhone (candidates : list (option string)) : option string :=
  match candidates with
  | [] => None
  | None :: rest => firstPhone rest
  | Some candidate :: rest =>
      let trimmed := trim candidate in
      if String.eqb trimmed EmptyString || String.eqb trimmed "0"
      then firstPhone rest
      else Some trimmed
  end.

(** The phone fields of a booking and of its [rawData]. *)
Record PhoneFields := {
  phone : option string;
  rawMobile : option string;
  rawPhone : option string;
  rawTelephone : option string;
  rawTel : option string
}.

(** [getPreferredPhone(booking)] for a booking that is not null. *)
Definition getPreferredPhone (b : PhoneFields) : option string :=
  firstPhone [phone b; rawMobile b; rawPhone b; rawTelephone b; rawTel b].

(** The [candidates.forEach(...)] of [getBookingNotes], pushing on
    [collected]. *)
Fixpoint collectNotes (candidates : list (option string))
    (collected : list string) : list string :=
  match candidates with
  | [] => collected
  | None :: rest => collectNotes rest collected
  | Some value :: rest =>
      let trimmed := trim value in
      if String.eqb trimmed EmptyString then collectNotes rest collected
      else if existsb (String.eqb trimmed) collected
           then collectNotes rest collected
           else collectNotes rest (collected ++ [trimmed])
  end.

(** [parts.join(sep)]. *)
Fixpoint join (sep : string) (parts : list string) : string :=
  match parts with
  | [] => EmptyString
  | [p] => p
  | p :: rest => String.append p (String.append sep (join sep rest))
  end.

Definition newline : ascii := ascii_of_nat 10.

(** The note fields of a booking and of its [rawData]. *)
Record NoteFields := {
  notes : option string;
  rawNotes : option string;
  rawComments : option string;
  rawMessage : option string;
  rawGroupNote : option string;
  rawInternalNotes : option string;
  rawAdditionalInfo : option string
}.

Definition noteCandidates (b : NoteFields) : list (option string) :=
  [notes b; rawNotes b; rawComments b; rawMessage b; rawGroupNote b;
   rawInternalNotes b; rawAdditionalInfo b].

(** [getBookingNotes(booking)] for a booking that is not null. *)
Definition getBookingNotes (b : NoteFields) : option string :=
  let collected := collectNotes (noteCandidates b) [] in
  if (0 <? length collected)%nat
  then Some (join (String newline (String newline EmptyString)) collected)
  else None.

End Presentation.

(** Vocabulary of the properties of the presentation helpers. *)
Module PresentationSpec.
Import JsString Presentation.

Definition chars (s : string) : list ascii := list_ascii_of_string s.

(** The five replacements in one pass: what [escapeHtml] writes for one
    character. *)
Definition entity (x : ascii) : string :=
  if Ascii.eqb x "&" then "&amp;"
  else if Ascii.eqb x "<" then "&lt;"
  else if Ascii.eqb x ">" then "&gt;"
  else if Ascii.eqb x dquote then "&quot;"
  else if Ascii.eqb x squote then "&#039;"
  else String x EmptyString.

Fixpoint escapeAll (s : string) : string :=
  match s with
  | EmptyString => EmptyString
  | String x r => String.append (entity x) (escapeAll r)
  end.

(** The five [replace] calls of [escapeHtml] in their order. *)
Definition chain (s : string) : string :=
  replaceAll squote "&#039;"
    (replaceAll dquote "&quot;"
       (replaceAll ">" "&gt;"
          (replaceAll "<" "&lt;"
             (replaceAll "&" "&amp;" s)))).

(** The characters that [escapeHtml] replaces. *)
Definition isMarkupChar (x : ascii) : bool :=
  Ascii.eqb x "&" || Ascii.eqb x "<" || Ascii.eqb x ">"
  || Ascii.eqb x dquote || Ascii.eqb x squote.

(** A phone or note candidate that the loops skip. *)
Definition blank (candidate : option string) : bool :=
  match candidate with
  | None => true
  | Some v => String.eqb (trim v) EmptyString
  end.

Definition unusablePhone (candidate : option string) : bool :=
  match candidate with
  | None => true
  | Some v => String.eqb (trim v) EmptyString || String.eqb (trim v) "0"
  end.

End PresentationSpec.

(** ** Guest names of the Beds24 client *)

Module Beds24Guest.
Import JsString.

Record GuestFields := {
  guestName : option string;
  firstName : option string;
  guestFirstName : option string;
  lastName : option string;
  guestLastName : option string;
  guest : option string
}.

(** [extractGuestName(booking)]. *)
Definition extractGuestName (b : GuestFields) : string :=
  if truthy (guestName b) then orEmpty (guestName b) else
  let firstName := orEmpty (orElse (firstName b) (guestFirstName b)) in
  let lastName := orEmpty (orElse (lastName b) (guestLastName b)) in
  if negb (String.eqb firstName EmptyString) && negb (String.eqb lastName EmptyString)
  then String.append firstName (String " " lastName)
  else if negb (String.eqb firstName EmptyString) then firstName
  else if negb (String.eqb lastName EmptyString) then lastName
  else if truthy (guest b) then orEmpty (guest b) else "Guest".

End Beds24Guest.

(** ** Dates as text *)

Module DateText.
Import JsDate JsString.

(** The text [YYYYMMDD] made of eight digits. *)
Definition date8 (y1 y2 y3 y4 m1 m2 d1 d2 : ascii) : string :=
  String y1 (String y2 (String y3 (String y4
  (String m1 (String m2 (String d1 (String d2 EmptyString))))))).

(** The text [HHMMSS] made of six digits, followed by anything. *)
Definition time6 (h1 h2 n1 n2 s1 s2 : ascii) (rest : string) : string :=
  String h1 (String h2 (String n1 (String n2 (String s1 (String s2 rest))))).

(** [String(n)] for an integer: its decimal digits, with a minus sign
    when negative. *)
Definition digitChar (k : Z) : ascii := ascii_of_nat (48 + Z.to_nat k).

Fixpoint decimalDigits (fuel : nat) (n : Z) (acc : string) : string :=
  match fuel with
  | O => acc
  | S fuel' =>
      let acc' := String (digitChar (n mod 10)) acc in
      if n / 10 =? 0 then acc' else decimalDigits fuel' (n / 10) acc'
  end.

Definition numberToString (n : Z) : string :=
  if n <? 0 then String "-" (decimalDigits 20 (- n) EmptyString)
  else decimalDigits 20 n EmptyString.

(** [s.padStart(2, '0')]. *)
Definition padStart2 (s : string) : string :=
  match s with
  | EmptyString => "00"
  | String c EmptyString => String "0" s
  | _ => s
  end.

(** A [Date] as [formatDate] sees it: through [getFullYear()],
    [getMonth()] and [getDate()]. *)
Record LocalDate := {
  getFullYear : Z;
  getMonth : Z;
  getDate : Z
}.

(** [Beds24API.formatDate(date)]. *)
Definition formatDate (date : LocalDate) : string :=
  let year := getFullYear date in
  let month := padStart2 (numberToString (getMonth date + 1)) in
  let day := padStart2 (numberToString (getDate date)) in
  String.append (numberToString year)
    (String "-" (String.append month (String "-" day))).

End DateText.

(** ** The iCalendar module: text to events *)

Module IcsText.
Import JsDate JsString Presentation.

Definition LF : ascii := ascii_of_nat 10.
Definition CR : ascii := ascii_of_nat 13.
Definition TAB : ascii := ascii_of_nat 9.

Definition startsWithLF (s : string) : bool :=
  match s with
  | String c _ => Ascii.eqb c LF
  | EmptyString => false
  end.

(** [icsData.split(/\r?\n/)]: a line ends at a line feed, and a carriage
    return just before that line feed belongs to the separator. *)
Fixpoint splitLines (s : string) : list string :=
  match s with
  | EmptyString => [EmptyString]
  | String c r =>
      let rest := splitLines r in
      if Ascii.eqb c LF then EmptyString :: rest
      else if Ascii.eqb c CR && startsWithLF r then rest
      else match rest with
           | l :: ls => String c l :: ls
           | [] => [String c EmptyString]
           end
  end.

(** [/^[ \t]/.test(line)]. *)
Definition isContinuation (line : string) : bool :=
  match line with
  | String c _ => Ascii.eqb c " " || Ascii.eqb c TAB
  | EmptyString => false
  end.

(** The object built for one VEVENT; [None] is a property that was never
    set, or [null]. *)
Record Event := {
  start : option DateValue;
  end_ : option DateValue;
  summary : option string;
  description : option string;
  uid : option string;
  location : option string
}.

Definition emptyEvent : Event :=
  {| start := None; end_ := None; summary := None; description := None;
     uid := None; location := None |}.

(** [line.indexOf(':')] with the two [substring]s around it: the text
    before the first colon and the text after it. *)
Fixpoint splitAtColon (line : string) : option (string * string) :=
  match line with
  | EmptyString => None
  | String c r =>
      if Ascii.eqb c ":" then Some (EmptyString, r)
      else match splitAtColon r with
           | Some (key, value) => Some (String c key, value)
           | None => None
           end
  end.

(** The chain of tests on [key] inside an event. *)
Definition setProperty (tz : Z) (e : Event) (key value : string) : Event :=
  if String.prefix "DTSTART" key then
    {| start := IcsParser.parseICSDate tz (Some value); end_ := end_ e;
       summary := summary e; description := description e; uid := uid e;
       location := location e |}
  else if String.prefix "DTEND" key then
    {| start := start e; end_ := IcsParser.parseICSDate tz (Some value);
       summary := summary e; description := description e; uid := uid e;
       location := location e |}
  else if String.eqb key "SUMMARY" then
    {| start := start e; end_ := end_ e; summary := Some value;
       description := description e; uid := uid e; location := location e |}
  else if String.eqb key "DESCRIPTION" then
    {| start := start e; end_ := end_ e; summary := summary e;
       description := Some value; uid := uid e; location := location e |}
  else if String.eqb key "UID" then
    {| start := start e; end_ := end_ e; summary := summary e;
       description := description e; uid := Some value; location := location e |}
  else if String.eqb key "LOCATION" then
    {| start := start e; end_ := end_ e; summary := summary e;
       description := description e; uid := uid e; location := Some value |}
  else e.

(** The state of the loop of [parseICS]: [currentEvent] and [events]. *)
Definition ParseState : Type := option Event * list Event.

(** The body of the loop of [parseICS] on one unfolded line. *)
Definition handleLine (tz : Z) (line : string) (st : ParseState) : ParseState :=
  let '(currentEvent, events) := st in
  if String.eqb line "BEGIN:VEVENT" then (Some emptyEvent, events)
  else
    match currentEvent with
    | Some e =>
        if String.eqb line "END:VEVENT" then (None, events ++ [e])
        else
          match splitAtColon line with
          | Some (key, value) =>
              if String.eqb key EmptyString then st
              else (Some (setProperty tz e key value), events)
          | None => st
          end
    | None => st
    end.

(** The loop of [parseICS] from the point where [line] holds the trimmed
    text read so far: while the next line starts with a space or a tab
    its trimmed text is appended, otherwise [line] is handled and the
    next line starts a new one. *)
Fixpoint parseLines (tz : Z) (lines : list string) (line : string)
    (st : ParseState) : ParseState :=
  match lines with
  | [] => handleLine tz line st
  | next :: rest =>
      if isContinuation next
      then parseLines tz rest (String.append line (trim next)) st
      else parseLines tz rest (trim next) (handleLine tz line st)
  end.

(** [currentEvent] and [events] when the loop of [parseICS] ends. *)
Definition parseState (tz : Z) (icsData : string) : ParseState :=
  match splitLines icsData with
  | [] => (None, [])
  | first :: rest => parseLines tz rest (trim first) (None, [])
  end.

(** [parseICS(icsData)]. *)
Definition parseICS (tz : Z) (icsData : string) : list Event :=
  snd (parseState tz icsData).

(** [s.replace(/^prefix/i, '')] for a literal [prefix]. *)
Definition stripPrefixCI (prefix s : string) : string :=
  if String.prefix (toLowerCase prefix) (toLowerCase s)
  then substring (String.length prefix) (String.length s - String.length prefix) s
  else s.

(** [s.replace(/suffix$/i, '')] for a literal [suffix]. *)
Definition stripSuffixCI (suffix s : string) : string :=
  let n := String.length suffix in
  let m := String.length s in
  if (n <=? m)%nat
     && String.eqb (toLowerCase (substring (m - n) n s)) (toLowerCase suffix)
  then substring 0 (m - n) s
  else s.

(** [extractGuestName(summary)]. *)
Definition extractGuestName (summary : option string) : string :=
  if negb (truthy summary) then "Guest" else
  let name :=
    trim (stripSuffixCI " - Booking.com"
            (stripSuffixCI " - Airbnb"
               (stripPrefixCI "Reservation - "
                  (stripPrefixCI "Reserved for " (orEmpty summary))))) in
  if String.eqb name EmptyString then "Guest" else name.

End IcsText.

Module IcsTextSpec.
Import Presentation IcsText.

(** The same text with every line feed written as carriage return and
    line feed. *)
Definition toCRLF (s : string) : string :=
  replaceAll LF (String CR (String LF EmptyString)) s.

Definition hasNoCR (s : string) : bool :=
  forallb (fun c => negb (Ascii.eqb c CR)) (list_ascii_of_string s).

(** Two lines that differ at most by one carriage return at the end. *)
Definition sameLine (l l' : string) : Prop :=
  l' = l \/ l' = String.append l (String CR EmptyString).

(** A calendar of one event, its summary folded over two lines. *)
Definition sampleCalendar : string :=
  join (String LF EmptyString)
    ["BEGIN:VCALENDAR"; "BEGIN:VEVENT"; "UID:1418fb94e984@airbnb.com";
     "DTSTART;VALUE=DATE:20240105"; "DTEND;VALUE=DATE:20240108";
     "SUMMARY:Reserved for Ann"; "  Lee"; "END:VEVENT"; "END:VCALENDAR"].

Definition secondCalendar : string :=
  join (String LF EmptyString)
    ["BEGIN:VEVENT"; "UID:77@booking.com"; "DTSTART:20240201T140000Z";
     "DTEND:20240203T100000Z"; "SUMMARY:CLOSED - Booking.com"; "END:VEVENT"].

End IcsTextSpec.

(** ** Raw Beds24 records as the JSON response gives them *)

Module Beds24Json.
Import JsString.

(** The values a field of a parsed JSON record can hold, as far as
    [determineSource] tells them apart; [JsUndefined] is a field that is
    not there, [JsObject] an object or an array. *)
Inductive JsValue :=
| JsUndefined
| JsNull
| JsText (s : string)
| JsNumber (n : Z)
| JsBoolean (b : bool)
| JsObject.

(** Truthiness, as [||] tests it. *)
Definition truthyValue (v : JsValue) : bool :=
  match v with
  | JsUndefined | JsNull => false
  | JsText s => negb (String.eqb s EmptyString)
  | JsNumber n => negb (n =? 0)
  | JsBoolean b => b
  | JsObject => true
  end.

(** [a || b]. *)
Definition jsOr (a b : JsValue) : JsValue := if truthyValue a then a else b.

(** [v.toLowerCase()]: only text has the method; on any other value the
    call throws a TypeError ([None]). *)
Definition lowerCaseOf (v : JsValue) : option string :=
  match v with
  | JsText s => Some (toLowerCase s)
  | _ => None
  end.

Record RawRecord := {
  referer : JsValue;
  channel : JsValue;
  source : JsValue;
  bookingSource : JsValue
}.

(** The three local constants of [determineSource], in the order they
    are evaluated. *)
Definition refererOf (booking : RawRecord) : option string :=
  lowerCaseOf (jsOr (jsOr (referer booking) (channel booking)) (JsText EmptyString)).

Definition sourceOf (booking : RawRecord) : option string :=
  lowerCaseOf (jsOr (jsOr (source booking) (bookingSource booking)) (JsText EmptyString)).

Definition channelOf (booking : RawRecord) : option string :=
  lowerCaseOf (jsOr (channel booking) (JsText EmptyString)).

(** What a call does: it returns a label or throws a TypeError. *)
Inductive Outcome :=
| Returned (label : string)
| TypeError.

(** [determineSource(booking)] on any record. *)
Definition determineSource (booking : RawRecord) : Outcome :=
  match refererOf booking with
  | None => TypeError
  | Some referer =>
  match sourceOf booking with
  | None => TypeError
  | Some source =>
  match channelOf booking with
  | None => TypeError
  | Some channel =>
    Returned
      (if includes referer "airbnb" || includes source "airbnb" then "airbnb"
       else if includes referer "booking" || includes source "booking" then "booking"
       else if includes referer "expedia" || includes source "expedia" then "expedia"
       else if String.eqb channel "direct"
               || includes referer "direct"
               || includes source "direct"
               || includes referer "pavlosol"
               || includes referer "app"
               || includes channel "website"
       then "direct"
       else if negb (String.eqb source EmptyString) then source
       else if negb (String.eqb referer EmptyString) then referer
       else "direct")
  end end end.

(** A record of text fields, as [Beds24API.RawBooking] has them, seen as
    a raw record. *)
Definition ofText (v : option string) : JsValue :=
  match v with
  | Some s => JsText s
  | None => JsUndefined
  end.

Definition ofRawBooking (b : Beds24API.RawBooking) : RawRecord :=
  {| referer := ofText (Beds24API.referer b);
     channel := ofText (Beds24API.channel b);
     source := ofText (Beds24API.source b);
     bookingSource := ofText (Beds24API.bookingSource b) |}.

End Beds24Json.

Module Beds24JsonSpec.
Import JsString Beds24Json.

(** The values on which [toLowerCase] is called are all text. *)
Definition readsText (booking : RawRecord) : bool :=
  match refererOf booking, sourceOf booking, channelOf booking with
  | Some _, Some _, Some _ => true
  | _, _, _ => false
  end.

(** No platform keyword in the lower-case referer and source texts. *)
Definition noKeyword (referer source : string) : bool :=
  negb (includes referer "airbnb" || includes source "airbnb"
        || includes referer "booking" || includes source "booking"
        || includes referer "expedia" || includes source "expedia").

(** A record whose referer field is a number. *)
Definition numericReferer : RawRecord :=
  {| referer := JsNumber 7; channel := JsText "direct";
     source := JsUndefined; bookingSource := JsUndefined |}.

(** A record with empty source, referer and channel and a booking
    source. *)
Definition onlyBookingSource : RawRecord :=
  {| referer := JsText EmptyString; channel := JsText EmptyString;
     source := JsText EmptyString; bookingSource := JsText "VRBO" |}.

Definition directChannel : RawRecord :=
  {| referer := JsUndefined; channel := JsText "Direct";
     source := JsNull; bookingSource := JsUndefined |}.

Definition allEmpty : RawRecord :=
  {| referer := JsNull; channel := JsText EmptyString;
     source := JsUndefined; bookingSource := JsNumber 0 |}.

End Beds24JsonSpec.

(** ** The layout of a row, said without the loop *)

Module LayoutRelation.
Import JsDate BookingCalendar LayoutSpec RowGeometry.

(** Every bar is in the lowest lane that is free of the bars before it:
    no earlier bar of its lane reaches past its start, and every lower
    lane holds an earlier bar that does. *)
Definition FirstFit (out : list LayoutBooking) : Prop :=
  forall i e, out !! i = Some e ->
    (forall j e', (j < i)%nat -> out !! j = Some e' ->
       laneIndex e' = laneIndex e -> endOffset e' <= startOffset e) /\
    (forall n, (n < laneIndex e)%nat ->
       exists j e', (j < i)%nat /\ out !! j = Some e' /\
                    laneIndex e' = n /\ startOffset e < endOffset e').

(** [out] is a layout of the room's bookings in the window: its bookings
    are the survivors of the three guards in a stable ascending order by
    check-in, each bar has the offsets of its clipped interval, and the
    lanes are first-fit. *)
Definition IsLayout (z : Zone) (roomName : string) (bookings : list Booking)
    (startDate endDate : Z) (out : list LayoutBooking) : Prop :=
  (exists sorted,
      StableSortOf (roomCandidates z roomName bookings) sorted /\
      map booking out = List.filter (survives z startDate endDate) sorted) /\
  (forall e, In e out ->
      clip (gridStartOf z startDate) (gridEndExclusiveOf z endDate)
           (totalDaysOf z startDate endDate) (booking e)
      = Some (startOffset e, endOffset e)) /\
  FirstFit out.

(** The invariant of the loop behind first fit: the lanes are
    collision-free, every lane's recorded end is the end of a bar in it,
    and the bars placed so far are first-fit. *)
Definition LaneWitness (st : LayoutState) : Prop :=
  forall k, (k < length (laneEndOffsets st))%nat ->
    exists e, In e (layoutBookings st) /\ laneIndex e = k /\
              arrayGet (laneEndOffsets st) k = Some (endOffset e).

Definition FitInv (st : LayoutState) : Prop :=
  LaneInv st /\ LaneWitness st /\ FirstFit (layoutBookings st).

End LayoutRelation.

(** * Proofs *)

(** ** The lane scan and the lane array *)

Module LaneFacts.
Import JsDate JsString BookingCalendar LayoutSpec.

Lemma arrayGet_lt (a : list (option Z)) (i : nat) (v : Z) :
  arrayGet a i = Some v -> (i < length a)%nat.
Proof.
  unfold arrayGet. destruct (a !! i) as [o|] eqn:E; [|discriminate].
  intros _. eapply lookup_lt_Some; eauto.
Qed.

Lemma arrayGet_ge (a : list (option Z)) (i : nat) :
  (length a <= i)%nat -> arrayGet a i = None.
Proof. intros H. unfold arrayGet. rewrite lookup_ge_None_2; auto. Qed.

(** Writing at an index up to the length changes exactly that cell. *)
Lemma arrayGet_arraySet (a : list (option Z)) (k j : nat) (v : Z) :
  (k <= length a)%nat ->
  arrayGet (arraySet a k v) j = if decide (j = k) then Some v else arrayGet a j.
Proof.
  intros Hk. unfold arraySet, arrayGet.
  destruct (k <? length a)%nat eqn:E.
  - apply Nat.ltb_lt in E. destruct (decide (j = k)) as [->|Hne].
    + rewrite list_lookup_insert_eq; auto.
    + rewrite list_lookup_insert_ne; auto.
  - apply Nat.ltb_ge in E. assert (k = length a) by lia. subst k.
    rewrite Nat.sub_diag. simpl.
    destruct (decide (j = length a)) as [->|Hne].
    + rewrite lookup_app_r by lia. rewrite Nat.sub_diag. reflexivity.
    + destruct (le_lt_dec (length a) j).
      * rewrite !lookup_ge_None_2; auto. rewrite length_app. simpl. lia.
      * rewrite lookup_app_l by lia. reflexivity.
Qed.

Lemma length_arraySet (a : list (option Z)) (k : nat) (v : Z) :
  (k <= length a)%nat ->
  length (arraySet a k v) = if decide (k = length a) then S (length a) else length a.
Proof.
  intros Hk. unfold arraySet.
  destruct (k <? length a)%nat eqn:E.
  - apply Nat.ltb_lt in E. rewrite length_insert.
    destruct (decide (k = length a)); lia.
  - apply Nat.ltb_ge in E. assert (k = length a) by lia. subst k.
    rewrite Nat.sub_diag. simpl. rewrite length_app. simpl.
    destruct (decide (length a = length a)); lia.
Qed.

(** The scan started at [i] with enough fuel stops on a free lane, having
    passed only busy ones. *)
Lemma scanLanes_spec (a : list (option Z)) (s : Z) :
  forall fuel i, (length a < i + fuel)%nat ->
  let r := scanLanes fuel a s i in
  (i <= r)%nat /\ (r <= Nat.max i (length a))%nat /\
  (forall e, arrayGet a r = Some e -> e <= s) /\
  (forall j, (i <= j < r)%nat -> exists e, arrayGet a j = Some e /\ s < e).
Proof.
  induction fuel as [|fuel IH]; intros i Hf; simpl.
  - repeat split; try lia.
    intros e He. apply arrayGet_lt in He. lia.
  - destruct (arrayGet a i) as [e|] eqn:E.
    + destruct (e >? s) eqn:C.
      * assert (Hlt := arrayGet_lt _ _ _ E).
        destruct (IH (S i)) as (H1 & H2 & H3 & H4); [lia|].
        repeat split; try lia; auto.
        intros j Hj. destruct (decide (j = i)) as [->|Hne].
        -- exists e. split; auto. apply Z.gtb_lt in C. lia.
        -- apply H4. lia.
      * repeat split; try lia.
        intros e' He'. rewrite E in He'. inversion He'; subst.
        rewrite Z.gtb_ltb in C. apply Z.ltb_ge in C. lia.
    + repeat split; try lia. intros e He. congruence.
Qed.

Lemma firstFreeLane_spec (a : list (option Z)) (s : Z) :
  let k := firstFreeLane a s in
  (k <= length a)%nat /\
  (forall e, arrayGet a k = Some e -> e <= s) /\
  (forall j, (j < k)%nat -> exists e, arrayGet a j = Some e /\ s < e).
Proof.
  unfold firstFreeLane.
  destruct (scanLanes_spec a s (S (length a)) 0%nat) as (H1 & H2 & H3 & H4); [lia|].
  repeat split; auto; try lia. intros j Hj. apply H4. lia.
Qed.

End LaneFacts.

(** ** One step of the loop *)

Module StepFacts.
Import JsDate JsString BookingCalendar LayoutSpec LaneFacts.

Lemma layoutStep_clip gs ge td st b :
  layoutStep gs ge td st b =
  match clip gs ge td b with
  | Some (s, e) => place st b s e
  | None => st
  end.
Proof.
  unfold layoutStep, clip, place.
  destruct (_ <=? _); [reflexivity|].
  destruct (_ >=? _); [reflexivity|].
  destruct (_ <=? 0); [reflexivity|]. reflexivity.
Qed.

Lemma clip_bounds gs ge td b s e :
  clip gs ge td b = Some (s, e) -> 0 <= s /\ s < e /\ e <= td.
Proof.
  unfold clip.
  destruct (_ <=? _) eqn:E1; [discriminate|].
  destruct (_ >=? _) eqn:E2; [discriminate|].
  destruct (_ <=? 0) eqn:E3; [discriminate|].
  intros H. inversion H; subst; clear H.
  rewrite Z.geb_leb in E2. apply Z.leb_gt in E2, E3. lia.
Qed.

Lemma clip_start gs ge td b s e :
  clip gs ge td b = Some (s, e) ->
  s = Z.max 0 (floorDiv (Z.max (checkIn b) gs - gs) msPerDay).
Proof.
  unfold clip.
  destruct (_ <=? _) eqn:E1; [discriminate|].
  destruct (_ >=? _) eqn:E2; [discriminate|].
  destruct (_ <=? 0) eqn:E3; [discriminate|].
  intros H. inversion H; subst; reflexivity.
Qed.

(** A later check-in never gives an earlier start offset. *)
Lemma clip_start_mono gs ge td a b s1 e1 s2 e2 :
  checkIn a <= checkIn b ->
  clip gs ge td a = Some (s1, e1) -> clip gs ge td b = Some (s2, e2) ->
  s1 <= s2.
Proof.
  intros Hle Ha Hb. apply clip_start in Ha, Hb. subst.
  apply Z.max_le_compat_l. unfold floorDiv.
  apply Z.div_le_mono; [reflexivity | lia].
Qed.

Lemma covers_iff e d : covers e d = true <-> startOffset e <= d < endOffset e.
Proof. unfold covers. rewrite andb_true_iff, Z.leb_le, Z.ltb_lt. tauto. Qed.

Lemma LaneInv_empty : LaneInv emptyLayout.
Proof.
  repeat split; simpl; try contradiction.
  - intros i j e1 e2 _ H. rewrite lookup_nil in H. discriminate.
  - intros _. constructor.
Qed.

(** Placing a non-empty bar keeps the lanes collision-free. *)
Lemma LaneInv_place st b s e :
  s < e -> LaneInv st -> LaneInv (place st b s e).
Proof.
  intros Hse (I1 & I2 & I3).
  destruct (firstFreeLane_spec (laneEndOffsets st) s) as (Hk & Hfree & _).
  set (k := firstFreeLane (laneEndOffsets st) s) in *.
  assert (Hold : forall o, In o (layoutBookings st) -> laneIndex o = k ->
                           endOffset o <= s).
  { intros o Ho Hl. destruct (I1 o Ho) as (_ & x & Hx & Hle).
    rewrite Hl in Hx. specialize (Hfree x Hx). lia. }
  unfold place. fold k. repeat split; simpl.
  - apply in_app_iff in H. destruct H as [H|[<-|[]]]; simpl.
    + apply I1; auto.
    + lia.
  - apply in_app_iff in H. destruct H as [H|[<-|[]]]; simpl.
    + destruct (I1 e0 H) as (_ & x & Hx & Hle).
      rewrite arrayGet_arraySet by auto.
      destruct (decide (laneIndex e0 = k)) as [Heq|Hne].
      * exists e. split; auto. specialize (Hold e0 H Heq). lia.
      * exists x. auto.
    + exists e. rewrite arrayGet_arraySet by auto.
      destruct (decide (k = k)); [|congruence].
      split; auto. unfold endOffset; simpl. lia.
  - intros i j e1 e2 Hij H1 H2 Hl.
    apply lookup_snoc_Some in H1, H2.
    destruct H1 as [[Hi H1]|[Hi H1]], H2 as [[Hj H2]|[Hj H2]].
    + eapply I2; eauto.
    + subst e2. simpl in Hl. left. simpl.
      apply Hold; auto. eapply list_elem_of_In, list_elem_of_lookup_2; eauto.
    + subst e1. simpl in Hl. right. simpl.
      apply Hold; auto. eapply list_elem_of_In, list_elem_of_lookup_2; eauto.
    + lia.
  - intros d. rewrite List.filter_app, List.map_app. simpl.
    destruct (covers _ d) eqn:C; simpl.
    + apply covers_iff in C. simpl in C.
      apply NoDup_app. split; [apply I3|]. split; [|apply NoDup_singleton].
      intros x Hx Hx'. apply list_elem_of_singleton in Hx'. subst x.
      apply list_elem_of_In, in_map_iff in Hx. destruct Hx as (o & Hl & Ho).
      apply filter_In in Ho. destruct Ho as (Ho & Hc).
      apply covers_iff in Hc. specialize (Hold o Ho Hl). lia.
    + rewrite app_nil_r. apply I3.
Qed.

Lemma LaneInv_step gs ge td st b :
  LaneInv st -> LaneInv (layoutStep gs ge td st b).
Proof.
  intros H. rewrite layoutStep_clip.
  destruct (clip gs ge td b) as [[s e]|] eqn:E; auto.
  apply clip_bounds in E. apply LaneInv_place; auto; lia.
Qed.

Lemma LaneInv_fold gs ge td l : forall st,
  LaneInv st -> LaneInv (fold_left (layoutStep gs ge td) l st).
Proof.
  induction l as [|b l IH]; intros st H; simpl; auto.
  apply IH, LaneInv_step, H.
Qed.

End StepFacts.

(** ** Minimality: the invariant along a sorted run *)

Module MinFacts.
Import JsDate JsString BookingCalendar LayoutSpec LaneFacts StepFacts.

Lemma overlapCount_snoc out n d :
  overlapCount (out ++ [n]) d =
  (overlapCount out d + if covers n d then 1 else 0)%nat.
Proof.
  unfold overlapCount. rewrite List.filter_app, length_app. simpl.
  destruct (covers n d); reflexivity.
Qed.

(** Bars in one lane never share a day, so no day has more bars than
    there are lanes. *)
Lemma overlapCount_le_lanes st d :
  LaneInv st ->
  (overlapCount (layoutBookings st) d <= length (laneEndOffsets st))%nat.
Proof.
  intros (I1 & _ & I3). unfold overlapCount.
  pose proof (NoDup_incl_length (proj1 (NoDup_ListNoDup _) (I3 d))
                (l' := seq 0 (length (laneEndOffsets st)))) as HN.
  rewrite List.length_map, List.length_seq in HN. apply HN.
  intros k Hk. apply in_map_iff in Hk. destruct Hk as (e & <- & He).
  apply filter_In in He. destruct He as (He & _).
  destruct (I1 e He) as (_ & x & Hx & _). apply arrayGet_lt in Hx.
  apply in_seq. lia.
Qed.

Lemma MinInv_empty td : MinInv td 0 emptyLayout.
Proof.
  split; [|split]; simpl.
  - intros k Hk. lia.
  - intros e [].
  - left; reflexivity.
Qed.

Lemma MinInv_place td cur st b s e :
  LaneInv st -> MinInv td cur st -> cur <= s -> 0 <= s -> s < e -> e <= td ->
  MinInv td s (place st b s e).
Proof.
  intros HL (J1 & J2 & J3) Hcur Hs Hse He.
  destruct (firstFreeLane_spec (laneEndOffsets st) s) as (Hk & _ & Hbusy).
  set (k := firstFreeLane (laneEndOffsets st) s) in *.
  set (n := {| booking := b; startOffset := s; duration := e - s; laneIndex := k |}).
  assert (Hn : endOffset n = e) by (unfold endOffset; simpl; lia).
  assert (Hcov : covers n s = true) by (apply covers_iff; rewrite Hn; simpl; lia).
  unfold place. fold k. fold n. split; [|split]; simpl.
  - intros k' Hk'. rewrite length_arraySet in Hk' by auto.
    rewrite arrayGet_arraySet by auto.
    destruct (decide (k' = k)) as [->|Hne].
    + exists n. rewrite Hn. split; [apply in_app_iff; right; left; auto|auto].
    + assert (k' < length (laneEndOffsets st))%nat
        by (destruct (decide (k = length (laneEndOffsets st))); lia).
      destruct (J1 k' H) as (o & Ho & Hl & Hg).
      exists o. split; [apply in_app_iff; auto|auto].
  - intros o Ho. apply in_app_iff in Ho. destruct Ho as [Ho|[<-|[]]].
    + specialize (J2 o Ho). lia.
    + rewrite Hn. simpl. lia.
  - rewrite length_arraySet by auto.
    destruct (decide (k = length (laneEndOffsets st))) as [Heq|Hne].
    + right. exists s. split; [lia|].
      rewrite overlapCount_snoc, Hcov.
      enough (k <= overlapCount (layoutBookings st) s)%nat by lia.
      unfold overlapCount.
      pose proof (NoDup_incl_length (seq_NoDup k 0)
        (l' := map laneIndex
                 (List.filter (fun o => covers o s) (layoutBookings st)))) as HN.
      rewrite List.length_map, List.length_seq in HN. apply HN.
      intros j Hj. apply in_seq in Hj.
      destruct (J1 j) as (o & Ho & Hl & Hg); [lia|].
      destruct (Hbusy j) as (x & Hx & Hsx); [lia|].
      rewrite Hg in Hx. inversion Hx; subst x.
      apply in_map_iff. exists o. split; auto.
      apply filter_In. split; auto. apply covers_iff.
      specialize (J2 o Ho). lia.
    + destruct J3 as [J3|(d & Hd & Hc)]; [lia|].
      right. exists d. split; auto. rewrite overlapCount_snoc. lia.
Qed.

Lemma MinInv_weaken td cur cur' st :
  cur <= cur' -> MinInv td cur st -> MinInv td cur' st.
Proof.
  intros H (J1 & J2 & J3). repeat split; auto; specialize (J2 e H0); lia.
Qed.

Lemma Inv_fold gs ge td l :
  StronglySorted byCheckIn l ->
  forall st cur, LaneInv st -> MinInv td cur st ->
  (forall b s e, In b l -> clip gs ge td b = Some (s, e) -> cur <= s) ->
  exists cur', MinInv td cur' (fold_left (layoutStep gs ge td) l st).
Proof.
  induction 1 as [|b l Hs IH Hall]; intros st cur HL HM Hcur; simpl.
  - exists cur; auto.
  - rewrite layoutStep_clip.
    destruct (clip gs ge td b) as [[s e]|] eqn:E.
    + destruct (clip_bounds _ _ _ _ _ _ E) as (H0 & Hse & Hetd).
      apply (IH _ s).
      * apply LaneInv_place; auto.
      * eapply MinInv_place; eauto. eapply Hcur; eauto. left; auto.
      * intros b' s' e' Hb' E'. eapply clip_start_mono; [|exact E|exact E'].
        rewrite Forall_forall in Hall. apply Hall.
        apply list_elem_of_In; auto.
    + apply (IH _ cur); auto. intros; eapply Hcur; eauto. right; auto.
Qed.

(** *** The sort *)

Lemma insertByCheckIn_In x y l :
  In y (insertByCheckIn x l) <-> y = x \/ In y l.
Proof.
  induction l as [|z l IH]; simpl.
  - intuition.
  - destruct (checkIn x <=? checkIn z); simpl; [intuition|].
    rewrite IH. intuition.
Qed.

Lemma insertByCheckIn_sorted x l :
  StronglySorted byCheckIn l -> StronglySorted byCheckIn (insertByCheckIn x l).
Proof.
  induction 1 as [|y l Hs IH Hall]; simpl.
  - repeat constructor.
  - destruct (checkIn x <=? checkIn y) eqn:C.
    + apply Z.leb_le in C. constructor; [constructor; auto|].
      constructor; [exact C|].
      eapply List.Forall_impl; [|exact Hall].
      unfold byCheckIn; simpl; intros; lia.
    + apply Z.leb_gt in C. constructor; auto.
      rewrite Forall_forall in *. intros w Hw.
      apply list_elem_of_In, insertByCheckIn_In in Hw. destruct Hw as [->|Hw].
      * unfold byCheckIn; lia.
      * apply Hall, list_elem_of_In; auto.
Qed.

Lemma sortByCheckIn_sorted l : StronglySorted byCheckIn (sortByCheckIn l).
Proof.
  induction l as [|x l IH]; simpl; [constructor|].
  apply insertByCheckIn_sorted, IH.
Qed.

Lemma sortByCheckIn_In y l : In y (sortByCheckIn l) <-> In y l.
Proof.
  induction l as [|x l IH]; simpl; [tauto|].
  rewrite insertByCheckIn_In, IH. intuition.
Qed.

Lemma list_max_In (l : list nat) (x : nat) : In x l -> (x <= list_max l)%nat.
Proof.
  intros H. assert (Hl : (list_max l <= list_max l)%nat) by lia.
  apply list_max_le in Hl. rewrite List.Forall_forall in Hl. auto.
Qed.

End MinFacts.

(** ** The layout pass of a room *)

Module LayoutTheorems.
Import JsDate JsString BookingCalendar LayoutSpec LaneFacts StepFacts MinFacts.

Lemma renderRoomRow_LaneInv z roomName bookings startDate endDate :
  LaneInv (renderRoomRow z roomName bookings startDate endDate).
Proof. apply LaneInv_fold, LaneInv_empty. Qed.

Lemma renderRoomRow_MinInv z roomName bookings startDate endDate :
  exists cur,
    MinInv (totalDaysOf z startDate endDate) cur
           (renderRoomRow z roomName bookings startDate endDate).
Proof.
  unfold renderRoomRow, layoutPass.
  eapply Inv_fold with (cur := 0).
  - apply sortByCheckIn_sorted.
  - apply LaneInv_empty.
  - apply MinInv_empty.
  - intros b s e _ E. apply clip_bounds in E. lia.
Qed.

(** C1 (lane minimality). For every booking list, room and window, in any
    time zone, the number of lanes the pass uses (the length of
    [laneEndOffsets], which is also the largest assigned [laneIndex] plus
    one) equals the largest number of emitted bars that cover one day
    offset of the window; no day offset at all is covered by more bars
    than there are lanes. *)
Theorem lane_minimality z roomName bookings startDate endDate :
  length (laneEndOffsets (renderRoomRow z roomName bookings startDate endDate))
  = maxOverlap (totalDaysOf z startDate endDate)
      (layoutBookings (renderRoomRow z roomName bookings startDate endDate))
  /\ length (laneEndOffsets (renderRoomRow z roomName bookings startDate endDate))
     = lanesUsed (layoutBookings (renderRoomRow z roomName bookings startDate endDate))
  /\ forall d : Z,
       (overlapCount
          (layoutBookings (renderRoomRow z roomName bookings startDate endDate)) d
        <= length (laneEndOffsets (renderRoomRow z roomName bookings startDate endDate)))%nat.
Proof.
  pose proof (renderRoomRow_LaneInv z roomName bookings startDate endDate) as HL.
  destruct (renderRoomRow_MinInv z roomName bookings startDate endDate)
    as (cur & J1 & J2 & J3).
  set (st := renderRoomRow z roomName bookings startDate endDate) in *.
  set (td := totalDaysOf z startDate endDate) in *.
  split; [|split].
  - apply Nat.le_antisymm.
    + destruct J3 as [J3|(d & Hd & Hc)]; [lia|].
      etransitivity; [exact Hc|]. unfold maxOverlap. apply list_max_In.
      apply in_map_iff. exists (Z.to_nat d). split.
      * rewrite Z2Nat.id by lia. reflexivity.
      * apply in_seq. lia.
    + unfold maxOverlap. apply list_max_le, List.Forall_forall.
      intros n Hn. apply in_map_iff in Hn. destruct Hn as (d & <- & _).
      apply overlapCount_le_lanes, HL.
  - apply Nat.le_antisymm.
    + destruct (length (laneEndOffsets st)) as [|k] eqn:E; [lia|].
      destruct (J1 k) as (e & He & Hl & _); [lia|].
      unfold lanesUsed. apply list_max_In, in_map_iff.
      exists e. split; [congruence|auto].
    + unfold lanesUsed. apply list_max_le, List.Forall_forall.
      intros n Hn. apply in_map_iff in Hn. destruct Hn as (e & <- & He).
      destruct HL as (I1 & _). destruct (I1 e He) as (_ & x & Hx & _).
      apply arrayGet_lt in Hx. lia.
  - intros d. apply overlapCount_le_lanes, HL.
Qed.

(** C2 (no same-lane overlap). For every booking list, room and window,
    two distinct bars that the pass puts in one lane have half-open
    intervals [startOffset, startOffset + duration) that do not
    intersect: one ends at or before the start of the other, and no day
    offset lies in both. *)
Theorem no_same_lane_overlap z roomName bookings startDate endDate
    (i j : nat) (e1 e2 : LayoutBooking) :
  i <> j ->
  layoutBookings (renderRoomRow z roomName bookings startDate endDate) !! i = Some e1 ->
  layoutBookings (renderRoomRow z roomName bookings startDate endDate) !! j = Some e2 ->
  laneIndex e1 = laneIndex e2 ->
  Disjoint e1 e2 /\ forall d, ~ (covers e1 d = true /\ covers e2 d = true).
Proof.
  intros Hij H1 H2 Hl.
  destruct (renderRoomRow_LaneInv z roomName bookings startDate endDate)
    as (_ & I2 & _).
  assert (HD : Disjoint e1 e2) by (eapply I2; eauto).
  split; auto. intros d [C1 C2]. apply covers_iff in C1, C2.
  destruct HD; lia.
Qed.

Lemma no_same_lane_overlap_witness :
  exists e1 e2,
    layoutBookings
      (renderRoomRow Samples.utc "jason" [Samples.bookingA; Samples.bookingB]
         (Samples.noonUTC 2024 1 1) (Samples.noonUTC 2024 12 30)) !! 0%nat = Some e1 /\
    layoutBookings
      (renderRoomRow Samples.utc "jason" [Samples.bookingA; Samples.bookingB]
         (Samples.noonUTC 2024 1 1) (Samples.noonUTC 2024 12 30)) !! 1%nat = Some e2 /\
    laneIndex e1 = laneIndex e2 /\ Disjoint e1 e2.
Proof.
  eexists. eexists.
  split; [vm_compute; reflexivity|]. split; [vm_compute; reflexivity|].
  split; [reflexivity|].
  refine (proj1 (no_same_lane_overlap Samples.utc "jason"
                   [Samples.bookingA; Samples.bookingB]
                   (Samples.noonUTC 2024 1 1) (Samples.noonUTC 2024 12 30)
                   0%nat 1%nat _ _ _ _ _ _));
    [lia | vm_compute; reflexivity | vm_compute; reflexivity | reflexivity].
Defined.

End LayoutTheorems.

(** ** Stability of the sort *)

Module SortFacts.
Import JsDate JsString BookingCalendar LayoutSpec MinFacts.

Lemma insertByCheckIn_head x l :
  (forall y, In y l -> checkIn x <= checkIn y) ->
  insertByCheckIn x l = x :: l.
Proof.
  destruct l as [|y l]; simpl; auto.
  intros H. specialize (H y (or_introl eq_refl)).
  apply Z.leb_le in H. rewrite H. reflexivity.
Qed.

Lemma StronglySorted_head (y : RoomBooking) l w :
  StronglySorted byCheckIn (y :: l) -> In w (y :: l) -> checkIn y <= checkIn w.
Proof.
  intros H Hw. inversion H as [|? ? _ Hall]; subst.
  destruct Hw as [->|Hw]; [lia|].
  rewrite List.Forall_forall in Hall. apply Hall, Hw.
Qed.

(** Filtering commutes with the insertion into a sorted list. *)
Lemma filter_insertByCheckIn (p : RoomBooking -> bool) x l :
  StronglySorted byCheckIn l ->
  List.filter p (insertByCheckIn x l) =
  if p x then insertByCheckIn x (List.filter p l) else List.filter p l.
Proof.
  induction l as [|y l IH]; intros Hs; simpl.
  - destruct (p x); reflexivity.
  - destruct (checkIn x <=? checkIn y) eqn:C.
    + apply Z.leb_le in C. change (List.filter p (x :: y :: l)) with
        (if p x then x :: List.filter p (y :: l) else List.filter p (y :: l)).
      destruct (p x); [|reflexivity].
      symmetry. apply insertByCheckIn_head.
      intros w Hw. apply filter_In in Hw. destruct Hw as [Hw _].
      pose proof (StronglySorted_head _ _ _ Hs Hw). lia.
    + simpl. rewrite IH by (inversion Hs; auto).
      destruct (p y), (p x); simpl; try reflexivity.
      rewrite C. reflexivity.
Qed.

Lemma filter_sortByCheckIn (p : RoomBooking -> bool) l :
  List.filter p (sortByCheckIn l) = sortByCheckIn (List.filter p l).
Proof.
  induction l as [|x l IH]; simpl; auto.
  rewrite filter_insertByCheckIn by apply sortByCheckIn_sorted.
  rewrite IH. destruct (p x); reflexivity.
Qed.

Lemma sortByCheckIn_same_key k l :
  (forall x, In x l -> checkIn x = k) -> sortByCheckIn l = l.
Proof.
  induction l as [|x l IH]; intros H; simpl; auto.
  rewrite IH by (intros; apply H; right; auto).
  apply insertByCheckIn_head. intros y Hy.
  rewrite (H x), (H y); simpl; auto. lia.
Qed.

(** The sort of [renderRoomRow] is a stable sort. *)
Lemma sortByCheckIn_stable l : StableSortOf l (sortByCheckIn l).
Proof.
  split; [apply sortByCheckIn_sorted|].
  intros k. rewrite filter_sortByCheckIn.
  apply (sortByCheckIn_same_key k).
  intros x Hx. apply filter_In in Hx. destruct Hx as [_ Hx].
  apply Z.eqb_eq in Hx. exact Hx.
Qed.

Lemma sameKey_self b : sameKey (checkIn b) b = true.
Proof. apply Z.eqb_refl. Qed.

(** A sorted list is determined by its runs of equal keys. *)
Lemma sorted_runs_unique l1 : forall l2,
  StronglySorted byCheckIn l1 -> StronglySorted byCheckIn l2 ->
  (forall k, List.filter (sameKey k) l1 = List.filter (sameKey k) l2) ->
  l1 = l2.
Proof.
  induction l1 as [|x t1 IH]; intros l2 H1 H2 Hf.
  - destruct l2 as [|y t2]; auto.
    specialize (Hf (checkIn y)). simpl in Hf.
    rewrite sameKey_self in Hf. discriminate.
  - destruct l2 as [|y t2].
    { specialize (Hf (checkIn x)). simpl in Hf.
      rewrite sameKey_self in Hf. discriminate. }
    assert (Hk : checkIn y = checkIn x).
    { apply Z.le_antisymm.
      - apply (StronglySorted_head _ _ _ H2).
        apply (proj1 (filter_In (sameKey (checkIn x)) x (y :: t2))).
        rewrite <- Hf. simpl. rewrite sameKey_self. left; auto.
      - apply (StronglySorted_head _ _ _ H1).
        apply (proj1 (filter_In (sameKey (checkIn y)) y (x :: t1))).
        rewrite Hf. simpl. rewrite sameKey_self. left; auto. }
    pose proof (Hf (checkIn x)) as Hx. simpl in Hx.
    rewrite sameKey_self in Hx.
    assert (Hy : sameKey (checkIn x) y = true) by (apply Z.eqb_eq; auto).
    rewrite Hy in Hx. inversion Hx; subst y. f_equal.
    apply IH; [inversion H1; auto | inversion H2; auto |].
    intros k. specialize (Hf k). simpl in Hf.
    destruct (sameKey k x); [inversion Hf; auto | auto].
Qed.

Lemma StableSortOf_unique l s1 s2 :
  StableSortOf l s1 -> StableSortOf l s2 -> s1 = s2.
Proof.
  intros [S1 F1] [S2 F2]. apply sorted_runs_unique; auto.
  intros k. rewrite F1, F2. reflexivity.
Qed.

(** Bookings on which the loop body does nothing can be left out. *)
Lemma fold_left_skip {S A} (f : S -> A -> S) (p : A -> bool) l :
  (forall st a, p a = false -> f st a = st) ->
  forall st, fold_left f l st = fold_left f (List.filter p l) st.
Proof.
  intros Hp. induction l as [|a l IH]; intros st; simpl; auto.
  destruct (p a) eqn:E; simpl; [apply IH|].
  rewrite Hp by auto. apply IH.
Qed.

End SortFacts.

(** ** Dropped bookings *)

Module PassTheorems.
Import JsDate JsString BookingCalendar LayoutSpec DropCases Samples.
Import LaneFacts StepFacts MinFacts SortFacts LayoutTheorems.

(** Whatever the loop emits went through the three guards. *)
Lemma emitted_clip gs ge td l : forall st e,
  In e (layoutBookings (fold_left (layoutStep gs ge td) l st)) ->
  In e (layoutBookings st) \/
  (In (booking e) l /\ clip gs ge td (booking e) = Some (startOffset e, endOffset e)).
Proof.
  induction l as [|b l IH]; intros st e He; simpl in *; auto.
  apply IH in He. destruct He as [He|[He Hc]]; [|right; split; auto].
  rewrite layoutStep_clip in He.
  destruct (clip gs ge td b) as [[s x]|] eqn:E; auto.
  unfold place in He. simpl in He. apply in_app_iff in He.
  destruct He as [He|[<-|[]]]; auto.
  right. simpl. split; auto. rewrite E. unfold endOffset. simpl.
  do 2 f_equal. lia.
Qed.

Lemma clip_first_guard gs ge td rb :
  (Z.min (checkOut rb) ge <=? Z.max (checkIn rb) gs) = true ->
  clip gs ge td rb = None.
Proof. intros H. unfold clip. rewrite H. reflexivity. Qed.

Lemma roomCandidates_original z roomName bookings rb :
  In rb (roomCandidates z roomName bookings) ->
  withCheckDates z (original rb) = Some rb.
Proof.
  intros H. apply list_elem_of_In, list_elem_of_omap in H.
  destruct H as (b & _ & Hb). pose proof Hb as Hb'.
  unfold withCheckDates in Hb'.
  destruct (normalizeDate z (startDate b)), (normalizeDate z (endDate b));
    try discriminate.
  inversion Hb'; subst rb. simpl. exact Hb.
Qed.

Lemma OutsideWindow_clippedEmpty z startDate endDate b :
  OutsideWindow z startDate endDate b -> clippedEmpty z startDate endDate b = true.
Proof.
  intros [rb Hrb H|rb Hrb H|rb Hrb H|s e Hs He Hle Hmono|H]; auto;
    unfold clippedEmpty.
  1-3: rewrite Hrb; apply Z.leb_le; lia.
  unfold withCheckDates. rewrite Hs, He. simpl.
  specialize (Hmono e s Hle). apply Z.leb_le. lia.
Qed.

Lemma fixedOffset_monotone tz x y :
  x <= y -> setHours0 (fixedOffset tz) x <= setHours0 (fixedOffset tz) y.
Proof.
  intros H. simpl.
  assert ((x + tz) / msPerDay <= (y + tz) / msPerDay)
    by (apply Z.div_le_mono; unfold msPerDay; lia).
  unfold msPerDay in *. lia.
Qed.

(** C5 (dropped bookings). A booking whose interval clipped to the grid
    is empty or inverted (it ends at or before the window start, starts
    at or after the day following the window end, or checks out at or
    before its check-in, dates compared after [normalizeDate]) is in no
    layout output, and a booking list with it gives the same bars and the
    same lanes as the list without it. *)
Theorem dropped_booking_absent z roomName startDate endDate (b : Booking)
    (H : OutsideWindow z startDate endDate b) :
  (forall bookings e,
      In e (layoutBookings (renderRoomRow z roomName bookings startDate endDate)) ->
      original (booking e) <> b) /\
  (forall l1 l2,
      renderRoomRow z roomName (l1 ++ b :: l2) startDate endDate
      = renderRoomRow z roomName (l1 ++ l2) startDate endDate).
Proof.
  apply OutsideWindow_clippedEmpty in H. split.
  - intros bookings e He Heq.
    apply emitted_clip in He. destruct He as [[]|[Hin Hc]].
    apply sortByCheckIn_In, roomCandidates_original in Hin.
    unfold clippedEmpty in H. rewrite <- Heq, Hin in H.
    rewrite (clip_first_guard _ _ _ _ H) in Hc. discriminate.
  - intros l1 l2. unfold renderRoomRow, layoutPass, roomBookings.
    set (gs := gridStartOf z startDate). set (ge := gridEndExclusiveOf z endDate).
    set (td := totalDaysOf z startDate endDate).
    set (p := fun rb => negb (Z.min (checkOut rb) ge <=? Z.max (checkIn rb) gs)).
    assert (Hp : forall st a, p a = false -> layoutStep gs ge td st a = st).
    { intros st a Ha. rewrite layoutStep_clip, clip_first_guard; auto.
      unfold p in Ha. apply negb_false_iff in Ha. exact Ha. }
    rewrite (fold_left_skip _ p (sortByCheckIn (roomCandidates z roomName (l1 ++ b :: l2))) Hp).
    rewrite (fold_left_skip _ p (sortByCheckIn (roomCandidates z roomName (l1 ++ l2))) Hp).
    rewrite !filter_sortByCheckIn.
    do 2 f_equal. unfold roomCandidates.
    rewrite !List.filter_app, !omap_app, !List.filter_app. f_equal.
    simpl. destruct (sameRoom roomName b); auto. simpl.
    unfold clippedEmpty in H.
    destruct (withCheckDates z b) as [rb|]; auto.
    simpl. unfold p. fold gs ge in H. rewrite H. reflexivity.
Qed.

Lemma dropped_booking_absent_witness :
  OutsideWindow utc (noonUTC 2024 1 3) (noonUTC 2024 1 31) bookingPast /\
  renderRoomRow utc "jason" ([bookingA] ++ bookingPast :: [bookingB])
                (noonUTC 2024 1 3) (noonUTC 2024 1 31)
  = renderRoomRow utc "jason" ([bookingA] ++ [bookingB])
                (noonUTC 2024 1 3) (noonUTC 2024 1 31).
Proof.
  assert (W : OutsideWindow utc (noonUTC 2024 1 3) (noonUTC 2024 1 31) bookingPast).
  { eapply EntirelyBefore; [reflexivity|]. vm_compute. discriminate. }
  split; [exact W|].
  apply (proj2 (dropped_booking_absent utc "jason" _ _ bookingPast W)).
Defined.

End PassTheorems.

(** ** The layout in whole days *)

Module DayFacts.
Import JsDate JsString BookingCalendar LayoutSpec Samples.
Import LaneFacts StepFacts.

Lemma midnightOn_fixed tz t : midnightOn (fixedOffset tz) tz t (localDay tz t).
Proof. reflexivity. Qed.

Lemma gridEndExclusiveOf_fixed tz we :
  gridEndExclusiveOf (fixedOffset tz) we = (localDay tz we + 1) * msPerDay - tz.
Proof. unfold gridEndExclusiveOf. simpl. unfold localDay. lia. Qed.

(** A grid between two local midnights at one offset has a whole number
    of days. *)
Lemma totalDaysOf_days z tz ws we Ds De :
  midnightOn z tz ws Ds -> gridEndExclusiveOf z we = De * msPerDay - tz ->
  totalDaysOf z ws we = Z.max 0 (De - Ds).
Proof.
  unfold midnightOn, totalDaysOf, gridStartOf. intros -> ->.
  f_equal. unfold roundDiv, msPerDay.
  replace (2 * (De * (24 * 60 * 60 * 1000) - tz
                - (Ds * (24 * 60 * 60 * 1000) - tz)) + 24 * 60 * 60 * 1000)
    with (86400000 + (De - Ds) * (2 * (24 * 60 * 60 * 1000))) by lia.
  rewrite Z.div_add by lia. reflexivity.
Qed.

(** Between local midnights at one offset the three guards and the two
    offsets are plain day arithmetic. *)
Lemma clip_days tz Ds De td rb Di Do :
  checkIn rb = Di * msPerDay - tz -> checkOut rb = Do * msPerDay - tz ->
  clip (Ds * msPerDay - tz) (De * msPerDay - tz) td rb = clipDays Ds De td Di Do.
Proof.
  intros Hi Ho. unfold clip, clipDays. rewrite Hi, Ho.
  assert (HM : 0 < msPerDay) by (unfold msPerDay; lia).
  replace (Z.max (Di * msPerDay - tz) (Ds * msPerDay - tz))
    with (Z.max Di Ds * msPerDay - tz) by (unfold msPerDay; lia).
  replace (Z.min (Do * msPerDay - tz) (De * msPerDay - tz))
    with (Z.min Do De * msPerDay - tz) by (unfold msPerDay; lia).
  replace (Z.min Do De * msPerDay - tz <=? Z.max Di Ds * msPerDay - tz)
    with (Z.min Do De <=? Z.max Di Ds).
  2:{ destruct (Z.leb_spec (Z.min Do De) (Z.max Di Ds));
      symmetry; [apply Z.leb_le | apply Z.leb_gt]; unfold msPerDay; lia. }
  replace (floorDiv (Z.max Di Ds * msPerDay - tz - (Ds * msPerDay - tz)) msPerDay)
    with (Z.max Di Ds - Ds).
  2:{ unfold floorDiv.
      replace (Z.max Di Ds * msPerDay - tz - (Ds * msPerDay - tz))
        with ((Z.max Di Ds - Ds) * msPerDay) by lia.
      rewrite Z.div_mul by lia. reflexivity. }
  replace (ceilDiv (Z.min Do De * msPerDay - tz - (Ds * msPerDay - tz)) msPerDay)
    with (Z.min Do De - Ds).
  2:{ unfold ceilDiv.
      replace (- (Z.min Do De * msPerDay - tz - (Ds * msPerDay - tz)))
        with ((- (Z.min Do De - Ds)) * msPerDay) by lia.
      rewrite Z.div_mul by lia. lia. }
  reflexivity.
Qed.

Lemma leb_days tz a b :
  (a * msPerDay - tz <=? b * msPerDay - tz) = (a <=? b).
Proof.
  destruct (Z.leb_spec a b); [apply Z.leb_le | apply Z.leb_gt];
    unfold msPerDay; lia.
Qed.

End DayFacts.

(** ** Adjacent bookings and window clipping *)

Module ExampleTheorems.
Import JsDate JsString BookingCalendar LayoutSpec Samples.
Import LaneFacts StepFacts PassTheorems DayFacts.

Ltac decide_guards :=
  repeat match goal with
         | |- context [?a >=? ?b] => rewrite (Z.geb_leb a b)
         | |- context [?a <=? ?b] => destruct (Z.leb_spec a b); try lia
         end.

(** Two stays of a room, the second starting no earlier than the first
    and not before the first one's bar ends, are put in lane 0 one after
    the other, whichever comes first in the input. *)
Lemma two_stays_one_lane tz Ds De td rb1 rb2 D1i D1o D2i D2o s1 e1 s2 e2 l :
  checkIn rb1 = D1i * msPerDay - tz -> checkOut rb1 = D1o * msPerDay - tz ->
  checkIn rb2 = D2i * msPerDay - tz -> checkOut rb2 = D2o * msPerDay - tz ->
  clipDays Ds De td D1i D1o = Some (s1, e1) ->
  clipDays Ds De td D2i D2o = Some (s2, e2) ->
  e1 <= s2 ->
  (l = [rb1; rb2] /\ D1i <= D2i) \/ (l = [rb2; rb1] /\ D1i < D2i) ->
  fold_left (layoutStep (Ds * msPerDay - tz) (De * msPerDay - tz) td)
            (sortByCheckIn l) emptyLayout
  = {| laneEndOffsets := [Some e2];
       layoutBookings :=
         [ {| booking := rb1; startOffset := s1; duration := e1 - s1; laneIndex := 0 |};
           {| booking := rb2; startOffset := s2; duration := e2 - s2; laneIndex := 0 |} ] |}.
Proof.
  intros H1i H1o H2i H2o C1 C2 Hadj Hl.
  assert (Hs : sortByCheckIn l = [rb1; rb2]).
  { destruct Hl as [[-> Hle]|[-> Hlt]]; simpl; rewrite ?H1i, ?H2i, leb_days.
    - apply Z.leb_le in Hle. rewrite Hle. reflexivity.
    - apply Z.leb_gt in Hlt. rewrite Hlt. reflexivity. }
  rewrite Hs. simpl.
  rewrite (layoutStep_clip _ _ _ emptyLayout), (clip_days _ _ _ _ _ _ _ H1i H1o), C1.
  rewrite layoutStep_clip, (clip_days _ _ _ _ _ _ _ H2i H2o), C2.
  unfold place, firstFreeLane. simpl.
  replace (e1 >? s2) with false
    by (symmetry; rewrite Z.gtb_ltb; apply Z.ltb_ge; lia).
  reflexivity.
Qed.

(** The rounded day count of a grid is never above the day offset of its
    end rounded up. *)
Lemma round_le_ceil a : 0 < a -> Z.max 0 (roundDiv a msPerDay) <= ceilDiv a msPerDay.
Proof.
  intros Ha. unfold roundDiv, ceilDiv.
  change msPerDay with 86400000. change (2 * 86400000) with 172800000.
  Z.div_mod_to_equations. lia.
Qed.

(** The two offsets of a clipped interval in closed form: the day offset
    of the check-in clamped at 0 from below, the day offset of the
    check-out clamped at [td] from above. *)
Lemma clip_clamped gs ge b s e :
  clip gs ge (Z.max 0 (roundDiv (ge - gs) msPerDay)) b = Some (s, e) ->
  s = Z.max 0 (floorDiv (checkIn b - gs) msPerDay) /\
  e = Z.min (Z.max 0 (roundDiv (ge - gs) msPerDay)) (ceilDiv (checkOut b - gs) msPerDay).
Proof.
  set (td := Z.max 0 (roundDiv (ge - gs) msPerDay)).
  unfold clip.
  destruct (_ <=? _) eqn:E1; [discriminate|].
  destruct (_ >=? _) eqn:E2; [discriminate|].
  destruct (_ <=? 0) eqn:E3; [discriminate|].
  intros H. inversion H as [[Hs He]]; clear H.
  apply Z.leb_gt in E1, E3. rewrite Z.geb_leb in E2. apply Z.leb_gt in E2.
  assert (Hfl : floorDiv (Z.max (checkIn b) gs - gs) msPerDay
                = Z.max 0 (floorDiv (checkIn b - gs) msPerDay)).
  { unfold floorDiv. change msPerDay with 86400000.
    destruct (Z.max_spec (checkIn b) gs) as [[? ->]|[? ->]];
      Z.div_mod_to_equations; lia. }
  split.
  - rewrite Hfl. lia.
  - assert (Hge : gs < ge) by lia.
    pose proof (round_le_ceil (ge - gs) ltac:(lia)) as Hr. fold td in Hr.
    assert (Hmono : Z.min (checkOut b) ge = ge ->
                    ceilDiv (ge - gs) msPerDay <= ceilDiv (checkOut b - gs) msPerDay).
    { intros Hm. unfold ceilDiv. change msPerDay with 86400000.
      assert (ge <= checkOut b) by lia.
      Z.div_mod_to_equations. lia. }
    destruct (Z.min_spec (checkOut b) ge) as [[? Hm]|[? Hm]]; rewrite Hm in *.
    + lia.
    + specialize (Hmono eq_refl). lia.
Qed.


(** A stay that checks out when the next checks in, the changeover a
    whole number of days after the grid start: the first clipped interval
    ends at or before the start of the second. *)
Lemma adjacent_clip gs ge a b sA eA sB eB :
  clip gs ge (Z.max 0 (roundDiv (ge - gs) msPerDay)) a = Some (sA, eA) ->
  clip gs ge (Z.max 0 (roundDiv (ge - gs) msPerDay)) b = Some (sB, eB) ->
  checkOut a = checkIn b ->
  (checkIn b - gs) mod msPerDay = 0 ->
  eA <= sB.
Proof.
  intros Ha Hb Hadj Hal.
  destruct (clip_clamped _ _ _ _ _ Ha) as [_ HeA].
  destruct (clip_clamped _ _ _ _ _ Hb) as [HsB _].
  rewrite Hadj in HeA. subst eA sB.
  revert Hal. unfold ceilDiv, floorDiv. change msPerDay with 86400000.
  intros Hal. Z.div_mod_to_equations. lia.
Qed.

Lemma clip_not_inverted gs ge td b s e :
  clip gs ge td b = Some (s, e) -> checkIn b < checkOut b.
Proof.
  unfold clip. destruct (_ <=? _) eqn:E1; [discriminate|]. intros _.
  apply Z.leb_gt in E1. lia.
Qed.

(** Two adjacent stays alone in a room never need a second lane. *)
Lemma adjacent_pair_lane gs ge rbA rbB l :
  l = [rbA; rbB] \/ l = [rbB; rbA] ->
  checkOut rbA = checkIn rbB ->
  (checkIn rbB - gs) mod msPerDay = 0 ->
  forall e,
    In e (layoutBookings
            (fold_left (layoutStep gs ge (Z.max 0 (roundDiv (ge - gs) msPerDay)))
                       (sortByCheckIn l) emptyLayout)) ->
    laneIndex e = 0%nat.
Proof.
  set (td := Z.max 0 (roundDiv (ge - gs) msPerDay)).
  intros Hl Hadj Hal e.
  assert (Hs : sortByCheckIn l = [rbA; rbB] \/
               (sortByCheckIn l = [rbB; rbA] /\ checkIn rbB <= checkIn rbA)).
  { destruct Hl as [-> | ->]; simpl.
    - destruct (Z.leb_spec (checkIn rbA) (checkIn rbB)); [left; reflexivity|].
      right. split; [reflexivity|lia].
    - destruct (Z.leb_spec (checkIn rbB) (checkIn rbA)); [|left; reflexivity].
      right. split; [reflexivity|lia]. }
  destruct Hs as [-> | [-> Hinv]]; simpl; rewrite !layoutStep_clip.
  - destruct (clip gs ge td rbA) as [[sA eA]|] eqn:CA;
      destruct (clip gs ge td rbB) as [[sB eB]|] eqn:CB;
      unfold place, firstFreeLane; simpl.
    + pose proof (adjacent_clip _ _ _ _ _ _ _ _ CA CB Hadj Hal) as Hle.
      replace (eA >? sB) with false
        by (symmetry; rewrite Z.gtb_ltb; apply Z.ltb_ge; lia).
      intros [<-|[<-|[]]]; reflexivity.
    + intros [<-|[]]; reflexivity.
    + intros [<-|[]]; reflexivity.
    + intros [].
  - assert (CA : clip gs ge td rbA = None).
    { destruct (clip gs ge td rbA) as [[sA eA]|] eqn:CA; [|reflexivity].
      apply clip_not_inverted in CA. lia. }
    rewrite CA.
    destruct (clip gs ge td rbB) as [[sB eB]|] eqn:CB;
      unfold place, firstFreeLane; simpl.
    + intros [<-|[]]; reflexivity.
    + intros [].
Qed.





(** C4 (window clipping). Clipping clamps a bar to the window, in any
    time zone and for any bookings: the start offset of an emitted bar is
    the day offset of its check-in from the window start, rounded down and
    clamped at 0 (so it is 0 for a stay that begins at or before the
    window start), and its end offset is the day offset of its check-out,
    rounded up and clamped at [totalDays] (so a stay that runs to the day
    after the window end or beyond stops at [totalDays]). The example: a
    stay from 2024-01-01 to 2024-01-05 in the window from 2024-01-03 to
    2024-01-31 (local calendar days at any time of day, local midnights
    at one offset [tz] from UTC) gives one bar with start offset 0 and
    duration 2. *)
Theorem window_clipping z ws we :
  (forall roomName bookings e,
     In e (layoutBookings (renderRoomRow z roomName bookings ws we)) ->
     startOffset e
     = Z.max 0 (floorDiv (checkIn (booking e) - gridStartOf z ws) msPerDay) /\
     endOffset e
     = Z.min (totalDaysOf z ws we)
             (ceilDiv (checkOut (booking e) - gridStartOf z ws) msPerDay) /\
     (checkIn (booking e) <= gridStartOf z ws -> startOffset e = 0) /\
     (gridEndExclusiveOf z we <= checkOut (booking e) ->
      endOffset e = totalDaysOf z ws we) /\
     0 <= startOffset e /\ endOffset e <= totalDaysOf z ws we) /\
  (forall tz s e,
     midnightOn z tz ws (MakeDay 2024 0 3) ->
     gridEndExclusiveOf z we = (MakeDay 2024 0 31 + 1) * msPerDay - tz ->
     midnightOn z tz s (MakeDay 2024 0 1) -> midnightOn z tz e (MakeDay 2024 0 5) ->
     map geometry
         (layoutBookings (renderRoomRow z "jason" [stay "X" "jason" s e] ws we))
     = [("X"%string, 0, 2, 0%nat)]).
Proof.
  split.
  - intros roomName bookings e He.
    unfold renderRoomRow, layoutPass in He.
    apply emitted_clip in He. destruct He as [[]|[_ Hc]].
    pose proof (clip_bounds _ _ _ _ _ _ Hc) as (Hb0 & Hb1 & Hb2).
    unfold totalDaysOf in *.
    destruct (clip_clamped _ _ _ _ _ Hc) as [Hs He].
    pose proof (round_le_ceil) as Hr.
    split; [exact Hs|]. split; [exact He|].
    split; [|split; [|split; [exact Hb0|exact Hb2]]].
    + intros Hle. rewrite Hs. unfold floorDiv. change msPerDay with 86400000.
      Z.div_mod_to_equations. lia.
    + intros Hle. rewrite He.
      assert (Hpos : 0 < gridEndExclusiveOf z we - gridStartOf z ws).
      { revert Hc. unfold clip.
        destruct (_ <=? _) eqn:E1; [discriminate|]. intros _.
        apply Z.leb_gt in E1. lia. }
      specialize (Hr _ Hpos).
      assert (ceilDiv (gridEndExclusiveOf z we - gridStartOf z ws) msPerDay
              <= ceilDiv (checkOut (booking e) - gridStartOf z ws) msPerDay).
      { unfold ceilDiv. change msPerDay with 86400000.
        Z.div_mod_to_equations. lia. }
      lia.
  - intros tz s e Hws Hwe Hs He.
    unfold renderRoomRow, layoutPass, roomBookings.
    rewrite (totalDaysOf_days z tz ws we _ _ Hws Hwe), Hwe.
    unfold gridStartOf. rewrite Hws. unfold midnightOn in *.
    set (rb := {| original := stay "X" "jason" s e;
                  checkIn := MakeDay 2024 0 1 * msPerDay - tz;
                  checkOut := MakeDay 2024 0 5 * msPerDay - tz |}).
    assert (W : roomCandidates z "jason" [stay "X" "jason" s e] = [rb]).
    { unfold roomCandidates. simpl List.filter. cbn -[withCheckDates stay].
      unfold withCheckDates. simpl. rewrite Hs, He. reflexivity. }
    rewrite W. simpl sortByCheckIn. simpl fold_left.
    rewrite layoutStep_clip.
    rewrite (clip_days tz _ _ _ rb (MakeDay 2024 0 1) (MakeDay 2024 0 5) eq_refl eq_refl).
    reflexivity.
Qed.

(** The example, and a stay that runs past the window end: its bar stops
    at [totalDays]. *)
Lemma window_clipping_witness :
  map geometry
      (layoutBookings
         (renderRoomRow (fixedOffset 0) "jason"
            [stay "X" "jason" (noonUTC 2024 1 1) (noonUTC 2024 1 5)]
            (midnightAt 0 2024 1 3) (noonUTC 2024 1 31)))
  = [("X"%string, 0, 2, 0%nat)] /\
  exists e,
    layoutBookings
      (renderRoomRow (fixedOffset 0) "jason"
         [stay "Y" "jason" (noonUTC 2024 1 20) (noonUTC 2024 2 10)]
         (midnightAt 0 2024 1 3) (noonUTC 2024 1 31)) = [e] /\
    startOffset e = 17 /\
    endOffset e = totalDaysOf (fixedOffset 0) (midnightAt 0 2024 1 3) (noonUTC 2024 1 31).
Proof.
  split.
  - apply (proj2 (window_clipping (fixedOffset 0) (midnightAt 0 2024 1 3)
                    (noonUTC 2024 1 31)) 0); reflexivity.
  - eexists. split; [vm_compute; reflexivity|]. split; [reflexivity|].
    refine (proj1 (proj2 (proj2 (proj2
              (proj1 (window_clipping (fixedOffset 0) (midnightAt 0 2024 1 3)
                        (noonUTC 2024 1 31))
                 "jason"%string
                 [stay "Y" "jason" (noonUTC 2024 1 20) (noonUTC 2024 2 10)]
                 _ _)))) _).
    + vm_compute. left. reflexivity.
    + vm_compute. discriminate.
Defined.

(** Where the clocks change between the window start and two
    back-to-back stays, the quotient of the day offsets is no longer whole:
    the first bar is rounded up past the start of the second, and the
    second is put in another lane. *)
Remark offset_change_splits_adjacent_stays :
  map geometry
      (layoutBookings
         (renderRoomRow autumnChange "jason" [bookingNov1; bookingNov5]
            (midnightAt (hours 3) 2024 6 1) (midnightAt (hours 3) 2025 5 31)))
  = [("N1"%string, 153, 5, 0%nat); ("N5"%string, 157, 4, 1%nat)].
Proof. vm_compute. reflexivity. Qed.

End ExampleTheorems.

(** ** Source labels *)

Module LabelTheorems.
Import JsDate JsString LabelSpec Beds24Json Beds24JsonSpec.

Lemma eqb_empty_false s : String.eqb s EmptyString = false -> s <> EmptyString.
Proof. intros H ->. discriminate. Qed.

(** On records of text fields the two embeddings of [determineSource]
    agree. *)
Lemma lowerCaseOf_text a b :
  lowerCaseOf (jsOr (jsOr (ofText a) (ofText b)) (JsText EmptyString))
  = Some (toLowerCase (orEmpty (orElse a b))).
Proof.
  unfold jsOr, orElse.
  destruct a as [s|]; simpl.
  - destruct (String.eqb s EmptyString) eqn:E; simpl.
    + destruct b as [t|]; simpl; [|reflexivity].
      destruct (String.eqb t EmptyString) eqn:F; simpl; [|reflexivity].
      apply String.eqb_eq in F. subst t. reflexivity.
    + rewrite E. reflexivity.
  - destruct b as [t|]; simpl; [|reflexivity].
    destruct (String.eqb t EmptyString) eqn:F; simpl; [|reflexivity].
    apply String.eqb_eq in F. subst t. reflexivity.
Qed.

Lemma lowerCaseOf_text1 a :
  lowerCaseOf (jsOr (ofText a) (JsText EmptyString))
  = Some (toLowerCase (orEmpty a)).
Proof.
  unfold jsOr. destruct a as [s|]; simpl; [|reflexivity].
  destruct (String.eqb s EmptyString) eqn:E; simpl; [|reflexivity].
  apply String.eqb_eq in E. subst s. reflexivity.
Qed.

Lemma determineSource_text (b : Beds24API.RawBooking) :
  determineSource (ofRawBooking b) = Returned (Beds24API.determineSource b).
Proof.
  unfold determineSource, refererOf, sourceOf, channelOf, ofRawBooking. simpl.
  rewrite !lowerCaseOf_text, lowerCaseOf_text1. reflexivity.
Qed.

(** A value that is not truthy never reaches [toLowerCase]. *)
Lemma lowerCaseOf_falsy a b :
  truthyValue a = false -> truthyValue b = false ->
  lowerCaseOf (jsOr (jsOr a b) (JsText EmptyString)) = Some EmptyString.
Proof. intros Ha Hb. unfold jsOr. rewrite Ha, Hb. reflexivity. Qed.

Lemma lowerCaseOf_falsy1 a :
  truthyValue a = false ->
  lowerCaseOf (jsOr a (JsText EmptyString)) = Some EmptyString.
Proof. intros Ha. unfold jsOr. rewrite Ha. reflexivity. Qed.

(** C7, as amended (source classification). [determineSource] returns
    exactly on the records where every value it calls [toLowerCase] on is
    text, and throws a TypeError on the others; what it returns is never
    empty. A record whose channel text is "direct" (in any letter case)
    and whose referer and source texts hold no platform keyword is
    labelled "direct"; and so is a record whose source, bookingSource,
    referer and channel are all empty or otherwise falsy. *)
Theorem beds24_source_total (booking : RawRecord) :
  (readsText booking = true ->
   exists label, determineSource booking = Returned label /\ label <> EmptyString) /\
  (determineSource booking = TypeError <-> readsText booking = false) /\
  (forall referer source,
     refererOf booking = Some referer -> sourceOf booking = Some source ->
     channelOf booking = Some "direct"%string -> noKeyword referer source = true ->
     determineSource booking = Returned "direct") /\
  (truthyValue (Beds24Json.source booking) = false ->
   truthyValue (bookingSource booking) = false ->
   truthyValue (Beds24Json.referer booking) = false ->
   truthyValue (channel booking) = false ->
   determineSource booking = Returned "direct").
Proof.
  split; [|split; [|split]].
  - unfold readsText, determineSource.
    destruct (refererOf booking) as [r|]; [|discriminate].
    destruct (sourceOf booking) as [s|]; [|discriminate].
    destruct (channelOf booking) as [c|]; [|discriminate].
    intros _. eexists. split; [reflexivity|].
    destruct (includes r "airbnb" || includes s "airbnb"); [discriminate|].
    destruct (includes r "booking" || includes s "booking"); [discriminate|].
    destruct (includes r "expedia" || includes s "expedia"); [discriminate|].
    destruct (_ || _); [discriminate|].
    destruct (String.eqb s EmptyString) eqn:Es; simpl.
    + destruct (String.eqb r EmptyString) eqn:Er; simpl; [discriminate|].
      apply eqb_empty_false, Er.
    + apply eqb_empty_false, Es.
  - unfold readsText, determineSource.
    destruct (refererOf booking) as [r|]; [|split; reflexivity].
    destruct (sourceOf booking) as [s|]; [|split; reflexivity].
    destruct (channelOf booking) as [c|]; [|split; reflexivity].
    split; discriminate.
  - intros r s Hr Hs Hc Hk. unfold determineSource. rewrite Hr, Hs, Hc.
    unfold noKeyword in Hk. apply negb_true_iff in Hk.
    repeat (apply orb_false_iff in Hk; destruct Hk as [Hk ?]).
    repeat match goal with H : includes _ _ = false |- _ => rewrite H; clear H end.
    reflexivity.
  - intros Hs Hb Hr Hc. unfold determineSource, refererOf, sourceOf, channelOf.
    rewrite (lowerCaseOf_falsy _ _ Hr Hc), (lowerCaseOf_falsy _ _ Hs Hb),
      (lowerCaseOf_falsy1 _ Hc).
    reflexivity.
Qed.

Lemma beds24_source_total_witness :
  determineSource directChannel = Returned "direct" /\
  determineSource allEmpty = Returned "direct" /\
  exists label, determineSource onlyBookingSource = Returned label /\
                label <> EmptyString.
Proof.
  split; [|split].
  - apply (proj1 (proj2 (proj2 (beds24_source_total directChannel)))
             "direct"%string EmptyString); reflexivity.
  - apply (proj2 (proj2 (proj2 (beds24_source_total allEmpty)))); reflexivity.
  - apply (proj1 (beds24_source_total onlyBookingSource)). reflexivity.
Defined.

(** C7 as stated fails twice. A record whose referer is a number gets no
    label: the call throws a TypeError. And a record with empty source,
    referer and channel whose bookingSource is "VRBO" is labelled "vrbo",
    not "direct". *)
Lemma beds24_source_counterexample :
  determineSource numericReferer = TypeError /\
  Beds24Json.source onlyBookingSource = JsText EmptyString /\
  Beds24Json.referer onlyBookingSource = JsText EmptyString /\
  channel onlyBookingSource = JsText EmptyString /\
  determineSource onlyBookingSource = Returned "vrbo" /\
  determineSource onlyBookingSource <> Returned "direct".
Proof. repeat split; try reflexivity. discriminate. Qed.

(** C10 (ICS labels). The ICS module's [determineSource] returns only
    "airbnb" or "booking", never "direct", and it returns "airbnb" when
    neither keyword occurs in the event's summary, description or uid. *)
Theorem ics_source_two_labels (e : IcsParser.IcsEvent) :
  (IcsParser.determineSource e = "airbnb"%string \/
   IcsParser.determineSource e = "booking"%string) /\
  IcsParser.determineSource e <> "direct"%string /\
  (mentions "airbnb" e = false -> mentions "booking" e = false ->
   IcsParser.determineSource e = "airbnb"%string).
Proof.
  cbv beta zeta delta [mentions IcsParser.determineSource].
  match goal with
  | |- context [if ?c then "airbnb"%string else _] => destruct c eqn:A
  end.
  - repeat split; auto; intros; discriminate.
  - match goal with
    | |- context [if ?c then "booking"%string else _] => destruct c eqn:B
    end; repeat split; auto; intros; discriminate.
Qed.

Lemma ics_source_two_labels_witness :
  IcsParser.determineSource
    {| IcsParser.summary := Some "Reserved"%string;
       IcsParser.description := None; IcsParser.uid := Some "17@example"%string |}
  = "airbnb"%string.
Proof.
  apply (proj2 (proj2 (ics_source_two_labels _))); reflexivity.
Defined.

End LabelTheorems.

(** ** Selection *)

Module SelectionTheorems.
Import JsDate JsString BookingCalendar.

Lemma filter_id_unique (sel : string) (l : list Booking) :
  List.NoDup (map id l) ->
  (length (List.filter (fun b => String.eqb (id b) sel) l) <= 1)%nat.
Proof.
  induction l as [|b l IH]; simpl; intros H; [lia|].
  inversion H as [|? ? Hnot Hnd]; subst.
  destruct (String.eqb (id b) sel) eqn:E; [|auto].
  apply String.eqb_eq in E. simpl.
  enough (List.filter (fun b' => String.eqb (id b') sel) l = []) as -> by (simpl; lia).
  clear IH H Hnd. induction l as [|x l IHl]; simpl; auto.
  destruct (String.eqb (id x) sel) eqn:Ex.
  - apply String.eqb_eq in Ex. exfalso. apply Hnot. simpl. left. congruence.
  - apply IHl. intros Hin. apply Hnot. simpl. right. exact Hin.
Qed.

Lemma existsb_sameId_false c sel :
  selectedBookingId c = Some sel ->
  (forall b, In b (getFilteredBookings c) -> id b <> sel) ->
  existsb (sameId c) (getFilteredBookings c) = false.
Proof.
  intros Hs Hno. apply not_true_is_false. intros H.
  apply existsb_exists in H. destruct H as (b & Hb & Hsel).
  unfold sameId in Hsel. rewrite Hs in Hsel.
  apply String.eqb_eq in Hsel. exact (Hno b Hb Hsel).
Qed.

(** C9 (selection). The selection is one slot: with ids unique within a
    load at most one booking counts as selected. When [renderCalendar]
    renders (the page has the calendar element) and the selected id
    belongs to no booking of the filtered set, the selection becomes
    null, without any error; after a render a non-empty selected id
    always belongs to a booking of the filtered set, and the bookings and
    the filter are left as they were. *)
Theorem selection_single_and_cleared (c : Calendar) :
  (List.NoDup (map id (bookings c)) ->
   (length (List.filter (isSelected c) (bookings c)) <= 1)%nat) /\
  (hasCalendarEl c = true ->
   forall sel, selectedBookingId c = Some sel -> sel <> EmptyString ->
     (forall b, In b (getFilteredBookings c) -> id b <> sel) ->
     selectedBookingId (renderCalendar c) = None) /\
  (hasCalendarEl c = true ->
   forall sel, selectedBookingId (renderCalendar c) = Some sel -> sel <> EmptyString ->
     exists b, In b (getFilteredBookings (renderCalendar c)) /\ id b = sel) /\
  bookings (renderCalendar c) = bookings c /\
  filter (renderCalendar c) = filter c.
Proof.
  split; [|split; [|split; [|split]]].
  - intros Hnd. unfold isSelected, sameId.
    destruct (truthy (selectedBookingId c)); simpl.
    + apply filter_id_unique, Hnd.
    + clear Hnd. induction (bookings c); simpl; auto.
  - intros Hel sel Hs Hne Hno. unfold renderCalendar.
    rewrite Hel, Hs. simpl.
    destruct (String.eqb sel EmptyString) eqn:E; [apply String.eqb_eq in E; contradiction|].
    simpl. rewrite (existsb_sameId_false c sel Hs Hno). reflexivity.
  - intros Hel sel. unfold renderCalendar. rewrite Hel. simpl.
    destruct (truthy (selectedBookingId c)
              && negb (existsb (sameId c) (getFilteredBookings c))) eqn:E;
      simpl; [discriminate|].
    intros Hs Hne. apply andb_false_iff in E. destruct E as [E|E].
    + rewrite Hs in E. simpl in E. apply negb_false_iff, String.eqb_eq in E.
      contradiction.
    + apply negb_false_iff, existsb_exists in E. destruct E as (b & Hb & Hsel).
      exists b. split; auto. unfold sameId in Hsel. rewrite Hs in Hsel.
      apply String.eqb_eq in Hsel. exact Hsel.
  - unfold renderCalendar. destruct (negb _); auto. destruct (_ && _); auto.
  - unfold renderCalendar. destruct (negb _); auto. destruct (_ && _); auto.
Qed.

Lemma selection_single_and_cleared_witness :
  selectedBookingId
    (renderCalendar
       {| bookings := [Samples.bookingA; Samples.bookingB]; filter := "booking";
          selectedBookingId := Some "A"%string; hasCalendarEl := true |})
  = None.
Proof.
  apply (proj1 (proj2 (selection_single_and_cleared
           {| bookings := [Samples.bookingA; Samples.bookingB]; filter := "booking";
              selectedBookingId := Some "A"%string; hasCalendarEl := true |}))
           eq_refl "A"%string eq_refl).
  - discriminate.
  - intros b [].
Defined.

End SelectionTheorems.

(** ** Date-only strings *)

Module DateTheorems.
Import JsDate JsString LabelSpec.

Lemma digitValue_range c : isDigit c = true -> 0 <= digitValue c <= 9.
Proof.
  unfold isDigit, digitValue. intros H.
  apply andb_true_iff in H. destruct H as [H1 H2].
  apply Nat.leb_le in H1, H2. lia.
Qed.

Lemma monthStart_range l mn : 0 <= monthStart l mn <= 335.
Proof.
  unfold monthStart.
  repeat match goal with |- context [if ?c then _ else _] => destruct c end; lia.
Qed.

(** Every date that eight digits can spell is inside the range of time
    values. *)
Lemma noonOf_in_range y m d :
  0 <= y <= 9999 -> 0 <= m <= 99 -> 0 <= d <= 99 ->
  Z.abs (noonOf y m d) <= 8640000000000000.
Proof.
  intros Hy Hm Hd. unfold noonOf, MakeDate, MakeTime, MakeDay, msPerDay.
  assert (Hf : 100 <= fullYear y <= 9999).
  { unfold fullYear. destruct (_ && _) eqn:E; [|].
    - apply andb_true_iff in E. destruct E as [E1 E2].
      apply Z.leb_le in E1, E2. lia.
    - apply andb_false_iff in E. destruct E as [E|E]; apply Z.leb_gt in E; lia. }
  set (ym := fullYear y + (m - 1) / 12).
  assert (Hym : 99 <= ym <= 10008).
  { unfold ym. assert (-1 <= (m - 1) / 12 <= 8); [|lia].
    clear - Hm. Z.div_mod_to_equations. lia. }
  pose proof (monthStart_range (InLeapYear ym) ((m - 1) mod 12)) as Hms.
  assert (HD : -700000 <= DayFromYear ym <= 3000000).
  { unfold DayFromYear.
    clear - Hym. Z.div_mod_to_equations. lia. }
  lia.
Qed.

Lemma DateUTC_noon y m d :
  Z.abs (noonOf y m d) <= 8640000000000000 ->
  DateUTC y (m - 1) d 12 0 0 = ValidDate (noonOf y m d).
Proof.
  intros H. unfold DateUTC, TimeClip. unfold noonOf in H.
  apply Z.leb_le in H. rewrite H. reflexivity.
Qed.

Lemma localDay_noon tz D :
  - (12 * 3600000) <= tz < 12 * 3600000 ->
  localDay tz (MakeDate D (MakeTime 12 0 0 0)) = D.
Proof.
  intros H. unfold localDay, MakeDate, MakeTime, msPerDay.
  symmetry. apply (Z.div_unique_pos _ _ D (43200000 + tz)); lia.
Qed.

Local Arguments isDigit : simpl never.
Local Arguments digitValue : simpl never.

(** C6, as amended (date-only strings at noon UTC). For every text
    YYYY-MM-DD of eight digits, [Beds24API.parseDate] and the front end's
    [parseIsoDate] (which also accepts any text after the date) return
    the same time value, noon UTC of the day that [Date.UTC] makes of the
    three numbers, whatever the environment's time zone and date parser;
    read in a zone whose offset from UTC is at least -12 h and less than
    +12 h, that instant falls on that same day. *)
Theorem date_only_noon_utc (y1 y2 y3 y4 m1 m2 d1 d2 : ascii)
    (rest : string) (dateParse : string -> DateValue) :
  forallb isDigit [y1; y2; y3; y4; m1; m2; d1; d2] = true ->
  Beds24API.parseDate dateParse (Some (dateOnly y1 y2 y3 y4 m1 m2 d1 d2))
  = Some (ValidDate (noonOf (number4 y1 y2 y3 y4) (number2 m1 m2) (number2 d1 d2)))
  /\ BookingCalendar.parseIsoDate dateParse
       (BookingCalendar.InString (dateOnly y1 y2 y3 y4 m1 m2 d1 d2 ++ rest))
     = Some (ValidDate (noonOf (number4 y1 y2 y3 y4) (number2 m1 m2) (number2 d1 d2)))
  /\ forall tz, - (12 * 3600000) <= tz < 12 * 3600000 ->
       localDay tz (noonOf (number4 y1 y2 y3 y4) (number2 m1 m2) (number2 d1 d2))
       = MakeDay (fullYear (number4 y1 y2 y3 y4)) (number2 m1 m2 - 1) (number2 d1 d2).
Proof.
  intros H. cbn [forallb] in H.
  repeat (apply andb_true_iff in H; destruct H as [? H]). clear H.
  repeat match goal with
         | Hd : isDigit ?c = true |- _ =>
             pose proof (digitValue_range c Hd); revert Hd
         end.
  intros Hy1 Hy2 Hy3 Hy4 Hm1 Hm2 Hd1 Hd2.
  assert (Hclip : DateUTC (number4 y1 y2 y3 y4) (number2 m1 m2 - 1) (number2 d1 d2) 12 0 0
                  = ValidDate (noonOf (number4 y1 y2 y3 y4) (number2 m1 m2) (number2 d1 d2))).
  { apply DateUTC_noon, noonOf_in_range; unfold number4, number2; lia. }
  assert (Hsub : forall s, substring 0 0 s = EmptyString)
    by (intros s; destruct s; reflexivity).
  assert (Hn4 : numberOfDigits (String y1 (String y2 (String y3 (String y4 EmptyString))))
                = number4 y1 y2 y3 y4)
    by (unfold numberOfDigits, number4; simpl; lia).
  assert (Hn2 : forall a b, numberOfDigits (String a (String b EmptyString)) = number2 a b)
    by (intros; unfold numberOfDigits, number2; simpl; lia).
  split; [|split].
  - unfold Beds24API.parseDate, Beds24API.isDateOnly, dateOnly, allDigits. simpl.
    rewrite Hy1, Hy2, Hy3, Hy4, Hm1, Hm2, Hd1, Hd2. cbn [andb].
    rewrite Hn4, !Hn2, Hclip. reflexivity.
  - unfold BookingCalendar.parseIsoDate, BookingCalendar.matchIsoPrefix,
      dateOnly, allDigits. simpl.
    rewrite Hsub, Hy1, Hy2, Hy3, Hy4, Hm1, Hm2, Hd1, Hd2.
    cbn [andb String.length Nat.eqb list_ascii_of_string forallb].
    rewrite Hn4, !Hn2, Hclip. reflexivity.
  - intros tz Htz. unfold noonOf. apply localDay_noon, Htz.
Qed.

Lemma date_only_noon_utc_witness :
  BookingCalendar.parseIsoDate noDateParse
    (BookingCalendar.InString ("2024-03-15" ++ "T22:00:00.000Z"))
  = Some (ValidDate (noonOf 2024 3 15))
  /\ localDay (- (5 * 3600000)) (noonOf 2024 3 15) = MakeDay 2024 2 15.
Proof.
  split.
  - apply (proj1 (proj2 (date_only_noon_utc "2" "0" "2" "4" "0" "3" "1" "5"
                           "T22:00:00.000Z" noDateParse eq_refl))).
  - apply (proj2 (proj2 (date_only_noon_utc "2" "0" "2" "4" "0" "3" "1" "5"
                           EmptyString noDateParse eq_refl)) (- (5 * 3600000))).
    lia.
Defined.

(** C6, as stated, fails. In a zone twelve hours ahead of UTC the value
    that [parseIsoDate] gives for "2024-03-15" is read as March 16; and
    [parseICSDate] does not build noon UTC at all: parsed two hours ahead
    of UTC, "20240315" is 22:00 UTC of March 14, which read in UTC is not
    March 15. *)
Lemma date_only_counterexample :
  ~ denotes (12 * 3600000)
      (BookingCalendar.parseIsoDate noDateParse
         (BookingCalendar.InString "2024-03-15")) 2024 3 15
  /\ IcsParser.parseICSDate (2 * 3600000) (Some "20240315"%string)
     <> Some (ValidDate (noonOf 2024 3 15))
  /\ ~ denotes 0
       (IcsParser.parseICSDate (2 * 3600000) (Some "20240315"%string)) 2024 3 15.
Proof.
  split; [|split].
  - intros (t & Ht & Hd). vm_compute in Ht. inversion Ht; subst t.
    vm_compute in Hd. discriminate.
  - vm_compute. discriminate.
  - intros (t & Ht & Hd). vm_compute in Ht. inversion Ht; subst t.
    vm_compute in Hd. discriminate.
Qed.

End DateTheorems.

(** ** More on the layout pass *)

Module LayoutExtras.
Import JsDate JsString BookingCalendar LayoutSpec RowGeometry Samples.
Import LaneFacts StepFacts MinFacts SortFacts LayoutTheorems PassTheorems DayFacts.

Lemma emitted_bounds z roomName bookings startDate endDate e :
  In e (layoutBookings (renderRoomRow z roomName bookings startDate endDate)) ->
  0 <= startOffset e /\ 1 <= duration e /\
  startOffset e + duration e <= totalDaysOf z startDate endDate.
Proof.
  intros He. apply emitted_clip in He. destruct He as [[]|[_ Hc]].
  apply clip_bounds in Hc. unfold endOffset in Hc.
  lia.
Qed.

(** X1. Every emitted bar lies inside the track and is at least one day
    long. *)
Theorem bar_inside_track z roomName bookings startDate endDate e :
  In e (layoutBookings (renderRoomRow z roomName bookings startDate endDate)) ->
  0 <= startOffset e /\ 1 <= duration e /\
  startOffset e + duration e <= totalDaysOf z startDate endDate.
Proof. apply emitted_bounds. Qed.

Lemma StronglySorted_filter {A} (R : A -> A -> Prop) (p : A -> bool) l :
  StronglySorted R l -> StronglySorted R (List.filter p l).
Proof.
  induction 1 as [|x l Hs IH Hall]; simpl; [constructor|].
  destruct (p x); auto. constructor; auto.
  rewrite List.Forall_forall in *. intros y Hy. apply filter_In in Hy.
  apply Hall, Hy.
Qed.

Lemma StronglySorted_lookup {A} (R : A -> A -> Prop) (l : list A) :
  StronglySorted R l ->
  forall i j x y, (i < j)%nat -> l !! i = Some x -> l !! j = Some y -> R x y.
Proof.
  induction 1 as [|a l Hs IH Hall]; intros i j x y Hij Hi Hj.
  - rewrite lookup_nil in Hi. discriminate.
  - destruct j as [|j]; [lia|]. simpl in Hj. destruct i as [|i].
    + simpl in Hi. inversion Hi; subst. rewrite List.Forall_forall in Hall.
      apply Hall. eapply list_elem_of_In, list_elem_of_lookup_2; eauto.
    + simpl in Hi. apply (IH i j x y); [lia | exact Hi | exact Hj].
Qed.

Lemma fold_bookings gs ge td l : forall st,
  map booking (layoutBookings (fold_left (layoutStep gs ge td) l st))
  = map booking (layoutBookings st)
    ++ List.filter (fun b => match clip gs ge td b with Some _ => true | None => false end) l.
Proof.
  induction l as [|b l IH]; intros st; simpl.
  - rewrite app_nil_r. reflexivity.
  - rewrite IH, layoutStep_clip.
    destruct (clip gs ge td b) as [[s e]|]; [|reflexivity].
    unfold place. simpl. rewrite List.map_app. simpl.
    rewrite <- app_assoc. reflexivity.
Qed.

(** X2. The emitted bars are, in order, exactly the room's bookings sorted by
    check-in that survive the guards: none is lost, repeated or
    reordered. *)
Theorem emitted_bookings_exact z roomName bookings startDate endDate :
  map booking (layoutBookings (renderRoomRow z roomName bookings startDate endDate))
  = List.filter (survives z startDate endDate) (roomBookings z roomName bookings).
Proof.
  unfold renderRoomRow, layoutPass. rewrite fold_bookings. reflexivity.
Qed.

Lemma emitted_sorted z roomName bookings startDate endDate :
  StronglySorted byCheckIn
    (map booking (layoutBookings (renderRoomRow z roomName bookings startDate endDate))).
Proof.
  unfold renderRoomRow, layoutPass. rewrite fold_bookings. simpl.
  apply StronglySorted_filter, sortByCheckIn_sorted.
Qed.

(** X3. A row only shows bookings of its own room (compared without regard
    to letter case) whose two dates are set. *)
Theorem bar_belongs_to_room z roomName bookings startDate endDate e :
  In e (layoutBookings (renderRoomRow z roomName bookings startDate endDate)) ->
  In (original (booking e)) bookings /\
  sameRoom roomName (original (booking e)) = true /\
  normalizeDate z (BookingCalendar.startDate (original (booking e))) = Some (checkIn (booking e)) /\
  normalizeDate z (BookingCalendar.endDate (original (booking e))) = Some (checkOut (booking e)).
Proof.
  intros He. unfold renderRoomRow, layoutPass, roomBookings in He.
  apply emitted_clip in He. destruct He as [[]|[Hin _]].
  apply (proj1 (sortByCheckIn_In _ _)) in Hin. unfold roomCandidates in Hin.
  apply list_elem_of_In, list_elem_of_omap in Hin.
  destruct Hin as (b & Hb & Hw).
  apply list_elem_of_In, filter_In in Hb. destruct Hb as [Hb Hroom].
  unfold withCheckDates in Hw.
  destruct (normalizeDate z (BookingCalendar.startDate b)) as [ci|] eqn:E1; [|discriminate].
  destruct (normalizeDate z (BookingCalendar.endDate b)) as [co|] eqn:E2; [|discriminate].
  inversion Hw as [Hrb]. simpl. rewrite E1, E2. auto.
Qed.

(** X4. Bars are emitted in ascending order of start offset. *)
Theorem bars_in_start_order z roomName bookings startDate endDate i j e1 e2 :
  (i < j)%nat ->
  layoutBookings (renderRoomRow z roomName bookings startDate endDate) !! i = Some e1 ->
  layoutBookings (renderRoomRow z roomName bookings startDate endDate) !! j = Some e2 ->
  startOffset e1 <= startOffset e2.
Proof.
  intros Hij H1 H2.
  pose proof (emitted_sorted z roomName bookings startDate endDate) as Hs.
  assert (Hle : byCheckIn (booking e1) (booking e2)).
  { eapply (StronglySorted_lookup _ _ Hs i j); eauto.
    - change (map booking ?l) with (booking <$> l). rewrite list_lookup_fmap, H1. reflexivity.
    - change (map booking ?l) with (booking <$> l). rewrite list_lookup_fmap, H2. reflexivity. }
  assert (C1 : In e1 (layoutBookings (renderRoomRow z roomName bookings startDate endDate)))
    by (eapply list_elem_of_In, list_elem_of_lookup_2; eauto).
  assert (C2 : In e2 (layoutBookings (renderRoomRow z roomName bookings startDate endDate)))
    by (eapply list_elem_of_In, list_elem_of_lookup_2; eauto).
  apply emitted_clip in C1, C2.
  destruct C1 as [[]|[_ C1]], C2 as [[]|[_ C2]].
  eapply clip_start_mono; eauto.
Qed.

(** X5. Every bar fits in the height of its row, [baseTop] pixels from the
    top and from the bottom at least. *)
Theorem bar_inside_row_height z roomName bookings startDate endDate e :
  In e (layoutBookings (renderRoomRow z roomName bookings startDate endDate)) ->
  baseTop <= barTop e /\
  barTop e + barHeight + baseTop
  <= calendarHeight (renderRoomRow z roomName bookings startDate endDate).
Proof.
  intros He.
  destruct (renderRoomRow_LaneInv z roomName bookings startDate endDate) as (I1 & _).
  destruct (I1 e He) as (_ & x & Hx & _). apply arrayGet_lt in Hx.
  unfold barTop, calendarHeight, laneCount, baseTop, barHeight, laneSpacing. lia.
Qed.


Lemma bar_inside_track_witness :
  exists e,
    layoutBookings (renderRoomRow utc "jason" [bookingB; bookingC; bookingA]
                      (noonUTC 2024 1 3) (noonUTC 2024 1 31)) !! 0%nat = Some e /\
    0 <= startOffset e /\ 1 <= duration e /\
    startOffset e + duration e
    <= totalDaysOf utc (noonUTC 2024 1 3) (noonUTC 2024 1 31).
Proof.
  eexists. split; [vm_compute; reflexivity|].
  apply (bar_inside_track utc "jason" [bookingB; bookingC; bookingA]).
  vm_compute. left. reflexivity.
Defined.

Lemma bar_belongs_to_room_witness :
  exists e,
    layoutBookings (renderRoomRow utc "jason" [bookingB; bookingC; bookingA]
                      (noonUTC 2024 1 3) (noonUTC 2024 1 31)) !! 1%nat = Some e /\
    sameRoom "jason" (original (booking e)) = true.
Proof.
  eexists. split; [vm_compute; reflexivity|].
  refine (proj1 (proj2 (bar_belongs_to_room utc "jason" [bookingB; bookingC; bookingA]
                          (noonUTC 2024 1 3) (noonUTC 2024 1 31) _ _))).
  vm_compute. right. left. reflexivity.
Defined.

Lemma bars_in_start_order_witness :
  exists e1 e2,
    layoutBookings (renderRoomRow utc "jason" [bookingB; bookingC; bookingA]
                      (noonUTC 2024 1 3) (noonUTC 2024 1 31)) !! 0%nat = Some e1 /\
    layoutBookings (renderRoomRow utc "jason" [bookingB; bookingC; bookingA]
                      (noonUTC 2024 1 3) (noonUTC 2024 1 31)) !! 2%nat = Some e2 /\
    startOffset e1 <= startOffset e2.
Proof.
  eexists. eexists.
  split; [vm_compute; reflexivity|]. split; [vm_compute; reflexivity|].
  refine (bars_in_start_order utc "jason" [bookingB; bookingC; bookingA]
            (noonUTC 2024 1 3) (noonUTC 2024 1 31) 0%nat 2%nat _ _ _ _ _);
    [lia | vm_compute; reflexivity | vm_compute; reflexivity].
Defined.

Lemma bar_inside_row_height_witness :
  exists e,
    layoutBookings (renderRoomRow utc "jason" [bookingB; bookingC; bookingA]
                      (noonUTC 2024 1 3) (noonUTC 2024 1 31)) !! 1%nat = Some e /\
    barTop e + barHeight + baseTop
    <= calendarHeight (renderRoomRow utc "jason" [bookingB; bookingC; bookingA]
                         (noonUTC 2024 1 3) (noonUTC 2024 1 31)).
Proof.
  eexists. split; [vm_compute; reflexivity|].
  refine (proj2 (bar_inside_row_height utc "jason" [bookingB; bookingC; bookingA]
                   (noonUTC 2024 1 3) (noonUTC 2024 1 31) _ _)).
  vm_compute. right. left. reflexivity.
Defined.


(** *** The window *)

Lemma setHours0_fixed_eq tz t :
  setHours0 (fixedOffset tz) t = localDay tz t * msPerDay - tz.
Proof. reflexivity. Qed.

Lemma addDays_fixed tz n t :
  addDays (fixedOffset tz) n t = t + Z.of_nat n * msPerDay.
Proof.
  unfold addDays. induction n as [|n IH].
  - simpl. lia.
  - rewrite Nat.iter_succ, IH. simpl addDay. lia.
Qed.

Lemma setHours0_midnight tz D :
  setHours0 (fixedOffset tz) (D * msPerDay - tz) = D * msPerDay - tz.
Proof.
  simpl. replace (D * msPerDay - tz + tz) with (D * msPerDay) by lia.
  rewrite Z.div_mul by (unfold msPerDay; lia). reflexivity.
Qed.

(** X7. At a constant offset from UTC the window that [renderCalendar]
    builds has exactly [timelineDays] day columns, in the date header
    ([getTotalDays]) and in every room row ([totalDays]) alike, whatever
    the current date. *)
Theorem window_has_timeline_days tz currentDate :
  totalDaysOf (fixedOffset tz) (windowStart (fixedOffset tz) currentDate)
              (windowEnd (fixedOffset tz) currentDate)
  = Z.of_nat timelineDays /\
  getTotalDays (fixedOffset tz) (windowStart (fixedOffset tz) currentDate)
               (windowEnd (fixedOffset tz) currentDate)
  = Z.of_nat timelineDays.
Proof.
  unfold windowEnd, windowStart. rewrite addDays_fixed.
  rewrite setHours0_fixed_eq.
  set (D := localDay tz currentDate).
  replace (D * msPerDay - tz + Z.of_nat (timelineDays - 1) * msPerDay)
    with ((D + 364) * msPerDay - tz) by (unfold timelineDays; simpl; lia).
  split.
  - rewrite (totalDaysOf_days (fixedOffset tz) tz _ _ D (D + 365)).
    + unfold timelineDays. lia.
    + unfold midnightOn. apply setHours0_midnight.
    + unfold gridEndExclusiveOf. rewrite setHours0_midnight. simpl. lia.
  - unfold getTotalDays. rewrite !setHours0_midnight. unfold floorDiv.
    replace ((D + 364) * msPerDay - tz - (D * msPerDay - tz))
      with (364 * msPerDay) by lia.
    rewrite Z.div_mul by (unfold msPerDay; lia). reflexivity.
Qed.

(** X8. At a constant offset from UTC, for a window that does not end before
    it starts, the date header has as many cells as a room row has day
    columns. *)
Theorem header_matches_rows tz startDate endDate :
  localDay tz startDate <= localDay tz endDate ->
  getTotalDays (fixedOffset tz) startDate endDate
  = totalDaysOf (fixedOffset tz) startDate endDate.
Proof.
  intros H.
  rewrite (totalDaysOf_days (fixedOffset tz) tz startDate endDate
             (localDay tz startDate) (localDay tz endDate + 1));
    [| reflexivity | apply gridEndExclusiveOf_fixed].
  unfold getTotalDays. rewrite !setHours0_fixed_eq. unfold floorDiv.
  replace (localDay tz endDate * msPerDay - tz - (localDay tz startDate * msPerDay - tz))
    with ((localDay tz endDate - localDay tz startDate) * msPerDay) by lia.
  rewrite Z.div_mul by (unfold msPerDay; lia). lia.
Qed.

Lemma header_matches_rows_witness :
  getTotalDays utc (noonUTC 2024 1 3) (noonUTC 2024 1 31)
  = totalDaysOf utc (noonUTC 2024 1 3) (noonUTC 2024 1 31).
Proof.
  apply (header_matches_rows 0). vm_compute. discriminate.
Defined.

End LayoutExtras.

(** ** Determinism: the layout is the only first-fit layout *)

Module DeterminismTheorems.
Import JsDate JsString BookingCalendar LayoutSpec RowGeometry LayoutRelation Samples.
Import LaneFacts StepFacts MinFacts SortFacts PassTheorems LayoutExtras.

Lemma FitInv_empty : FitInv emptyLayout.
Proof.
  split; [apply LaneInv_empty|]. split.
  - intros k Hk. simpl in Hk. lia.
  - intros i e H. simpl in H. rewrite lookup_nil in H. discriminate.
Qed.

(** Placing a bar in the first free lane keeps the bars first-fit. *)
Lemma FitInv_place st b s e :
  s < e -> FitInv st -> FitInv (place st b s e).
Proof.
  intros Hse (HL & HW & HF).
  split; [apply LaneInv_place; assumption|].
  destruct HL as (I1 & _ & _).
  destruct (firstFreeLane_spec (laneEndOffsets st) s) as (Hk & Hfree & Hbusy).
  set (k := firstFreeLane (laneEndOffsets st) s) in *.
  set (n := {| booking := b; startOffset := s; duration := e - s; laneIndex := k |}).
  assert (Hn : endOffset n = e) by (unfold endOffset; simpl; lia).
  unfold place. fold k. fold n. split.
  - intros k' Hk'. simpl in *. rewrite length_arraySet in Hk' by exact Hk.
    rewrite arrayGet_arraySet by exact Hk.
    destruct (decide (k' = k)) as [->|Hne].
    + exists n. rewrite Hn. split; [apply in_app_iff; right; left; reflexivity|].
      split; reflexivity.
    + assert (Hlt : (k' < length (laneEndOffsets st))%nat)
        by (destruct (decide (k = length (laneEndOffsets st))); lia).
      destruct (HW k' Hlt) as (o & Ho & Hl & Hg).
      exists o. split; [apply in_app_iff; left; exact Ho|]. split; assumption.
  - intros i x Hx. simpl in Hx. apply lookup_snoc_Some in Hx.
    destruct Hx as [[Hi Hx]|[Hi Hx]].
    + destruct (HF i x Hx) as [F1 F2]. split.
      * intros j e' Hj He' Hl. simpl in He'.
        rewrite lookup_app_l in He' by lia. exact (F1 j e' Hj He' Hl).
      * intros m Hm. destruct (F2 m Hm) as (j & e' & Hj & He' & Hl & Hlt).
        exists j, e'. split; [exact Hj|]. split; [|split; assumption].
        simpl. rewrite lookup_app_l by lia. exact He'.
    + subst x i. split.
      * intros j e' Hj He' Hl. simpl in He'.
        rewrite lookup_app_l in He' by exact Hj.
        assert (Hin : In e' (layoutBookings st))
          by (eapply list_elem_of_In, list_elem_of_lookup_2; exact He').
        destruct (I1 e' Hin) as (_ & x & Hx & Hle).
        simpl in Hl. rewrite Hl in Hx. specialize (Hfree x Hx). simpl. lia.
      * intros m Hm. simpl in Hm.
        destruct (Hbusy m Hm) as (x & Hx & Hsx).
        assert (Hlt : (m < length (laneEndOffsets st))%nat)
          by (eapply arrayGet_lt; exact Hx).
        destruct (HW m Hlt) as (o & Ho & Hl & Hg).
        rewrite Hg in Hx. inversion Hx; subst x.
        apply list_elem_of_In, list_elem_of_lookup_1 in Ho.
        destruct Ho as (j & Hj).
        exists j, o. split; [eapply lookup_lt_Some; exact Hj|].
        split; [simpl; rewrite lookup_app_l by (eapply lookup_lt_Some; exact Hj); exact Hj|].
        split; [exact Hl|]. simpl. exact Hsx.
Qed.

Lemma FitInv_fold gs ge td l : forall st,
  FitInv st -> FitInv (fold_left (layoutStep gs ge td) l st).
Proof.
  induction l as [|b l IH]; intros st H; simpl; [exact H|].
  apply IH. rewrite layoutStep_clip.
  destruct (clip gs ge td b) as [[s e]|] eqn:E; [|exact H].
  apply clip_bounds in E. apply FitInv_place; [lia|exact H].
Qed.

Lemma layoutBooking_eq (e1 e2 : LayoutBooking) :
  booking e1 = booking e2 -> startOffset e1 = startOffset e2 ->
  endOffset e1 = endOffset e2 -> laneIndex e1 = laneIndex e2 -> e1 = e2.
Proof.
  destruct e1, e2. unfold endOffset. simpl. intros -> -> H ->.
  f_equal. lia.
Qed.

(** Bookings, offsets and first fit leave no choice. *)
Lemma first_fit_unique (c : RoomBooking -> option (Z * Z)) out1 out2 :
  map booking out1 = map booking out2 ->
  (forall e, In e out1 -> c (booking e) = Some (startOffset e, endOffset e)) ->
  (forall e, In e out2 -> c (booking e) = Some (startOffset e, endOffset e)) ->
  FirstFit out1 -> FirstFit out2 -> out1 = out2.
Proof.
  intros Hb G1 G2 F1 F2. apply list_eq. intros i.
  induction i as [i IH] using lt_wf_ind.
  assert (Hi : booking <$> (out1 !! i) = booking <$> (out2 !! i)).
  { rewrite <- !list_lookup_fmap. change (booking <$> out1) with (map booking out1).
    change (booking <$> out2) with (map booking out2). rewrite Hb. reflexivity. }
  destruct (out1 !! i) as [e1|] eqn:E1, (out2 !! i) as [e2|] eqn:E2;
    simpl in Hi; try discriminate; [|reflexivity].
  inversion Hi as [Hbk]. f_equal.
  assert (In1 : In e1 out1) by (eapply list_elem_of_In, list_elem_of_lookup_2; exact E1).
  assert (In2 : In e2 out2) by (eapply list_elem_of_In, list_elem_of_lookup_2; exact E2).
  pose proof (G1 e1 In1) as C1. pose proof (G2 e2 In2) as C2.
  rewrite Hbk, C2 in C1. inversion C1 as [[Hs He]].
  destruct (F1 i e1 E1) as [A1 B1]. destruct (F2 i e2 E2) as [A2 B2].
  apply layoutBooking_eq; auto.
  destruct (Nat.lt_trichotomy (laneIndex e1) (laneIndex e2)) as [Hlt|[Heq|Hgt]];
    [exfalso|exact Heq|exfalso].
  - destruct (B2 _ Hlt) as (j & e' & Hj & He' & Hl & Hov).
    rewrite <- (IH j Hj) in He'. specialize (A1 j e' Hj He' Hl). lia.
  - destruct (B1 _ Hgt) as (j & e' & Hj & He' & Hl & Hov).
    rewrite (IH j Hj) in He'. specialize (A2 j e' Hj He' Hl). lia.
Qed.

Lemma renderRoomRow_IsLayout z roomName bookings startDate endDate :
  IsLayout z roomName bookings startDate endDate
    (layoutBookings (renderRoomRow z roomName bookings startDate endDate)).
Proof.
  split; [|split].
  - exists (sortByCheckIn (roomCandidates z roomName bookings)).
    split; [apply sortByCheckIn_stable|].
    unfold renderRoomRow, layoutPass. rewrite fold_bookings. reflexivity.
  - intros e He. unfold renderRoomRow, layoutPass in He.
    apply emitted_clip in He. destruct He as [[]|[_ Hc]]. exact Hc.
  - apply FitInv_fold, FitInv_empty.
Qed.

(** C8, as amended (determinism). In one time zone the output of the
    layout pass is fixed by the booking list, the room and the window: it
    is a layout in the sense of [IsLayout] (the surviving bookings in
    ascending order of check-in with equal check-ins in input order,
    whatever stable sort produced it; each bar with the start offset and
    duration of its clipped interval; each bar in the lowest lane free of
    the bars before it), and it is the only one. The day width and the
    selection are not read. *)
Theorem layout_deterministic z roomName bookings startDate endDate :
  IsLayout z roomName bookings startDate endDate
    (layoutBookings (renderRoomRow z roomName bookings startDate endDate)) /\
  (forall out,
     IsLayout z roomName bookings startDate endDate out ->
     out = layoutBookings (renderRoomRow z roomName bookings startDate endDate)).
Proof.
  split; [apply renderRoomRow_IsLayout|].
  intros out ((s1 & S1 & M1) & G1 & F1).
  destruct (renderRoomRow_IsLayout z roomName bookings startDate endDate)
    as ((s2 & S2 & M2) & G2 & F2).
  assert (Hb : map booking out
               = map booking (layoutBookings
                                (renderRoomRow z roomName bookings startDate endDate)))
    by (rewrite M1, M2, (StableSortOf_unique _ _ _ S1 S2); reflexivity).
  exact (first_fit_unique _ _ _ Hb G1 G2 F1 F2).
Qed.

(** C8 as stated fails: the booking list and the window do not fix the
    output, the host's time zone is read as well. The same two stays
    (2024-04-01 to 2024-04-05, 2024-04-05 to 2024-04-08) in the same
    window are laid out at offsets 91 and 95 in one lane in a zone that
    stays two hours ahead of UTC, and at offsets 90 and 94 in two lanes in
    a zone that puts its clocks forward on 2024-03-31. *)
Lemma layout_depends_on_zone :
  map geometry
      (layoutBookings
         (renderRoomRow (fixedOffset (hours 2)) "jason" [bookingApr1; bookingApr5]
            (midnightAt (hours 2) 2024 1 1) (noonUTC 2024 6 30)))
  = [("S1"%string, 91, 4, 0%nat); ("S2"%string, 95, 3, 0%nat)] /\
  map geometry
      (layoutBookings
         (renderRoomRow springChange "jason" [bookingApr1; bookingApr5]
            (midnightAt (hours 2) 2024 1 1) (noonUTC 2024 6 30)))
  = [("S1"%string, 90, 5, 0%nat); ("S2"%string, 94, 4, 1%nat)].
Proof. split; vm_compute; reflexivity. Qed.

End DeterminismTheorems.

(** ** The date header *)

Module HeaderFacts.
Import JsDate BookingCalendar RowGeometry Samples.

Lemma dateCells_length tz endDate : forall fuel currentDate,
  (Z.to_nat ((endDate - currentDate) / msPerDay + 1) < fuel)%nat ->
  length (dateCells (fixedOffset tz) fuel currentDate endDate)
  = Z.to_nat ((endDate - currentDate) / msPerDay + 1).
Proof.
  assert (HM : msPerDay = 86400000) by reflexivity.
  induction fuel as [|fuel IH]; intros cur Hf; [lia|].
  simpl dateCells. destruct (Z.leb_spec cur endDate) as [Hle|Hgt].
  - simpl length. simpl addDay.
    assert (E : (endDate - (cur + msPerDay)) / msPerDay + 1 = (endDate - cur) / msPerDay).
    { rewrite HM. Z.div_mod_to_equations. lia. }
    assert (0 <= (endDate - cur) / msPerDay)
      by (rewrite HM; Z.div_mod_to_equations; lia).
    rewrite IH; rewrite E; lia.
  - simpl. assert ((endDate - cur) / msPerDay + 1 <= 0)
      by (rewrite HM; Z.div_mod_to_equations; lia).
    lia.
Qed.

(** X9. At a constant offset from UTC, for a header that starts on a local
    midnight not after its end, the loop of [renderDateHeader] stops by
    its own test and renders as many date cells as the header's width
    counts days ([getTotalDays]); the first cell is the start date. *)
Theorem date_header_cell_count tz startDate endDate fuel :
  setHours0 (fixedOffset tz) startDate = startDate ->
  startDate <= endDate ->
  (Z.to_nat (getTotalDays (fixedOffset tz) startDate endDate) < fuel)%nat ->
  Z.of_nat (length (dateCells (fixedOffset tz) fuel startDate endDate))
  = getTotalDays (fixedOffset tz) startDate endDate /\
  head (dateCells (fixedOffset tz) fuel startDate endDate) = Some startDate.
Proof.
  intros Hs Hle Hf.
  assert (HM : msPerDay = 86400000) by reflexivity.
  assert (E : getTotalDays (fixedOffset tz) startDate endDate
              = (endDate - startDate) / msPerDay + 1).
  { unfold getTotalDays, floorDiv. rewrite Hs. simpl setHours0.
    simpl in Hs. rewrite HM in *. Z.div_mod_to_equations. lia. }
  rewrite E in *. split.
  - rewrite dateCells_length by exact Hf.
    assert (0 <= (endDate - startDate) / msPerDay)
      by (rewrite HM; Z.div_mod_to_equations; lia).
    lia.
  - destruct fuel as [|fuel]; [lia|]. simpl.
    destruct (Z.leb_spec startDate endDate); [reflexivity|lia].
Qed.

Lemma date_header_cell_count_witness :
  Z.of_nat (length (dateCells utc 400 (midnightAt 0 2024 1 3) (noonUTC 2024 1 31)))
  = getTotalDays utc (midnightAt 0 2024 1 3) (noonUTC 2024 1 31).
Proof.
  refine (proj1 (date_header_cell_count 0 (midnightAt 0 2024 1 3) (noonUTC 2024 1 31)
                   400 _ _ _)).
  - reflexivity.
  - vm_compute. discriminate.
  - vm_compute. lia.
Defined.

End HeaderFacts.

(** ** The order of the input *)

Module OrderFacts.
Import JsDate JsString BookingCalendar LayoutSpec Samples.
Import MinFacts SortFacts.

Lemma insertByCheckIn_Permutation x l : Permutation (insertByCheckIn x l) (x :: l).
Proof.
  induction l as [|y l IH]; simpl; [reflexivity|].
  destruct (checkIn x <=? checkIn y); [reflexivity|].
  rewrite IH. apply perm_swap.
Qed.

Lemma sortByCheckIn_Permutation l : Permutation (sortByCheckIn l) l.
Proof.
  induction l as [|x l IH]; simpl; [reflexivity|].
  rewrite insertByCheckIn_Permutation, IH. reflexivity.
Qed.

Lemma filter_Permutation_bool {A} (p : A -> bool) (l l' : list A) :
  Permutation l l' -> Permutation (List.filter p l) (List.filter p l').
Proof.
  induction 1 as [|x l l' H IH|x y l|l l' l'' H1 IH1 H2 IH2]; simpl.
  - reflexivity.
  - destruct (p x); [constructor|]; exact IH.
  - destruct (p x), (p y); try reflexivity. apply perm_swap.
  - etransitivity; eauto.
Qed.

Lemma roomCandidates_Permutation z roomName l l' :
  Permutation l l' ->
  Permutation (roomCandidates z roomName l) (roomCandidates z roomName l').
Proof.
  intros H. unfold roomCandidates.
  apply omap_Permutation, filter_Permutation_bool, H.
Qed.

(** X10. The order in which the bookings arrive does not matter when no two
    of the room's bookings check in on the same day: any rearrangement of
    the list gives the same bars and lanes. *)
Theorem layout_ignores_input_order z roomName bookings bookings' startDate endDate :
  Permutation bookings bookings' ->
  (forall x y, In x (roomCandidates z roomName bookings) ->
               In y (roomCandidates z roomName bookings) ->
               checkIn x = checkIn y -> x = y) ->
  renderRoomRow z roomName bookings' startDate endDate
  = renderRoomRow z roomName bookings startDate endDate.
Proof.
  intros Hp Hkeys. unfold renderRoomRow, roomBookings. f_equal. symmetry.
  apply (StronglySorted_unique_strong byCheckIn).
  - intros x1 x2 H1 H2 R1 R2.
    apply list_elem_of_In in H1, H2.
    apply (proj1 (sortByCheckIn_In _ _)) in H1.
    apply (proj1 (sortByCheckIn_In _ _)) in H2.
    apply Hkeys; [exact H1 | | unfold byCheckIn in *; lia].
    apply list_elem_of_In. rewrite (roomCandidates_Permutation z roomName _ _ Hp).
    apply list_elem_of_In, H2.
  - apply sortByCheckIn_sorted.
  - apply sortByCheckIn_sorted.
  - rewrite !sortByCheckIn_Permutation. apply roomCandidates_Permutation, Hp.
Qed.

Lemma layout_ignores_input_order_witness :
  renderRoomRow utc "jason" [bookingB; bookingA] (noonUTC 2024 1 1) (noonUTC 2024 12 30)
  = renderRoomRow utc "jason" [bookingA; bookingB] (noonUTC 2024 1 1) (noonUTC 2024 12 30).
Proof.
  apply layout_ignores_input_order.
  - apply perm_swap.
  - intros x y Hx Hy. vm_compute in Hx, Hy.
    destruct Hx as [<-|[<-|[]]], Hy as [<-|[<-|[]]]; vm_compute;
      intros H; first [reflexivity | discriminate H].
Defined.

End OrderFacts.

(** ** More on the selection *)

Module SelectionExtras.
Import JsDate JsString BookingCalendar Samples.

Lemma truthy_nonempty s : s <> EmptyString -> truthy (Some s) = true.
Proof.
  intros H. simpl. destruct (String.eqb s EmptyString) eqn:E; auto.
  apply String.eqb_eq in E. contradiction.
Qed.

Lemma find_by_id c s b :
  In b (bookings c) -> id b = s ->
  exists b', List.find (fun x => String.eqb (id x) s) (bookings c) = Some b' /\ id b' = s.
Proof.
  intros Hin Hid. induction (bookings c) as [|x l IH]; [contradiction|].
  simpl. destruct (String.eqb (id x) s) eqn:E.
  - exists x. split; auto. apply String.eqb_eq, E.
  - destruct Hin as [->|Hin]; [|auto].
    rewrite Hid, String.eqb_refl in E. discriminate.
Qed.

Lemma select_known c b :
  In b (bookings c) -> id b <> EmptyString ->
  selectBookingById c (Some (id b)) = setSelected c (Some (id b)).
Proof.
  intros Hin Hne. unfold selectBookingById, findBookingById.
  rewrite (truthy_nonempty _ Hne). simpl.
  destruct (find_by_id c (id b) b Hin eq_refl) as (b' & Hf & Hid).
  rewrite Hf, Hid. reflexivity.
Qed.

(** X11. Selecting a booking that is in the filtered set and has a non-empty
    id makes it the selection, and the next [renderCalendar] keeps it. *)
Theorem select_then_render_keeps c b :
  In b (getFilteredBookings c) -> id b <> EmptyString ->
  selectedBookingId (selectBookingById c (Some (id b))) = Some (id b) /\
  selectedBookingId (renderCalendar (selectBookingById c (Some (id b)))) = Some (id b) /\
  isSelected (selectBookingById c (Some (id b))) b = true.
Proof.
  intros Hf Hne.
  assert (Hin : In b (bookings c))
    by (unfold getFilteredBookings in Hf; apply filter_In in Hf; tauto).
  rewrite (select_known c b Hin Hne).
  assert (Hsame : sameId (setSelected c (Some (id b))) b = true)
    by (unfold sameId; simpl; apply String.eqb_refl).
  split; [reflexivity|]. split.
  - unfold renderCalendar. destruct (negb _); [reflexivity|].
    replace (existsb _ _) with true; [rewrite andb_false_r; reflexivity|].
    symmetry. apply existsb_exists. exists b. split; auto.
  - unfold isSelected. rewrite Hsame.
    change (selectedBookingId (setSelected c (Some (id b)))) with (Some (id b)).
    rewrite (truthy_nonempty _ Hne). reflexivity.
Qed.

Lemma select_then_render_keeps_witness :
  selectedBookingId
    (renderCalendar
       (selectBookingById
          {| bookings := [bookingA; bookingB]; filter := "airbnb";
             selectedBookingId := None; hasCalendarEl := true |}
          (Some (id bookingB))))
  = Some (id bookingB).
Proof.
  refine (proj1 (proj2 (select_then_render_keeps
            {| bookings := [bookingA; bookingB]; filter := "airbnb";
               selectedBookingId := None; hasCalendarEl := true |} bookingB _ _))).
  - vm_compute. right. left. reflexivity.
  - discriminate.
Defined.

(** X12. Selecting an id that no booking has, or the empty id, or no id,
    changes nothing. *)
Theorem select_unknown_changes_nothing c bookingId :
  (forall s, bookingId = Some s -> s <> EmptyString ->
             forall b, In b (bookings c) -> id b <> s) ->
  selectBookingById c bookingId = c.
Proof.
  intros H. unfold selectBookingById, findBookingById.
  destruct bookingId as [s|]; [|reflexivity].
  destruct (truthy (Some s)) eqn:T; [|reflexivity]. simpl.
  assert (Hne : s <> EmptyString).
  { intros ->. discriminate. }
  destruct (List.find _ _) as [b|] eqn:F; [|reflexivity].
  apply find_some in F. destruct F as [Hin Heq].
  apply String.eqb_eq in Heq. exfalso. exact (H s eq_refl Hne b Hin Heq).
Qed.

Lemma select_unknown_changes_nothing_witness :
  selectBookingById
    {| bookings := [bookingA; bookingB]; filter := "all";
       selectedBookingId := Some "A"%string; hasCalendarEl := true |}
    (Some "Z"%string)
  = {| bookings := [bookingA; bookingB]; filter := "all";
       selectedBookingId := Some "A"%string; hasCalendarEl := true |}.
Proof.
  apply select_unknown_changes_nothing.
  intros s Hs _ b Hb. inversion Hs; subst s.
  destruct Hb as [<-|[<-|[]]]; discriminate.
Defined.

(** X13. Rendering twice is the same as rendering once. *)
Theorem renderCalendar_idempotent c :
  renderCalendar (renderCalendar c) = renderCalendar c.
Proof.
  unfold renderCalendar at 2 3.
  destruct (negb (hasCalendarEl c)) eqn:E.
  - unfold renderCalendar. rewrite E. reflexivity.
  - destruct (_ && _) eqn:T.
    + unfold renderCalendar. simpl. rewrite E. reflexivity.
    + unfold renderCalendar. rewrite E, T. reflexivity.
Qed.

End SelectionExtras.

(** ** Presentation helpers *)

Module PresentationFacts.
Import JsString Presentation PresentationSpec.


Lemma chars_append a b : chars (String.append a b) = chars a ++ chars b.
Proof. induction a as [|c a IH]; simpl; [reflexivity|]. f_equal. exact IH. Qed.

Lemma append_cons x a b :
  String.append (String x a) b = String x (String.append a b).
Proof. reflexivity. Qed.

Lemma append_assoc a b c :
  String.append (String.append a b) c = String.append a (String.append b c).
Proof.
  induction a as [|x a IH]; [reflexivity|].
  rewrite !append_cons. f_equal. exact IH.
Qed.

Lemma append_nonempty a b : a <> EmptyString -> String.append a b <> EmptyString.
Proof. destruct a; [contradiction|]. discriminate. Qed.

Lemma eqb_neq_empty s : String.eqb s EmptyString = false <-> s <> EmptyString.
Proof.
  split.
  - intros H ->. discriminate.
  - intros H. destruct s; [contradiction|reflexivity].
Qed.

(** *** [replaceAll] *)

Lemma In_replaceAll c rep s x :
  In x (chars (replaceAll c rep s)) ->
  (In x (chars s) /\ x <> c) \/ In x (chars rep).
Proof.
  induction s as [|y r IH]; simpl; [tauto|].
  destruct (Ascii.eqb y c) eqn:E.
  - rewrite chars_append, in_app_iff. intros [H|H]; [right; exact H|].
    destruct (IH H) as [[H1 H2]|H1]; [left; split; [right; exact H1|exact H2]|right; exact H1].
  - apply Ascii.eqb_neq in E. simpl. intros [<-|H].
    + left. split; [left; reflexivity|exact E].
    + destruct (IH H) as [[H1 H2]|H1]; [left; split; [right; exact H1|exact H2]|right; exact H1].
Qed.

Lemma replaceAll_absent c rep s :
  ~ In c (chars s) -> replaceAll c rep s = s.
Proof.
  induction s as [|y r IH]; simpl; [reflexivity|]. intros H.
  destruct (Ascii.eqb y c) eqn:E.
  - apply Ascii.eqb_eq in E. exfalso. apply H. left. exact E.
  - f_equal. apply IH. intros Hin. apply H. right. exact Hin.
Qed.

Lemma replaceAll_append c rep a b :
  replaceAll c rep (String.append a b)
  = String.append (replaceAll c rep a) (replaceAll c rep b).
Proof.
  induction a as [|y a IH]; simpl; [reflexivity|].
  destruct (Ascii.eqb y c); simpl; rewrite IH; [|reflexivity].
  symmetry. apply append_assoc.
Qed.

Lemma chain_cons x r : chain (String x r) = String.append (entity x) (chain r).
Proof.
  unfold chain, entity. simpl replaceAll at 5.
  destruct (Ascii.eqb x "&") eqn:E1.
  { rewrite !replaceAll_append. reflexivity. }
  simpl replaceAll at 4.
  destruct (Ascii.eqb x "<") eqn:E2.
  { rewrite !replaceAll_append. reflexivity. }
  simpl replaceAll at 3.
  destruct (Ascii.eqb x ">") eqn:E3.
  { rewrite !replaceAll_append. reflexivity. }
  simpl replaceAll at 2.
  destruct (Ascii.eqb x dquote) eqn:E4.
  { rewrite !replaceAll_append. reflexivity. }
  simpl replaceAll at 1.
  destruct (Ascii.eqb x squote) eqn:E5; reflexivity.
Qed.

Lemma escapeHtml_escapeAll s : escapeHtml s = escapeAll s.
Proof.
  unfold escapeHtml. destruct (String.eqb s EmptyString) eqn:E.
  - apply String.eqb_eq in E. subst. reflexivity.
  - fold (chain s). clear E. induction s as [|x r IH]; [reflexivity|].
    rewrite chain_cons. simpl. rewrite IH. reflexivity.
Qed.

Lemma entity_markup x y :
  In y (chars (entity x)) -> isMarkupChar y = true -> y = "&"%char.
Proof.
  unfold entity, isMarkupChar.
  repeat match goal with
         | |- context [if Ascii.eqb x ?c then _ else _] =>
             destruct (Ascii.eqb_spec x c)
         end; simpl; intros H Hm;
    repeat (destruct H as [<-|H]; [try reflexivity; try discriminate|]);
    try contradiction.
  repeat (apply orb_true_iff in Hm; destruct Hm as [Hm|Hm]);
    apply Ascii.eqb_eq in Hm; congruence.
Qed.

Lemma escapeAll_markup s y :
  In y (chars (escapeAll s)) -> isMarkupChar y = true -> y = "&"%char.
Proof.
  induction s as [|x r IH]; simpl; [contradiction|].
  unfold chars in *. rewrite chars_append, in_app_iff.
  intros [H|H]; [apply (entity_markup x y H) | apply IH, H].
Qed.

(** X14. [escapeHtml] leaves no [<], [>], double or single quote in its
    output. *)
Theorem escapeHtml_no_markup s y :
  In y (chars (escapeHtml s)) ->
  y <> "<"%char /\ y <> ">"%char /\ y <> dquote /\ y <> squote.
Proof.
  rewrite escapeHtml_escapeAll. intros H.
  pose proof (escapeAll_markup s y H) as Hm.
  repeat split; intros ->; discriminate (Hm eq_refl).
Qed.

Lemma escapeHtml_no_markup_witness :
  "b"%char <> "<"%char /\ "b"%char <> ">"%char /\
  "b"%char <> dquote /\ "b"%char <> squote.
Proof.
  apply (escapeHtml_no_markup "<b>"). vm_compute. tauto.
Defined.

Lemma entity_plain x : isMarkupChar x = false -> entity x = String x EmptyString.
Proof.
  unfold isMarkupChar, entity. intros H.
  repeat (apply orb_false_iff in H; destruct H as [H ?]).
  repeat match goal with E : Ascii.eqb _ _ = false |- _ => rewrite E; clear E end.
  reflexivity.
Qed.

(** X15. Text without [&], [<], [>] and quotes is left as it is. *)
Theorem escapeHtml_plain s :
  (forall y, In y (chars s) -> isMarkupChar y = false) -> escapeHtml s = s.
Proof.
  rewrite escapeHtml_escapeAll. induction s as [|x r IH]; intros H; [reflexivity|].
  simpl. rewrite (entity_plain x) by (apply H; left; reflexivity).
  rewrite append_cons. f_equal. apply IH. intros y Hy. apply H. right. exact Hy.
Qed.

Lemma escapeHtml_plain_witness : escapeHtml "Jane Doe" = "Jane Doe"%string.
Proof.
  apply escapeHtml_plain. intros y Hy. vm_compute in Hy.
  repeat (destruct Hy as [<-|Hy]; [reflexivity|]). contradiction.
Defined.

Lemma entity_prefix_free x1 x2 r1 r2 :
  String.append (entity x1) r1 = String.append (entity x2) r2 ->
  x1 = x2 /\ r1 = r2.
Proof.
  unfold entity.
  repeat match goal with
         | |- context [if Ascii.eqb ?a ?c then _ else _] =>
             destruct (Ascii.eqb_spec a c)
         end; subst; cbv [String.append]; intros H;
    first [ split; congruence | exfalso; congruence ].
Qed.

(** X16. [escapeHtml] loses nothing: different texts have different
    escapes. *)
Theorem escapeHtml_injective s1 s2 :
  escapeHtml s1 = escapeHtml s2 -> s1 = s2.
Proof.
  rewrite !escapeHtml_escapeAll. revert s2.
  induction s1 as [|x1 r1 IH]; intros [|x2 r2] H; simpl in H.
  - reflexivity.
  - exfalso. revert H. unfold entity.
    repeat match goal with
           | |- context [if Ascii.eqb ?a ?c then _ else _] =>
               destruct (Ascii.eqb a c)
           end; discriminate.
  - exfalso. revert H. unfold entity.
    repeat match goal with
           | |- context [if Ascii.eqb ?a ?c then _ else _] =>
               destruct (Ascii.eqb a c)
           end; discriminate.
  - apply entity_prefix_free in H. destruct H as [-> H]. f_equal. apply IH, H.
Qed.

Lemma escapeHtml_injective_witness :
  "a&b"%string = "a&b"%string.
Proof. apply escapeHtml_injective. reflexivity. Defined.

End PresentationFacts.

(** ** Class names, phone numbers, notes and guest names *)

Module FieldFacts.
Import JsString Presentation PresentationSpec PresentationFacts.

Lemma keepChars_all keep s : forallb keep (chars (keepChars keep s)) = true.
Proof.
  induction s as [|x r IH]; simpl; [reflexivity|].
  destruct (keep x) eqn:E; [simpl; rewrite E|]; exact IH.
Qed.

Lemma keepChars_id keep s :
  forallb keep (chars s) = true -> keepChars keep s = s.
Proof.
  induction s as [|x r IH]; simpl; [reflexivity|].
  intros H. apply andb_true_iff in H. destruct H as [H1 H2].
  rewrite H1. f_equal. apply IH, H2.
Qed.

Lemma keepChars_empty keep s :
  keepChars keep s = EmptyString <-> forall x, In x (chars s) -> keep x = false.
Proof.
  induction s as [|x r IH]; simpl.
  - split; [intros _ y []|reflexivity].
  - destruct (keep x) eqn:E.
    + split; [discriminate|]. intros H. rewrite (H x) in E by (left; reflexivity).
      discriminate.
    + rewrite IH. split.
      * intros H y [<-|Hy]; auto.
      * intros H y Hy. apply H. right. exact Hy.
Qed.

Lemma lowerAscii_class c : isClassChar c = true -> lowerAscii c = c.
Proof.
  unfold isClassChar, lowerAscii. intros H.
  destruct ((65 <=? nat_of_ascii c) && (nat_of_ascii c <=? 90))%nat eqn:E; [|reflexivity].
  apply andb_true_iff in E. destruct E as [E1 E2]. apply Nat.leb_le in E1, E2.
  repeat (apply orb_true_iff in H; destruct H as [H|H]);
    repeat (apply andb_true_iff in H; destruct H as [H ?]);
    repeat match goal with
           | X : (_ <=? _)%nat = true |- _ => apply Nat.leb_le in X
           | X : (_ =? _)%nat = true |- _ => apply Nat.eqb_eq in X
           end; lia.
Qed.

Lemma toLowerCase_class s :
  forallb isClassChar (chars s) = true -> toLowerCase s = s.
Proof.
  induction s as [|x r IH]; simpl; [reflexivity|].
  intros H. apply andb_true_iff in H. destruct H as [H1 H2].
  rewrite (lowerAscii_class x H1). f_equal. apply IH, H2.
Qed.

(** X17. The class of a bar is never empty and holds only [a-z], [0-9], [_]
    and [-], whatever the booking's source is. *)
Theorem sourceClass_safe source :
  sourceClass source <> EmptyString /\
  forallb isClassChar (chars (sourceClass source)) = true.
Proof.
  unfold sourceClass.
  destruct (String.eqb (sanitizeClassName source) EmptyString) eqn:E.
  - split; [discriminate|reflexivity].
  - split; [apply eqb_neq_empty, E|].
    unfold sanitizeClassName. destruct source; [apply keepChars_all|reflexivity].
Qed.

(** X18. Sanitising a class name twice is the same as once. *)
Theorem sanitizeClassName_idempotent value :
  sanitizeClassName (Some (sanitizeClassName value)) = sanitizeClassName value.
Proof.
  destruct value as [s|]; [|reflexivity]. simpl.
  rewrite toLowerCase_class by apply keepChars_all.
  apply keepChars_id, keepChars_all.
Qed.

(** X19. A telephone link is [tel:] followed by at least one digit or plus
    sign and nothing else; there is no link exactly when the phone text
    has no digit and no plus sign. *)
Theorem getTelephoneHref_shape phone :
  (forall href, getTelephoneHref phone = Some href ->
     exists n, href = String.append "tel:" n /\ n <> EmptyString /\
               forallb isPhoneChar (chars n) = true) /\
  (getTelephoneHref phone = None <->
   forall x, In x (chars (orEmpty phone)) -> isPhoneChar x = false).
Proof.
  unfold getTelephoneHref.
  destruct (truthy phone) eqn:T; simpl.
  - destruct (String.eqb (keepChars isPhoneChar (orEmpty phone)) EmptyString) eqn:E.
    + split; [discriminate|]. apply String.eqb_eq in E.
      split; [intros _; apply keepChars_empty, E|reflexivity].
    + split.
      * intros href H. inversion H; subst. eexists. split; [reflexivity|].
        split; [apply eqb_neq_empty, E|apply keepChars_all].
      * split; [discriminate|]. intros H. apply keepChars_empty in H.
        rewrite H in E. discriminate.
  - split; [discriminate|]. split; [|reflexivity]. intros _.
    destruct phone as [s|]; simpl in *; [|intros x []].
    apply negb_false_iff, String.eqb_eq in T. subst. intros x [].
Qed.

Lemma getTelephoneHref_shape_witness :
  exists n, "tel:+302101234567"%string = String.append "tel:" n /\
            n <> EmptyString /\ forallb isPhoneChar (chars n) = true.
Proof.
  apply (proj1 (getTelephoneHref_shape (Some "+30 210 1234567"%string))).
  reflexivity.
Defined.

(** *** [trim] *)

Lemma trimEnd_head c r :
  IcsParser.isSpace c = false -> exists r', trimEnd (String c r) = String c r'.
Proof.
  intros H. simpl. destruct (trimEnd r); [rewrite H|]; eauto.
Qed.

Lemma trimEnd_idempotent s : trimEnd (trimEnd s) = trimEnd s.
Proof.
  induction s as [|c r IH]; [reflexivity|]. simpl.
  destruct (trimEnd r) as [|c' r'] eqn:E.
  - destruct (IcsParser.isSpace c) eqn:S; [reflexivity|]. simpl. rewrite S. reflexivity.
  - change (trimEnd (String c (String c' r')))
      with (match trimEnd (String c' r') with
            | EmptyString => if IcsParser.isSpace c then EmptyString else String c EmptyString
            | String a b => String c (String a b)
            end).
    rewrite IH. reflexivity.
Qed.

Lemma trimStart_shape s :
  trimStart s = EmptyString \/
  exists c r, trimStart s = String c r /\ IcsParser.isSpace c = false.
Proof.
  unfold trimStart. induction s as [|c r IH]; simpl; [left; reflexivity|].
  destruct (IcsParser.isSpace c) eqn:E; [exact IH|right; eauto].
Qed.

Lemma trimStart_nonspace c r :
  IcsParser.isSpace c = false -> trimStart (String c r) = String c r.
Proof. intros H. unfold trimStart. simpl. rewrite H. reflexivity. Qed.

(** Trimmed text has no white space left at either end: trimming it
    again changes nothing. *)
Lemma trim_idempotent s : trim (trim s) = trim s.
Proof.
  unfold trim. destruct (trimStart_shape s) as [E|(c & r & E & Hc)]; rewrite E.
  - reflexivity.
  - destruct (trimEnd_head c r Hc) as (r' & Hr). rewrite Hr.
    rewrite (trimStart_nonspace c r' Hc), <- Hr. apply trimEnd_idempotent.
Qed.

(** *** [getPreferredPhone] *)

Lemma firstPhone_some candidates p :
  firstPhone candidates = Some p ->
  p <> EmptyString /\ p <> "0"%string /\
  exists v, In (Some v) candidates /\ trim v = p.
Proof.
  induction candidates as [|[v|] rest IH]; simpl; [discriminate| |].
  - destruct (String.eqb (trim v) EmptyString || String.eqb (trim v) "0") eqn:E.
    + intros H. destruct (IH H) as (H1 & H2 & w & Hw & Ht).
      repeat split; auto. exists w. auto.
    + intros H. inversion H; subst p. apply orb_false_iff in E. destruct E as [E1 E2].
      split; [apply eqb_neq_empty, E1|]. split; [apply String.eqb_neq, E2|].
      exists v. auto.
  - intros H. destruct (IH H) as (H1 & H2 & w & Hw & Ht).
    repeat split; auto. exists w. auto.
Qed.

Lemma firstPhone_none candidates :
  firstPhone candidates = None <->
  forall c, In c candidates -> unusablePhone c = true.
Proof.
  induction candidates as [|[v|] rest IH]; simpl.
  - split; [intros _ c []|reflexivity].
  - destruct (String.eqb (trim v) EmptyString || String.eqb (trim v) "0") eqn:E.
    + rewrite IH. split.
      * intros H c [<-|Hc]; [exact E|auto].
      * intros H c Hc. apply H. right. exact Hc.
    + split; [discriminate|]. intros H.
      specialize (H (Some v) (or_introl eq_refl)). simpl in H. congruence.
  - rewrite IH. split.
    + intros H c [<-|Hc]; [reflexivity|auto].
    + intros H c Hc. apply H. right. exact Hc.
Qed.

(** X20. The preferred phone is never empty and never the text [0], has no
    white space around it, and is the trimmed text of one of the five
    phone fields; there is none exactly when every field is missing,
    blank or [0]. *)
Theorem getPreferredPhone_usable b :
  (forall p, getPreferredPhone b = Some p ->
     p <> EmptyString /\ p <> "0"%string /\ trim p = p /\
     exists v, In (Some v) [phone b; rawMobile b; rawPhone b; rawTelephone b; rawTel b]
               /\ trim v = p) /\
  (getPreferredPhone b = None <->
   forall c, In c [phone b; rawMobile b; rawPhone b; rawTelephone b; rawTel b] ->
             unusablePhone c = true).
Proof.
  split.
  - intros p H. destruct (firstPhone_some _ _ H) as (H1 & H2 & v & Hv & Ht).
    repeat split; auto.
    + rewrite <- Ht. apply trim_idempotent.
    + exists v. auto.
  - apply firstPhone_none.
Qed.

Lemma getPreferredPhone_usable_witness :
  exists p,
    getPreferredPhone {| phone := Some "0"%string; rawMobile := None;
                         rawPhone := Some "  6971234567 "%string;
                         rawTelephone := None; rawTel := None |} = Some p /\
    p <> EmptyString /\ trim p = p.
Proof.
  eexists. split; [vm_compute; reflexivity|].
  destruct (proj1 (getPreferredPhone_usable
              {| phone := Some "0"%string; rawMobile := None;
                 rawPhone := Some "  6971234567 "%string;
                 rawTelephone := None; rawTel := None |}) _ eq_refl)
    as (H1 & _ & H3 & _).
  split; [exact H1|exact H3].
Defined.

End FieldFacts.

(** ** Notes and guest names *)

Module NoteFacts.
Import JsString Presentation PresentationSpec PresentationFacts FieldFacts.

Lemma existsb_eqb_In t l : existsb (String.eqb t) l = true <-> In t l.
Proof.
  rewrite existsb_exists. split.
  - intros (x & Hx & E). apply String.eqb_eq in E. subst. exact Hx.
  - intros H. exists t. split; [exact H|apply String.eqb_refl].
Qed.

(** What the loop keeps true of [collected]. *)
Lemma collectNotes_spec candidates : forall collected,
  List.NoDup collected ->
  List.NoDup (collectNotes candidates collected) /\
  forall n, In n (collectNotes candidates collected) <->
            In n collected \/
            (n <> EmptyString /\ exists v, In (Some v) candidates /\ trim v = n).
Proof.
  induction candidates as [|[v|] rest IH]; intros collected Hnd; simpl.
  - split; [exact Hnd|]. intros n. split; [auto|].
    intros [H|(_ & v & [] & _)]. exact H.
  - destruct (String.eqb (trim v) EmptyString) eqn:E.
    + destruct (IH collected Hnd) as [H1 H2]. split; [exact H1|].
      intros n. rewrite H2. split.
      * intros [H|(Hn & w & Hw & Ht)]; [auto|]. right. split; [exact Hn|]. exists w. auto.
      * intros [H|(Hn & w & [Hw|Hw] & Ht)]; [auto| |].
        -- inversion Hw; subst w. apply String.eqb_eq in E. congruence.
        -- right. split; [exact Hn|]. exists w. auto.
    + apply eqb_neq_empty in E.
      destruct (existsb (String.eqb (trim v)) collected) eqn:X.
      * apply existsb_eqb_In in X.
        destruct (IH collected Hnd) as [H1 H2]. split; [exact H1|].
        intros n. rewrite H2. split.
        -- intros [H|(Hn & w & Hw & Ht)]; [auto|]. right. split; [exact Hn|]. exists w. auto.
        -- intros [H|(Hn & w & [Hw|Hw] & Ht)]; [auto| |].
           ++ inversion Hw; subst w. left. congruence.
           ++ right. split; [exact Hn|]. exists w. auto.
      * assert (Hnot : ~ In (trim v) collected).
        { intros H. apply existsb_eqb_In in H. congruence. }
        assert (Hnd' : List.NoDup (collected ++ [trim v])).
        { apply NoDup_ListNoDup, NoDup_app. split; [apply NoDup_ListNoDup, Hnd|].
          split; [|apply NoDup_singleton].
          intros x Hx Hx'. apply list_elem_of_singleton in Hx'. subst x.
          apply Hnot, list_elem_of_In, Hx. }
        destruct (IH _ Hnd') as [H1 H2]. split; [exact H1|].
        intros n. rewrite H2, in_app_iff. simpl. split.
        -- intros [[H|[<-|[]]]|(Hn & w & Hw & Ht)]; [auto| |].
           ++ right. split; [exact E|]. exists v. auto.
           ++ right. split; [exact Hn|]. exists w. auto.
        -- intros [H|(Hn & w & [Hw|Hw] & Ht)]; [auto| |].
           ++ inversion Hw; subst w. left. right. left. exact Ht.
           ++ right. split; [exact Hn|]. exists w. auto.
  - destruct (IH collected Hnd) as [H1 H2]. split; [exact H1|].
    intros n. rewrite H2. split.
    + intros [H|(Hn & w & Hw & Ht)]; [auto|]. right. split; [exact Hn|]. exists w. auto.
    + intros [H|(Hn & w & [Hw|Hw] & Ht)]; [auto|discriminate|].
      right. split; [exact Hn|]. exists w. auto.
Qed.

Lemma join_nonempty sep p rest :
  p <> EmptyString -> join sep (p :: rest) <> EmptyString.
Proof.
  intros H. destruct rest; simpl; [exact H|]. apply append_nonempty, H.
Qed.

(** X21. The notes of a booking: each distinct non-blank note of the seven
    note fields is collected once, trimmed; the joined text is never
    empty, and there is none exactly when every field is missing or
    blank. *)
Theorem getBookingNotes_distinct b :
  List.NoDup (collectNotes (noteCandidates b) []) /\
  (forall n, In n (collectNotes (noteCandidates b) []) <->
             n <> EmptyString /\
             exists v, In (Some v) (noteCandidates b) /\ trim v = n) /\
  getBookingNotes b <> Some EmptyString /\
  (getBookingNotes b = None <->
   forall c, In c (noteCandidates b) -> blank c = true).
Proof.
  destruct (collectNotes_spec (noteCandidates b) [] (List.NoDup_nil _)) as [H1 H2].
  assert (H3 : forall n, In n (collectNotes (noteCandidates b) []) <->
             n <> EmptyString /\
             exists v, In (Some v) (noteCandidates b) /\ trim v = n).
  { intros n. rewrite H2. simpl. tauto. }
  split; [exact H1|]. split; [exact H3|].
  unfold getBookingNotes.
  destruct (collectNotes (noteCandidates b) []) as [|p rest] eqn:E; simpl.
  - split; [discriminate|]. split; [|reflexivity]. intros _ c Hc.
    destruct c as [v|]; [|reflexivity]. simpl.
    destruct (String.eqb (trim v) EmptyString) eqn:T; [reflexivity|].
    apply eqb_neq_empty in T. exfalso.
    apply (proj2 (H3 (trim v))). split; [exact T|]. exists v. auto.
  - assert (Hp : p <> EmptyString) by (apply (proj1 (H3 p)); left; reflexivity).
    split.
    + intros H. inversion H as [Hj]. revert Hj. apply join_nonempty, Hp.
    + split; [discriminate|]. intros H. exfalso.
      destruct (proj1 (H3 p) (or_introl eq_refl)) as (_ & v & Hv & Ht).
      specialize (H (Some v) Hv). simpl in H. apply String.eqb_eq in H. congruence.
Qed.

(** X22. The Beds24 guest name is never empty, and an explicit guest name is
    passed through unchanged. *)
Theorem beds24_guest_name_never_empty (b : Beds24Guest.GuestFields) :
  Beds24Guest.extractGuestName b <> EmptyString /\
  (forall n, Beds24Guest.guestName b = Some n -> n <> EmptyString ->
             Beds24Guest.extractGuestName b = n).
Proof.
  unfold Beds24Guest.extractGuestName. split.
  - destruct (truthy (Beds24Guest.guestName b)) eqn:T.
    + destruct (Beds24Guest.guestName b) as [n|]; [|discriminate].
      simpl in *. apply negb_true_iff, eqb_neq_empty in T. exact T.
    + set (f := orEmpty (orElse (Beds24Guest.firstName b) (Beds24Guest.guestFirstName b))).
      set (l := orEmpty (orElse (Beds24Guest.lastName b) (Beds24Guest.guestLastName b))).
      destruct (String.eqb f EmptyString) eqn:F; simpl.
      * destruct (String.eqb l EmptyString) eqn:L; simpl.
        -- destruct (truthy (Beds24Guest.guest b)) eqn:G; [|discriminate].
           destruct (Beds24Guest.guest b) as [g|]; [|discriminate].
           simpl in *. apply negb_true_iff, eqb_neq_empty in G. exact G.
        -- apply eqb_neq_empty, L.
      * apply eqb_neq_empty in F.
        destruct (String.eqb l EmptyString); simpl; [exact F|].
        apply append_nonempty, F.
  - intros n Hn Hne. rewrite Hn. simpl.
    destruct (String.eqb n EmptyString) eqn:E; [|reflexivity].
    apply String.eqb_eq in E. contradiction.
Qed.

Lemma beds24_guest_name_never_empty_witness :
  Beds24Guest.extractGuestName
    {| Beds24Guest.guestName := Some "Ann Lee"%string; Beds24Guest.firstName := None;
       Beds24Guest.guestFirstName := None; Beds24Guest.lastName := None;
       Beds24Guest.guestLastName := None; Beds24Guest.guest := None |}
  = "Ann Lee"%string.
Proof.
  apply (proj2 (beds24_guest_name_never_empty
    {| Beds24Guest.guestName := Some "Ann Lee"%string; Beds24Guest.firstName := None;
       Beds24Guest.guestFirstName := None; Beds24Guest.lastName := None;
       Beds24Guest.guestLastName := None; Beds24Guest.guest := None |})
    "Ann Lee"%string eq_refl).
  discriminate.
Defined.

End NoteFacts.

(** ** Source labels are lower case *)

Module LabelExtras.
Import JsString.

Lemma lowerAscii_idempotent c : lowerAscii (lowerAscii c) = lowerAscii c.
Proof. destruct c as [[] [] [] [] [] [] [] []]; reflexivity. Qed.

Lemma toLowerCase_idempotent s : toLowerCase (toLowerCase s) = toLowerCase s.
Proof.
  induction s as [|c r IH]; simpl; [reflexivity|].
  rewrite lowerAscii_idempotent, IH. reflexivity.
Qed.

(** X23. The label that [Beds24API.determineSource] gives is always in lower
    case, also when it passes the record's own source or referer text
    through. *)
Theorem beds24_source_lower_case (b : Beds24API.RawBooking) :
  toLowerCase (Beds24API.determineSource b) = Beds24API.determineSource b.
Proof.
  unfold Beds24API.determineSource.
  repeat match goal with
         | |- context [if ?c then _ else _] => destruct c
         end; try reflexivity;
    unfold Beds24API.sourceText, Beds24API.refererText; apply toLowerCase_idempotent.
Qed.

End LabelExtras.

(** ** Parsed dates are valid dates *)

Module ParseFacts.
Import JsDate JsString LabelSpec DateText DateTheorems.

Local Arguments isDigit : simpl never.
Local Arguments digitValue : simpl never.

Lemma number4_range a b c d :
  isDigit a = true -> isDigit b = true -> isDigit c = true -> isDigit d = true ->
  0 <= number4 a b c d <= 9999.
Proof.
  intros Ha Hb Hc Hd.
  pose proof (digitValue_range a Ha). pose proof (digitValue_range b Hb).
  pose proof (digitValue_range c Hc). pose proof (digitValue_range d Hd).
  unfold number4. lia.
Qed.

Lemma number2_range a b :
  isDigit a = true -> isDigit b = true -> 0 <= number2 a b <= 99.
Proof.
  intros Ha Hb.
  pose proof (digitValue_range a Ha). pose proof (digitValue_range b Hb).
  unfold number2. lia.
Qed.

Lemma numberOfDigits4 a b c d :
  numberOfDigits (String a (String b (String c (String d EmptyString))))
  = number4 a b c d.
Proof. unfold numberOfDigits, number4. simpl. lia. Qed.

Lemma numberOfDigits2 a b :
  numberOfDigits (String a (String b EmptyString)) = number2 a b.
Proof. unfold numberOfDigits, number2. simpl. lia. Qed.

Lemma substring_0_0 s : substring 0 0 s = EmptyString.
Proof. destruct s; reflexivity. Qed.

Lemma forallb8 (p : ascii -> bool) a b c d e f g h :
  forallb p [a; b; c; d; e; f; g; h] = true ->
  p a = true /\ p b = true /\ p c = true /\ p d = true /\
  p e = true /\ p f = true /\ p g = true /\ p h = true.
Proof.
  cbn [forallb]. intros H.
  repeat (apply andb_true_iff in H; destruct H as [? H]). tauto.
Qed.

(** What both parsers make of a text that starts with [YYYY-MM-DD]. *)
Lemma parse_dateOnly y1 y2 y3 y4 m1 m2 d1 d2 rest dateParse :
  forallb isDigit [y1; y2; y3; y4; m1; m2; d1; d2] = true ->
  Beds24API.parseDate dateParse (Some (dateOnly y1 y2 y3 y4 m1 m2 d1 d2))
  = Some (ValidDate (noonOf (number4 y1 y2 y3 y4) (number2 m1 m2) (number2 d1 d2)))
  /\ BookingCalendar.parseIsoDate dateParse
       (BookingCalendar.InString (String.append (dateOnly y1 y2 y3 y4 m1 m2 d1 d2) rest))
     = Some (ValidDate (noonOf (number4 y1 y2 y3 y4) (number2 m1 m2) (number2 d1 d2))).
Proof.
  intros H. apply forallb8 in H.
  destruct H as (Hy1 & Hy2 & Hy3 & Hy4 & Hm1 & Hm2 & Hd1 & Hd2).
  assert (Hclip : DateUTC (number4 y1 y2 y3 y4) (number2 m1 m2 - 1) (number2 d1 d2) 12 0 0
                  = ValidDate (noonOf (number4 y1 y2 y3 y4) (number2 m1 m2) (number2 d1 d2))).
  { apply DateUTC_noon, noonOf_in_range;
      [apply number4_range | apply number2_range | apply number2_range]; assumption. }
  split.
  - unfold Beds24API.parseDate, Beds24API.isDateOnly, dateOnly, allDigits. simpl.
    rewrite Hy1, Hy2, Hy3, Hy4, Hm1, Hm2, Hd1, Hd2. cbn [andb].
    rewrite numberOfDigits4, !numberOfDigits2, Hclip. reflexivity.
  - unfold BookingCalendar.parseIsoDate, BookingCalendar.matchIsoPrefix,
      dateOnly, allDigits. simpl.
    rewrite substring_0_0, Hy1, Hy2, Hy3, Hy4, Hm1, Hm2, Hd1, Hd2.
    cbn [andb String.length Nat.eqb list_ascii_of_string forallb].
    rewrite numberOfDigits4, !numberOfDigits2, Hclip. reflexivity.
Qed.

Lemma eqb_dash c : String.eqb (String c EmptyString) "-" = true -> c = "-"%char.
Proof. intros H. apply String.eqb_eq in H. congruence. Qed.

(** A text that passes the date-only test of [parseDate] is
    [YYYY-MM-DD]. *)
Lemma isDateOnly_shape s :
  Beds24API.isDateOnly s = true ->
  exists y1 y2 y3 y4 m1 m2 d1 d2,
    s = dateOnly y1 y2 y3 y4 m1 m2 d1 d2 /\
    forallb isDigit [y1; y2; y3; y4; m1; m2; d1; d2] = true.
Proof.
  unfold Beds24API.isDateOnly. intros H.
  repeat (apply andb_true_iff in H; destruct H as [H ?]).
  apply Nat.eqb_eq in H.
  destruct s as [|c1 [|c2 [|c3 [|c4 [|c5 [|c6 [|c7 [|c8 [|c9 [|c10 [|c11 r]]]]]]]]]]];
    simpl in H; try discriminate. clear H.
  simpl in *.
  repeat match goal with
         | X : (if Ascii.eqb ?c "-" then true else false) = true |- _ =>
             destruct (Ascii.eqb_spec c "-"); [subst c; clear X|discriminate X]
         end.
  exists c1, c2, c3, c4, c6, c7, c9, c10. split; [reflexivity|].
  unfold allDigits in *. simpl in *.
  repeat match goal with
         | X : _ && _ = true |- _ => apply andb_true_iff in X; destruct X
         end.
  cbn [forallb].
  repeat match goal with X : isDigit _ = true |- _ => rewrite X; clear X end.
  reflexivity.
Qed.

(** A text that [parseIsoDate] matches starts with [YYYY-MM-DD]. *)
Lemma matchIsoPrefix_shape s g :
  BookingCalendar.matchIsoPrefix s = Some g ->
  exists y1 y2 y3 y4 m1 m2 d1 d2 rest,
    s = String.append (dateOnly y1 y2 y3 y4 m1 m2 d1 d2) rest /\
    forallb isDigit [y1; y2; y3; y4; m1; m2; d1; d2] = true.
Proof.
  unfold BookingCalendar.matchIsoPrefix.
  destruct (_ && _) eqn:H; [|discriminate]. intros _.
  repeat (apply andb_true_iff in H; destruct H as [H ?]).
  apply Nat.eqb_eq in H.
  destruct s as [|c1 [|c2 [|c3 [|c4 [|c5 [|c6 [|c7 [|c8 [|c9 [|c10 r]]]]]]]]]];
    simpl in H; try discriminate. clear H.
  simpl in *. rewrite ?substring_0_0 in *.
  repeat match goal with
         | X : (if Ascii.eqb ?c "-" then true else false) = true |- _ =>
             destruct (Ascii.eqb_spec c "-"); [subst c; clear X|discriminate X]
         end.
  exists c1, c2, c3, c4, c6, c7, c9, c10, r. split; [reflexivity|].
  unfold allDigits in *. simpl in *.
  repeat match goal with
         | X : _ && _ = true |- _ => apply andb_true_iff in X; destruct X
         end.
  cbn [forallb].
  repeat match goal with X : isDigit _ = true |- _ => rewrite X; clear X end.
  reflexivity.
Qed.

(** X24. Neither parser hands out an invalid [Date]: [Beds24API.parseDate]
    on any text, and [parseIsoDate] on anything but a [Date] object (which
    it copies), return null or a valid date. *)
Theorem parsed_dates_are_valid dateParse :
  (forall dateString,
     Beds24API.parseDate dateParse dateString <> Some InvalidDate) /\
  (forall value, (forall d, value <> BookingCalendar.InDate d) ->
     BookingCalendar.parseIsoDate dateParse value <> Some InvalidDate).
Proof.
  split.
  - intros [s|]; [|discriminate]. unfold Beds24API.parseDate.
    destruct (String.eqb s EmptyString); [discriminate|].
    destruct (Beds24API.isDateOnly s) eqn:E.
    + destruct (isDateOnly_shape s E) as (y1 & y2 & y3 & y4 & m1 & m2 & d1 & d2 & -> & Hd).
      pose proof (proj1 (parse_dateOnly y1 y2 y3 y4 m1 m2 d1 d2 EmptyString dateParse Hd)) as P.
      unfold Beds24API.parseDate in P. simpl String.eqb in P. cbv iota in P.
      rewrite E in P. rewrite P. discriminate.
    + destruct (dateParse s); discriminate.
  - intros [|d|n|s|] Hv; simpl; try discriminate.
    + exfalso. exact (Hv d eq_refl).
    + destruct (n =? 0); [discriminate|].
      destruct (TimeClip n); discriminate.
    + destruct (String.eqb s EmptyString) eqn:Es; [discriminate|].
      destruct (BookingCalendar.matchIsoPrefix s) as [g|] eqn:E.
      * destruct (matchIsoPrefix_shape s g E)
          as (y1 & y2 & y3 & y4 & m1 & m2 & d1 & d2 & rest & -> & Hd).
        pose proof (proj2 (parse_dateOnly y1 y2 y3 y4 m1 m2 d1 d2 rest dateParse Hd)) as P.
        unfold BookingCalendar.parseIsoDate in P. rewrite Es, E in P.
        rewrite P. discriminate.
      * destruct (dateParse s); discriminate.
Qed.

Lemma parsed_dates_are_valid_witness :
  BookingCalendar.parseIsoDate noDateParse (BookingCalendar.InString "9999-99-99")
  <> Some InvalidDate.
Proof.
  apply (proj2 (parsed_dates_are_valid noDateParse)). discriminate.
Defined.

End ParseFacts.

(** ** Formatting a date and parsing it back *)

Module FormatFacts.
Import JsDate JsString LabelSpec DateText DateTheorems ParseFacts.

Local Arguments isDigit : simpl never.
Local Arguments digitValue : simpl never.

Lemma nat_of_digitChar k :
  0 <= k <= 9 -> nat_of_ascii (digitChar k) = (48 + Z.to_nat k)%nat.
Proof. intros H. unfold digitChar. apply nat_ascii_embedding. lia. Qed.

Lemma isDigit_digitChar k : 0 <= k <= 9 -> isDigit (digitChar k) = true.
Proof.
  intros H. unfold isDigit. rewrite nat_of_digitChar by exact H.
  apply andb_true_iff. split; apply Nat.leb_le; lia.
Qed.

Lemma digitValue_digitChar k : 0 <= k <= 9 -> digitValue (digitChar k) = k.
Proof.
  intros H. unfold digitValue. rewrite nat_of_digitChar by exact H. lia.
Qed.

Lemma decimalDigits_step f n acc :
  decimalDigits (S f) n acc
  = if n / 10 =? 0 then String (digitChar (n mod 10)) acc
    else decimalDigits f (n / 10) (String (digitChar (n mod 10)) acc).
Proof. reflexivity. Qed.

(** A year of four digits is written with exactly those digits. *)
Lemma numberToString_4 y :
  1000 <= y <= 9999 ->
  numberToString y
  = String (digitChar (y / 1000)) (String (digitChar (y / 100 mod 10))
      (String (digitChar (y / 10 mod 10)) (String (digitChar (y mod 10)) EmptyString))).
Proof.
  intros H. unfold numberToString.
  replace (y <? 0) with false by (symmetry; apply Z.ltb_ge; lia).
  rewrite decimalDigits_step.
  replace (y / 10 =? 0) with false
    by (symmetry; apply Z.eqb_neq; Z.div_mod_to_equations; lia).
  rewrite decimalDigits_step.
  replace (y / 10 / 10 =? 0) with false
    by (symmetry; apply Z.eqb_neq; Z.div_mod_to_equations; lia).
  rewrite decimalDigits_step.
  replace (y / 10 / 10 / 10 =? 0) with false
    by (symmetry; apply Z.eqb_neq; Z.div_mod_to_equations; lia).
  rewrite decimalDigits_step.
  replace (y / 10 / 10 / 10 / 10 =? 0) with true
    by (symmetry; apply Z.eqb_eq; Z.div_mod_to_equations; lia).
  replace (y / 10 / 10 / 10 mod 10) with (y / 1000) by (Z.div_mod_to_equations; lia).
  replace (y / 10 / 10 mod 10) with (y / 100 mod 10) by (Z.div_mod_to_equations; lia).
  reflexivity.
Qed.

(** A number below 100 padded to two places. *)
Lemma padStart2_numberToString n :
  0 <= n <= 99 ->
  padStart2 (numberToString n)
  = String (digitChar (n / 10)) (String (digitChar (n mod 10)) EmptyString).
Proof.
  intros H. unfold numberToString.
  replace (n <? 0) with false by (symmetry; apply Z.ltb_ge; lia).
  rewrite decimalDigits_step.
  destruct (Z.eqb_spec (n / 10) 0) as [E|E].
  - rewrite E. reflexivity.
  - rewrite decimalDigits_step.
    replace (n / 10 / 10 =? 0) with true
      by (symmetry; apply Z.eqb_eq; Z.div_mod_to_equations; lia).
    replace (n / 10 mod 10) with (n / 10) by (Z.div_mod_to_equations; lia).
    reflexivity.
Qed.

Lemma year_digits y :
  1000 <= y <= 9999 ->
  1000 * (y / 1000) + 100 * (y / 100 mod 10) + 10 * (y / 10 mod 10) + y mod 10 = y.
Proof. intros H. Z.div_mod_to_equations. lia. Qed.

Lemma two_digits n : 0 <= n <= 99 -> 10 * (n / 10) + n mod 10 = n.
Proof. intros H. Z.div_mod_to_equations. lia. Qed.

Lemma thousands_range y : 1000 <= y <= 9999 -> 0 <= y / 1000 <= 9.
Proof. intros H. Z.div_mod_to_equations. lia. Qed.

Lemma tens_range n : 0 <= n <= 99 -> 0 <= n / 10 <= 9.
Proof. intros H. Z.div_mod_to_equations. lia. Qed.

Lemma mod10_range n : 0 <= n mod 10 <= 9.
Proof. Z.div_mod_to_equations. lia. Qed.

Lemma isDateOnly_dateOnly y1 y2 y3 y4 m1 m2 d1 d2 :
  forallb isDigit [y1; y2; y3; y4; m1; m2; d1; d2] = true ->
  Beds24API.isDateOnly (dateOnly y1 y2 y3 y4 m1 m2 d1 d2) = true.
Proof.
  intros H. apply forallb8 in H.
  destruct H as (D1 & D2 & D3 & D4 & D5 & D6 & D7 & D8).
  unfold Beds24API.isDateOnly, dateOnly, allDigits. simpl.
  rewrite D1, D2, D3, D4, D5, D6, D7, D8. reflexivity.
Qed.

(** X25. [formatDate] and [parseDate] agree on the format: a date whose year
    has four digits is written as a date-only text, and parsing that text
    gives noon UTC of the same year, month and day. *)
Theorem formatDate_parseDate_round_trip dateParse (date : LocalDate) :
  1000 <= getFullYear date <= 9999 ->
  0 <= getMonth date <= 11 ->
  1 <= getDate date <= 31 ->
  Beds24API.isDateOnly (formatDate date) = true /\
  Beds24API.parseDate dateParse (Some (formatDate date))
  = Some (ValidDate (noonOf (getFullYear date) (getMonth date + 1) (getDate date))).
Proof.
  intros Hy Hm Hd.
  set (y := getFullYear date) in *. set (m := getMonth date + 1).
  set (d := getDate date) in *.
  assert (Hm' : 1 <= m <= 12) by (unfold m; lia).
  assert (Hf : formatDate date
               = dateOnly (digitChar (y / 1000)) (digitChar (y / 100 mod 10))
                   (digitChar (y / 10 mod 10)) (digitChar (y mod 10))
                   (digitChar (m / 10)) (digitChar (m mod 10))
                   (digitChar (d / 10)) (digitChar (d mod 10))).
  { unfold formatDate. fold y m d.
    rewrite (numberToString_4 y Hy), (padStart2_numberToString m),
      (padStart2_numberToString d) by lia.
    reflexivity. }
  assert (Hdig : forallb isDigit
                   [digitChar (y / 1000); digitChar (y / 100 mod 10);
                    digitChar (y / 10 mod 10); digitChar (y mod 10);
                    digitChar (m / 10); digitChar (m mod 10);
                    digitChar (d / 10); digitChar (d mod 10)] = true).
  { cbn [forallb].
    rewrite !isDigit_digitChar
      by first [apply mod10_range | apply thousands_range; exact Hy
               | apply tens_range; lia].
    reflexivity. }
  pose proof (proj1 (parse_dateOnly _ _ _ _ _ _ _ _ EmptyString dateParse Hdig)) as P.
  rewrite <- Hf in P.
  assert (Hn : number4 (digitChar (y / 1000)) (digitChar (y / 100 mod 10))
                 (digitChar (y / 10 mod 10)) (digitChar (y mod 10)) = y
               /\ number2 (digitChar (m / 10)) (digitChar (m mod 10)) = m
               /\ number2 (digitChar (d / 10)) (digitChar (d mod 10)) = d).
  { unfold number4, number2.
    rewrite !digitValue_digitChar
      by first [apply mod10_range | apply thousands_range; exact Hy
               | apply tens_range; lia].
    split; [apply year_digits, Hy|]. split; apply two_digits; lia. }
  destruct Hn as (N1 & N2 & N3). rewrite N1, N2, N3 in P.
  split; [|exact P].
  rewrite Hf. apply isDateOnly_dateOnly, Hdig.
Qed.

Lemma formatDate_parseDate_round_trip_witness :
  Beds24API.parseDate noDateParse
    (Some (formatDate {| getFullYear := 2024; getMonth := 2; getDate := 5 |}))
  = Some (ValidDate (noonOf 2024 3 5)).
Proof.
  apply (proj2 (formatDate_parseDate_round_trip noDateParse
                  {| getFullYear := 2024; getMonth := 2; getDate := 5 |}
                  ltac:(simpl; lia) ltac:(simpl; lia) ltac:(simpl; lia))).
Defined.

End FormatFacts.

(** ** ICS dates *)

Module IcsDateFacts.
Import JsDate JsString LabelSpec DateText DateTheorems ParseFacts.

Local Arguments isDigit : simpl never.
Local Arguments digitValue : simpl never.

Lemma digit_cases c :
  isDigit c = true ->
  In c ["0"; "1"; "2"; "3"; "4"; "5"; "6"; "7"; "8"; "9"]%char.
Proof.
  destruct c as [[] [] [] [] [] [] [] []]; intros H;
    try (vm_compute in H; discriminate H);
    simpl; repeat (first [left; reflexivity | right]).
Qed.

Lemma leadingDigits_all s :
  allDigits s = true -> IcsParser.leadingDigits s = s.
Proof.
  unfold allDigits. induction s as [|c r IH]; simpl; [reflexivity|].
  intros H. apply andb_true_iff in H. destruct H as [H1 H2].
  rewrite H1. f_equal. apply IH, H2.
Qed.

(** [parseInt] of a run of digits is the number they spell. *)
Lemma parseInt10_digits c r :
  isDigit c = true -> allDigits r = true ->
  IcsParser.parseInt10 (String c r) = Some (numberOfDigits (String c r)).
Proof.
  intros Hc Hr.
  assert (Hl : IcsParser.leadingDigits (String c r) = String c r).
  { apply leadingDigits_all. unfold allDigits in *. simpl. rewrite Hc. exact Hr. }
  destruct (digit_cases c Hc) as [<-|[<-|[<-|[<-|[<-|[<-|[<-|[<-|[<-|[<-|[]]]]]]]]]]];
    match goal with
    | |- IcsParser.parseInt10 (String ?d r) = _ =>
        change (IcsParser.parseInt10 (String d r))
          with (if String.eqb (IcsParser.leadingDigits (String d r)) EmptyString
                then None
                else Some (1 * numberOfDigits (IcsParser.leadingDigits (String d r))))
    end;
    rewrite Hl; simpl String.eqb; cbv iota; rewrite Z.mul_1_l; reflexivity.
Qed.

Lemma parseInt10_4 a b c d :
  isDigit a = true -> isDigit b = true -> isDigit c = true -> isDigit d = true ->
  IcsParser.parseInt10 (String a (String b (String c (String d EmptyString))))
  = Some (number4 a b c d).
Proof.
  intros Ha Hb Hc Hd. rewrite parseInt10_digits, numberOfDigits4; auto.
  unfold allDigits. simpl. rewrite Hb, Hc, Hd. reflexivity.
Qed.

Lemma parseInt10_2 a b :
  isDigit a = true -> isDigit b = true ->
  IcsParser.parseInt10 (String a (String b EmptyString)) = Some (number2 a b).
Proof.
  intros Ha Hb. rewrite parseInt10_digits, numberOfDigits2; auto.
  unfold allDigits. simpl. rewrite Hb. reflexivity.
Qed.

Lemma stripValueDate_digit c r :
  isDigit c = true ->
  IcsParser.stripValueDate (String c r) = String c r.
Proof.
  intros H.
  destruct (digit_cases c H) as [<-|[<-|[<-|[<-|[<-|[<-|[<-|[<-|[<-|[<-|[]]]]]]]]]]];
    reflexivity.
Qed.

(** The days that four digits of year, two of month and two of day can
    reach. *)
Lemma MakeDay_range y m d :
  0 <= y <= 9999 -> 0 <= m <= 99 -> 0 <= d <= 99 ->
  -800000 <= MakeDay (fullYear y) (m - 1) d <= 3100000.
Proof.
  intros Hy Hm Hd. unfold MakeDay.
  assert (Hf : 100 <= fullYear y <= 9999).
  { unfold fullYear. destruct (_ && _) eqn:E; [|].
    - apply andb_true_iff in E. destruct E as [E1 E2].
      apply Z.leb_le in E1, E2. lia.
    - apply andb_false_iff in E. destruct E as [E|E]; apply Z.leb_gt in E; lia. }
  set (ym := fullYear y + (m - 1) / 12).
  assert (Hym : 99 <= ym <= 10008).
  { unfold ym. assert (-1 <= (m - 1) / 12 <= 8); [|lia].
    clear - Hm. Z.div_mod_to_equations. lia. }
  pose proof (monthStart_range (InLeapYear ym) ((m - 1) mod 12)) as Hms.
  assert (HD : -700000 <= DayFromYear ym <= 3000000).
  { unfold DayFromYear. clear - Hym. Z.div_mod_to_equations. lia. }
  lia.
Qed.

(** X26. A date-only ICS value of eight digits, parsed in a zone at offset
    [tz] from UTC, is the local midnight of the day the digits spell, so
    read in that same zone it falls on that day. *)
Theorem ics_date_only_same_zone tz (y1 y2 y3 y4 m1 m2 d1 d2 : ascii) :
  forallb isDigit [y1; y2; y3; y4; m1; m2; d1; d2] = true ->
  - (24 * 3600000) <= tz <= 24 * 3600000 ->
  IcsParser.parseICSDate tz (Some (date8 y1 y2 y3 y4 m1 m2 d1 d2))
  = Some (ValidDate
            (MakeDate (MakeDay (fullYear (number4 y1 y2 y3 y4))
                               (number2 m1 m2 - 1) (number2 d1 d2)) 0 - tz))
  /\ localDay tz
       (MakeDate (MakeDay (fullYear (number4 y1 y2 y3 y4))
                          (number2 m1 m2 - 1) (number2 d1 d2)) 0 - tz)
     = MakeDay (fullYear (number4 y1 y2 y3 y4)) (number2 m1 m2 - 1) (number2 d1 d2).
Proof.
  intros H Htz. apply forallb8 in H.
  destruct H as (Hy1 & Hy2 & Hy3 & Hy4 & Hm1 & Hm2 & Hd1 & Hd2).
  pose proof (MakeDay_range _ _ _ (number4_range _ _ _ _ Hy1 Hy2 Hy3 Hy4)
                (number2_range _ _ Hm1 Hm2) (number2_range _ _ Hd1 Hd2)) as HD.
  set (D := MakeDay (fullYear (number4 y1 y2 y3 y4)) (number2 m1 m2 - 1) (number2 d1 d2)) in *.
  split.
  - unfold IcsParser.parseICSDate, date8.
    change (negb (truthy (Some (String y1 ?r)))) with false. cbv iota.
    change (orEmpty (Some ?s)) with s.
    rewrite (stripValueDate_digit y1 _ Hy1).
    cbn [substring String.length Nat.ltb Nat.leb].
    rewrite (parseInt10_4 y1 y2 y3 y4), (parseInt10_2 m1 m2), (parseInt10_2 d1 d2) by assumption.
    cbn [option_map]. unfold DateLocal, TimeClip. fold D.
    replace (Z.abs (MakeDate D 0 - tz) <=? 8640000000000000) with true; [reflexivity|].
    symmetry. apply Z.leb_le. unfold MakeDate, msPerDay. lia.
  - unfold localDay, MakeDate.
    replace (D * msPerDay + 0 - tz + tz) with (D * msPerDay) by lia.
    apply Z.div_mul. unfold msPerDay. lia.
Qed.

Lemma ics_date_only_same_zone_witness :
  localDay (2 * 3600000) (MakeDate (MakeDay 2024 2 15) 0 - 2 * 3600000)
  = MakeDay 2024 2 15.
Proof.
  apply (proj2 (ics_date_only_same_zone (2 * 3600000)
                  "2" "0" "2" "4" "0" "3" "1" "5" eq_refl ltac:(lia))).
Defined.

Lemma forallb6 (p : ascii -> bool) a b c d e f :
  forallb p [a; b; c; d; e; f] = true ->
  p a = true /\ p b = true /\ p c = true /\ p d = true /\ p e = true /\ p f = true.
Proof.
  cbn [forallb]. intros H.
  repeat (apply andb_true_iff in H; destruct H as [? H]). tauto.
Qed.

(** X27. An ICS value with a time part (eight digits, any separator, six
    digits, anything after them) is read as that wall-clock time in UTC,
    the same instant in every zone. *)
Theorem ics_date_time_is_utc tz (y1 y2 y3 y4 m1 m2 d1 d2 sep h1 h2 n1 n2 s1 s2 : ascii)
    (rest : string) :
  forallb isDigit [y1; y2; y3; y4; m1; m2; d1; d2] = true ->
  forallb isDigit [h1; h2; n1; n2; s1; s2] = true ->
  IcsParser.parseICSDate tz
    (Some (String.append (date8 y1 y2 y3 y4 m1 m2 d1 d2)
             (String sep (time6 h1 h2 n1 n2 s1 s2 rest))))
  = Some (ValidDate
            (MakeDate (MakeDay (fullYear (number4 y1 y2 y3 y4))
                               (number2 m1 m2 - 1) (number2 d1 d2))
                      (MakeTime (number2 h1 h2) (number2 n1 n2) (number2 s1 s2) 0))).
Proof.
  intros H H'. apply forallb8 in H. apply forallb6 in H'.
  destruct H as (Hy1 & Hy2 & Hy3 & Hy4 & Hm1 & Hm2 & Hd1 & Hd2).
  destruct H' as (Hh1 & Hh2 & Hn1 & Hn2 & Hs1 & Hs2).
  pose proof (MakeDay_range _ _ _ (number4_range _ _ _ _ Hy1 Hy2 Hy3 Hy4)
                (number2_range _ _ Hm1 Hm2) (number2_range _ _ Hd1 Hd2)) as HD.
  pose proof (number2_range _ _ Hh1 Hh2) as Hh.
  pose proof (number2_range _ _ Hn1 Hn2) as Hn.
  pose proof (number2_range _ _ Hs1 Hs2) as Hs.
  set (D := MakeDay (fullYear (number4 y1 y2 y3 y4)) (number2 m1 m2 - 1) (number2 d1 d2)) in *.
  unfold IcsParser.parseICSDate, date8, time6. cbv [String.append].
  change (negb (truthy (Some (String y1 ?r)))) with false. cbv iota.
  change (orEmpty (Some ?s)) with s.
  rewrite (stripValueDate_digit y1 _ Hy1).
  cbn [substring].
  rewrite !substring_0_0.
  rewrite (parseInt10_4 y1 y2 y3 y4), (parseInt10_2 m1 m2), (parseInt10_2 d1 d2),
    (parseInt10_2 h1 h2), (parseInt10_2 n1 n2), (parseInt10_2 s1 s2) by assumption.
  cbn [option_map String.length].
  replace (8 <? _)%nat with true by (symmetry; apply Nat.ltb_lt; lia).
  unfold DateUTC, TimeClip. fold D.
  replace (Z.abs _ <=? 8640000000000000) with true; [reflexivity|].
  symmetry. apply Z.leb_le. unfold MakeDate, MakeTime, msPerDay. lia.
Qed.

Lemma ics_date_time_is_utc_witness :
  IcsParser.parseICSDate (2 * 3600000) (Some "20240315T101500Z"%string)
  = Some (ValidDate (MakeDate (MakeDay 2024 2 15) (MakeTime 10 15 0 0))).
Proof.
  apply (ics_date_time_is_utc (2 * 3600000)
           "2" "0" "2" "4" "0" "3" "1" "5" "T" "1" "0" "1" "5" "0" "0" "Z"
           eq_refl eq_refl).
Defined.

End IcsDateFacts.

(** ** The iCalendar text parser *)

Module IcsTextFacts.
Import JsDate JsString Presentation PresentationFacts FieldFacts IcsText IcsTextSpec.

Lemma splitLines_nonempty s : splitLines s <> [].
Proof.
  induction s as [|c r IH]; simpl; [discriminate|].
  destruct (Ascii.eqb c LF); [discriminate|].
  destruct (Ascii.eqb c CR && startsWithLF r); [exact IH|].
  destruct (splitLines r); discriminate.
Qed.

Lemma splitLines_toCRLF s :
  hasNoCR s = true -> splitLines (toCRLF s) = splitLines s.
Proof.
  unfold hasNoCR, toCRLF. induction s as [|c r IH]; intros H; [reflexivity|].
  simpl in H. apply andb_true_iff in H as [Hc Hr].
  apply negb_true_iff in Hc. specialize (IH Hr).
  simpl replaceAll. destruct (Ascii.eqb_spec c LF) as [->|Hn].
  - cbv [String.append]. simpl. rewrite IH. reflexivity.
  - simpl. rewrite (proj2 (Ascii.eqb_neq _ _) Hn), Hc, IH. reflexivity.
Qed.

(** X28. [parseICS] reads a text with no carriage return and the same text
    with every line feed written as carriage return and line feed to the
    same events. *)
Theorem parseICS_line_endings tz icsData :
  hasNoCR icsData = true ->
  parseICS tz (toCRLF icsData) = parseICS tz icsData.
Proof.
  intros H. unfold parseICS, parseState.
  rewrite (splitLines_toCRLF _ H). reflexivity.
Qed.

Lemma parseICS_line_endings_witness :
  parseICS 0 (toCRLF sampleCalendar) = parseICS 0 sampleCalendar.
Proof.
  refine (parseICS_line_endings 0 sampleCalendar _). vm_compute. reflexivity.
Defined.

(** *** Texts one after the other *)

Lemma trimEnd_CR s : trimEnd (String.append s (String CR EmptyString)) = trimEnd s.
Proof.
  induction s as [|c r IH]; [reflexivity|].
  rewrite append_cons. simpl. rewrite IH. reflexivity.
Qed.

Lemma trim_CR s : trim (String.append s (String CR EmptyString)) = trim s.
Proof.
  unfold trim, trimStart. induction s as [|c r IH]; [reflexivity|].
  rewrite append_cons. simpl. destruct (IcsParser.isSpace c); [exact IH|].
  rewrite <- append_cons. apply trimEnd_CR.
Qed.

Lemma sameLine_trim l l' : sameLine l l' -> trim l' = trim l.
Proof. intros [-> | ->]; [reflexivity|apply trim_CR]. Qed.

Lemma sameLine_isContinuation l l' :
  sameLine l l' -> isContinuation l' = isContinuation l.
Proof. intros [-> | ->]; [reflexivity|]. destruct l; reflexivity. Qed.

Lemma sameLine_cons c l l' : sameLine l l' -> sameLine (String c l) (String c l').
Proof. intros [-> | ->]; [left|right]; reflexivity. Qed.

Lemma sameLine_refl l : sameLine l l.
Proof. left. reflexivity. Qed.

Lemma Forall2_sameLine_refl ls : Forall2 sameLine ls ls.
Proof. induction ls; constructor; [apply sameLine_refl|assumption]. Qed.

(** The lines of two texts joined by a line feed are the lines of the
    first, its last line possibly without a final carriage return, and
    then the lines of the second. *)
Lemma splitLines_append a b :
  Forall2 sameLine (splitLines (String.append a (String LF b)))
                   (splitLines a ++ splitLines b).
Proof.
  induction a as [|c r IH].
  - cbv [String.append]. simpl. constructor; [apply sameLine_refl|apply Forall2_sameLine_refl].
  - rewrite append_cons. simpl.
    destruct (Ascii.eqb_spec c LF) as [->|Hn].
    + simpl. constructor; [apply sameLine_refl|exact IH].
    + destruct (Ascii.eqb_spec c CR) as [->|Hc]; simpl.
      * destruct r as [|c' r'].
        { cbv [String.append]. simpl. constructor;
            [right; reflexivity|apply Forall2_sameLine_refl]. }
        rewrite append_cons. simpl startsWithLF.
        destruct (Ascii.eqb c' LF) eqn:E; [exact IH|].
        rewrite append_cons in IH.
        destruct (splitLines (String c' (String.append r' (String LF b)))) as [|x xs];
          destruct (splitLines (String c' r')) as [|y ys] eqn:Ey;
          try (inversion IH; fail);
          try (exfalso; apply (splitLines_nonempty (String c' r')); exact Ey).
        simpl in IH. inversion IH; subst. simpl.
        constructor; [apply sameLine_cons; assumption|assumption].
      * destruct (splitLines (String.append r (String LF b))) as [|x xs];
          destruct (splitLines r) as [|y ys] eqn:Ey;
          try (exfalso; apply (splitLines_nonempty r); exact Ey).
        { inversion IH. }
        simpl in IH. inversion IH; subst. simpl.
        constructor; [apply sameLine_cons; assumption|assumption].
Qed.

Lemma parseLines_sameLine tz ls ls' :
  Forall2 sameLine ls ls' ->
  forall line st, parseLines tz ls line st = parseLines tz ls' line st.
Proof.
  induction 1 as [|l l' ls ls' Hl _ IH]; intros line st; [reflexivity|].
  simpl. rewrite (sameLine_isContinuation _ _ Hl), (sameLine_trim _ _ Hl).
  destruct (isContinuation l); apply IH.
Qed.

Lemma parseLines_app tz ra m0 rb : isContinuation m0 = false ->
  forall line st,
  parseLines tz (ra ++ m0 :: rb) line st
  = parseLines tz rb (trim m0) (parseLines tz ra line st).
Proof.
  intros Hm. induction ra as [|l ra IH]; intros line st; simpl.
  - rewrite Hm. reflexivity.
  - destruct (isContinuation l); apply IH.
Qed.

Lemma handleLine_events tz line cur evs :
  handleLine tz line (cur, evs)
  = (fst (handleLine tz line (cur, [])),
     evs ++ snd (handleLine tz line (cur, []))).
Proof.
  unfold handleLine.
  destruct (String.eqb line "BEGIN:VEVENT"); simpl; [rewrite app_nil_r; reflexivity|].
  destruct cur as [e|]; simpl; [|rewrite app_nil_r; reflexivity].
  destruct (String.eqb line "END:VEVENT"); simpl; [reflexivity|].
  destruct (splitAtColon line) as [[key value]|]; simpl;
    [|rewrite app_nil_r; reflexivity].
  destruct (String.eqb key EmptyString); simpl; rewrite app_nil_r; reflexivity.
Qed.

Lemma parseLines_events tz ls : forall line cur evs,
  parseLines tz ls line (cur, evs)
  = (fst (parseLines tz ls line (cur, [])),
     evs ++ snd (parseLines tz ls line (cur, []))).
Proof.
  induction ls as [|l ls IH]; intros line cur evs; cbn [parseLines].
  - apply handleLine_events.
  - destruct (isContinuation l); [apply IH|].
    rewrite (handleLine_events tz line cur evs).
    destruct (handleLine tz line (cur, [])) as [c new] eqn:E. simpl.
    rewrite (IH (trim l) c (evs ++ new)), (IH (trim l) c new).
    simpl. rewrite app_assoc. reflexivity.
Qed.

Lemma splitLines_head b :
  exists m0 rb, splitLines b = m0 :: rb /\ isContinuation m0 = isContinuation b.
Proof.
  destruct b as [|c r]; [exists EmptyString, []; split; reflexivity|].
  cbn [splitLines]. destruct (Ascii.eqb_spec c LF) as [->|Hn].
  - eexists _, _. split; reflexivity.
  - destruct (Ascii.eqb c CR && startsWithLF r) eqn:E.
    + apply andb_true_iff in E as [Ec Er].
      apply Ascii.eqb_eq in Ec. subst c.
      destruct r as [|c' r']; [discriminate|]. simpl in Er.
      apply Ascii.eqb_eq in Er. subst c'.
      eexists _, _. split; reflexivity.
    + destruct (splitLines r); eexists _, _; split; reflexivity.
Qed.

(** X29. When [parseICS] ends the first of two texts outside an event, and
    the second does not start with a space or a tab, the two texts joined
    by a line feed give the events of the first followed by the events of
    the second. *)
Theorem parseICS_concatenation tz a b :
  fst (parseState tz a) = None ->
  isContinuation b = false ->
  parseICS tz (String.append a (String LF b)) = parseICS tz a ++ parseICS tz b.
Proof.
  intros Ha Hb. unfold parseICS, parseState in *.
  pose proof (splitLines_append a b) as HF.
  destruct (splitLines_head b) as (m0 & rb & Eb & Hm). rewrite Hb in Hm.
  rewrite Eb in *.
  destruct (splitLines a) as [|l0 ra] eqn:Ea;
    [exfalso; apply (splitLines_nonempty a); exact Ea|].
  destruct (splitLines (String.append a (String LF b))) as [|x xs];
    [inversion HF|].
  simpl in HF. inversion HF as [|? ? ? ? Hx Hxs]; subst.
  rewrite (parseLines_sameLine tz _ _ Hxs), <- (sameLine_trim _ _ Hx).
  rewrite (parseLines_app tz ra m0 rb Hm).
  destruct (parseLines tz ra (trim l0) (None, [])) as [cur evs] eqn:E.
  simpl in Ha. subst cur.
  rewrite (parseLines_events tz rb (trim m0) None evs). reflexivity.
Qed.

Lemma parseICS_concatenation_witness :
  parseICS 0 (String.append sampleCalendar (String LF secondCalendar))
  = parseICS 0 sampleCalendar ++ parseICS 0 secondCalendar.
Proof.
  refine (parseICS_concatenation 0 sampleCalendar secondCalendar _ _);
    vm_compute; reflexivity.
Defined.

End IcsTextFacts.

(** ** Guest names of calendar events *)

Module IcsNameFacts.
Import JsString Presentation PresentationFacts FieldFacts IcsText.

(** X30. [extractGuestName] of the iCalendar module never returns the empty
    text, and what it returns has no white space at either end, whatever
    the summary is. *)
Theorem ics_guest_name_trimmed_nonempty summary :
  extractGuestName summary <> EmptyString /\
  trim (extractGuestName summary) = extractGuestName summary.
Proof.
  unfold extractGuestName.
  destruct (negb (truthy summary)); [split; [discriminate|reflexivity]|].
  set (name := trim _).
  destruct (String.eqb_spec name EmptyString) as [E|E].
  - split; [discriminate|reflexivity].
  - split; [exact E|]. subst name. apply trim_idempotent.
Qed.

End IcsNameFacts.
